(** * Schema-adaptive metric resolution layer of [dashboard.py]

    A shallow embedding of the branching logic of the dashboard script:
    the state identifier normalizer [to_state_code], the metric
    expression registry [metric_options], the source resolver
    [pick_source], the national baseline queries [national_q], the
    trend frame [trend] and the KPI [delta].

    Conventions.
    - A Python [str] is a list of Unicode code points ([list N]).  The
      character database used by [str.isalpha], [str.isspace],
      [str.strip], [str.split], [str.upper], [str.lower] and
      [str.title] is embedded for all code points, as CPython 3.11 has
      it (Unicode 14.0.0).
    - A SQL cell is [option]: [None] is NULL.  Numbers are rationals
      ([Qc]); a pandas float cell is a rational or NaN.  Rounding is not
      modelled: sums and quotients are the exact ones.
    - A data frame is the list of its rows, in row order. *)

From Stdlib Require Import String Ascii QArith Qcanon.
From stdpp Require Import base option list strings gmap sets numbers sorting lexico.

Local Open Scope N_scope.

(** ** The character database

    The tables that CPython's [str] methods consult, as CPython 3.11
    has them (Unicode 14.0.0), for all code points U+0000..U+10FFFF.
    A table of ranges lists [(first, last)] in ascending order.  A
    number above U+10FFFF is no code point; it is in no table. *)

Module Unicode.

(** [_PyUnicode_IsWhitespace]: the code points that [str.isspace],
    [str.strip] and [str.split] take as whitespace. *)
Definition WHITESPACE : list (N * N) :=
  [ (9, 13); (28, 32); (133, 133); (160, 160); (5760, 5760); (8192, 8202);
    (8232, 8233); (8239, 8239); (8287, 8287); (12288, 12288) ].

(** [_PyUnicode_IsAlpha]: the letters (categories Lu, Ll, Lt, Lm, Lo). *)
Definition ALPHA : list (N * N) :=
  [ (65, 90); (97, 122); (170, 170); (181, 181); (186, 186); (192, 214);
    (216, 246); (248, 705); (710, 721); (736, 740); (748, 748); (750, 750);
    (880, 884); (886, 887); (890, 893); (895, 895); (902, 902); (904, 906);
    (908, 908); (910, 929); (931, 1013); (1015, 1153); (1162, 1327);
    (1329, 1366); (1369, 1369); (1376, 1416); (1488, 1514); (1519, 1522);
    (1568, 1610); (1646, 1647); (1649, 1747); (1749, 1749); (1765, 1766);
    (1774, 1775); (1786, 1788); (1791, 1791); (1808, 1808); (1810, 1839);
    (1869, 1957); (1969, 1969); (1994, 2026); (2036, 2037); (2042, 2042);
    (2048, 2069); (2074, 2074); (2084, 2084); (2088, 2088); (2112, 2136);
    (2144, 2154); (2160, 2183); (2185, 2190); (2208, 2249); (2308, 2361);
    (2365, 2365); (2384, 2384); (2392, 2401); (2417, 2432); (2437, 2444);
    (2447, 2448); (2451, 2472); (2474, 2480); (2482, 2482); (2486, 2489);
    (2493, 2493); (2510, 2510); (2524, 2525); (2527, 2529); (2544, 2545);
    (2556, 2556); (2565, 2570); (2575, 2576); (2579, 2600); (2602, 2608);
    (2610, 2611); (2613, 2614); (2616, 2617); (2649, 2652); (2654, 2654);
    (2674, 2676); (2693, 2701); (2703, 2705); (2707, 2728); (2730, 2736);
    (2738, 2739); (2741, 2745); (2749, 2749); (2768, 2768); (2784, 2785);
    (2809, 2809); (2821, 2828); (2831, 2832); (2835, 2856); (2858, 2864);
    (2866, 2867); (2869, 2873); (2877, 2877); (2908, 2909); (2911, 2913);
    (2929, 2929); (2947, 2947); (2949, 2954); (2958, 2960); (2962, 2965);
    (2969, 2970); (2972, 2972); (2974, 2975); (2979, 2980); (2984, 2986);
    (2990, 3001); (3024, 3024); (3077, 3084); (3086, 3088); (3090, 3112);
    (3114, 3129); (3133, 3133); (3160, 3162); (3165, 3165); (3168, 3169);
    (3200, 3200); (3205, 3212); (3214, 3216); (3218, 3240); (3242, 3251);
    (3253, 3257); (3261, 3261); (3293, 3294); (3296, 3297); (3313, 3314);
    (3332, 3340); (3342, 3344); (3346, 3386); (3389, 3389); (3406, 3406);
    (3412, 3414); (3423, 3425); (3450, 3455); (3461, 3478); (3482, 3505);
    (3507, 3515); (3517, 3517); (3520, 3526); (3585, 3632); (3634, 3635);
    (3648, 3654); (3713, 3714); (3716, 3716); (3718, 3722); (3724, 3747);
    (3749, 3749); (3751, 3760); (3762, 3763); (3773, 3773); (3776, 3780);
    (3782, 3782); (3804, 3807); (3840, 3840); (3904, 3911); (3913, 3948);
    (3976, 3980); (4096, 4138); (4159, 4159); (4176, 4181); (4186, 4189);
    (4193, 4193); (4197, 4198); (4206, 4208); (4213, 4225); (4238, 4238);
    (4256, 4293); (4295, 4295); (4301, 4301); (4304, 4346); (4348, 4680);
    (4682, 4685); (4688, 4694); (4696, 4696); (4698, 4701); (4704, 4744);
    (4746, 4749); (4752, 4784); (4786, 4789); (4792, 4798); (4800, 4800);
    (4802, 4805); (4808, 4822); (4824, 4880); (4882, 4885); (4888, 4954);
    (4992, 5007); (5024, 5109); (5112, 5117); (5121, 5740); (5743, 5759);
    (5761, 5786); (5792, 5866); (5873, 5880); (5888, 5905); (5919, 5937);
    (5952, 5969); (5984, 5996); (5998, 6000); (6016, 6067); (6103, 6103);
    (6108, 6108); (6176, 6264); (6272, 6276); (6279, 6312); (6314, 6314);
    (6320, 6389); (6400, 6430); (6480, 6509); (6512, 6516); (6528, 6571);
    (6576, 6601); (6656, 6678); (6688, 6740); (6823, 6823); (6917, 6963);
    (6981, 6988); (7043, 7072); (7086, 7087); (7098, 7141); (7168, 7203);
    (7245, 7247); (7258, 7293); (7296, 7304); (7312, 7354); (7357, 7359);
    (7401, 7404); (7406, 7411); (7413, 7414); (7418, 7418); (7424, 7615);
    (7680, 7957); (7960, 7965); (7968, 8005); (8008, 8013); (8016, 8023);
    (8025, 8025); (8027, 8027); (8029, 8029); (8031, 8061); (8064, 8116);
    (8118, 8124); (8126, 8126); (8130, 8132); (8134, 8140); (8144, 8147);
    (8150, 8155); (8160, 8172); (8178, 8180); (8182, 8188); (8305, 8305);
    (8319, 8319); (8336, 8348); (8450, 8450); (8455, 8455); (8458, 8467);
    (8469, 8469); (8473, 8477); (8484, 8484); (8486, 8486); (8488, 8488);
    (8490, 8493); (8495, 8505); (8508, 8511); (8517, 8521); (8526, 8526);
    (8579, 8580); (11264, 11492); (11499, 11502); (11506, 11507);
    (11520, 11557); (11559, 11559); (11565, 11565); (11568, 11623);
    (11631, 11631); (11648, 11670); (11680, 11686); (11688, 11694);
    (11696, 11702); (11704, 11710); (11712, 11718); (11720, 11726);
    (11728, 11734); (11736, 11742); (11823, 11823); (12293, 12294);
    (12337, 12341); (12347, 12348); (12353, 12438); (12445, 12447);
    (12449, 12538); (12540, 12543); (12549, 12591); (12593, 12686);
    (12704, 12735); (12784, 12799); (13312, 19903); (19968, 42124);
    (42192, 42237); (42240, 42508); (42512, 42527); (42538, 42539);
    (42560, 42606); (42623, 42653); (42656, 42725); (42775, 42783);
    (42786, 42888); (42891, 42954); (42960, 42961); (42963, 42963);
    (42965, 42969); (42994, 43009); (43011, 43013); (43015, 43018);
    (43020, 43042); (43072, 43123); (43138, 43187); (43250, 43255);
    (43259, 43259); (43261, 43262); (43274, 43301); (43312, 43334);
    (43360, 43388); (43396, 43442); (43471, 43471); (43488, 43492);
    (43494, 43503); (43514, 43518); (43520, 43560); (43584, 43586);
    (43588, 43595); (43616, 43638); (43642, 43642); (43646, 43695);
    (43697, 43697); (43701, 43702); (43705, 43709); (43712, 43712);
    (43714, 43714); (43739, 43741); (43744, 43754); (43762, 43764);
    (43777, 43782); (43785, 43790); (43793, 43798); (43808, 43814);
    (43816, 43822); (43824, 43866); (43868, 43881); (43888, 44002);
    (44032, 55203); (55216, 55238); (55243, 55291); (63744, 64109);
    (64112, 64217); (64256, 64262); (64275, 64279); (64285, 64285);
    (64287, 64296); (64298, 64310); (64312, 64316); (64318, 64318);
    (64320, 64321); (64323, 64324); (64326, 64433); (64467, 64829);
    (64848, 64911); (64914, 64967); (65008, 65019); (65136, 65140);
    (65142, 65276); (65313, 65338); (65345, 65370); (65382, 65470);
    (65474, 65479); (65482, 65487); (65490, 65495); (65498, 65500);
    (65536, 65547); (65549, 65574); (65576, 65594); (65596, 65597);
    (65599, 65613); (65616, 65629); (65664, 65786); (66176, 66204);
    (66208, 66256); (66304, 66335); (66349, 66368); (66370, 66377);
    (66384, 66421); (66432, 66461); (66464, 66499); (66504, 66511);
    (66560, 66717); (66736, 66771); (66776, 66811); (66816, 66855);
    (66864, 66915); (66928, 66938); (66940, 66954); (66956, 66962);
    (66964, 66965); (66967, 66977); (66979, 66993); (66995, 67001);
    (67003, 67004); (67072, 67382); (67392, 67413); (67424, 67431);
    (67456, 67461); (67463, 67504); (67506, 67514); (67584, 67589);
    (67592, 67592); (67594, 67637); (67639, 67640); (67644, 67644);
    (67647, 67669); (67680, 67702); (67712, 67742); (67808, 67826);
    (67828, 67829); (67840, 67861); (67872, 67897); (67968, 68023);
    (68030, 68031); (68096, 68096); (68112, 68115); (68117, 68119);
    (68121, 68149); (68192, 68220); (68224, 68252); (68288, 68295);
    (68297, 68324); (68352, 68405); (68416, 68437); (68448, 68466);
    (68480, 68497); (68608, 68680); (68736, 68786); (68800, 68850);
    (68864, 68899); (69248, 69289); (69296, 69297); (69376, 69404);
    (69415, 69415); (69424, 69445); (69488, 69505); (69552, 69572);
    (69600, 69622); (69635, 69687); (69745, 69746); (69749, 69749);
    (69763, 69807); (69840, 69864); (69891, 69926); (69956, 69956);
    (69959, 69959); (69968, 70002); (70006, 70006); (70019, 70066);
    (70081, 70084); (70106, 70106); (70108, 70108); (70144, 70161);
    (70163, 70187); (70272, 70278); (70280, 70280); (70282, 70285);
    (70287, 70301); (70303, 70312); (70320, 70366); (70405, 70412);
    (70415, 70416); (70419, 70440); (70442, 70448); (70450, 70451);
    (70453, 70457); (70461, 70461); (70480, 70480); (70493, 70497);
    (70656, 70708); (70727, 70730); (70751, 70753); (70784, 70831);
    (70852, 70853); (70855, 70855); (71040, 71086); (71128, 71131);
    (71168, 71215); (71236, 71236); (71296, 71338); (71352, 71352);
    (71424, 71450); (71488, 71494); (71680, 71723); (71840, 71903);
    (71935, 71942); (71945, 71945); (71948, 71955); (71957, 71958);
    (71960, 71983); (71999, 71999); (72001, 72001); (72096, 72103);
    (72106, 72144); (72161, 72161); (72163, 72163); (72192, 72192);
    (72203, 72242); (72250, 72250); (72272, 72272); (72284, 72329);
    (72349, 72349); (72368, 72440); (72704, 72712); (72714, 72750);
    (72768, 72768); (72818, 72847); (72960, 72966); (72968, 72969);
    (72971, 73008); (73030, 73030); (73056, 73061); (73063, 73064);
    (73066, 73097); (73112, 73112); (73440, 73458); (73648, 73648);
    (73728, 74649); (74880, 75075); (77712, 77808); (77824, 78894);
    (82944, 83526); (92160, 92728); (92736, 92766); (92784, 92862);
    (92880, 92909); (92928, 92975); (92992, 92995); (93027, 93047);
    (93053, 93071); (93760, 93823); (93952, 94026); (94032, 94032);
    (94099, 94111); (94176, 94177); (94179, 94179); (94208, 100343);
    (100352, 101589); (101632, 101640); (110576, 110579); (110581, 110587);
    (110589, 110590); (110592, 110882); (110928, 110930); (110948, 110951);
    (110960, 111355); (113664, 113770); (113776, 113788); (113792, 113800);
    (113808, 113817); (119808, 119892); (119894, 119964); (119966, 119967);
    (119970, 119970); (119973, 119974); (119977, 119980); (119982, 119993);
    (119995, 119995); (119997, 120003); (120005, 120069); (120071, 120074);
    (120077, 120084); (120086, 120092); (120094, 120121); (120123, 120126);
    (120128, 120132); (120134, 120134); (120138, 120144); (120146, 120485);
    (120488, 120512); (120514, 120538); (120540, 120570); (120572, 120596);
    (120598, 120628); (120630, 120654); (120656, 120686); (120688, 120712);
    (120714, 120744); (120746, 120770); (120772, 120779); (122624, 122654);
    (123136, 123180); (123191, 123197); (123214, 123214); (123536, 123565);
    (123584, 123627); (124896, 124902); (124904, 124907); (124909, 124910);
    (124912, 124926); (124928, 125124); (125184, 125251); (125259, 125259);
    (126464, 126467); (126469, 126495); (126497, 126498); (126500, 126500);
    (126503, 126503); (126505, 126514); (126516, 126519); (126521, 126521);
    (126523, 126523); (126530, 126530); (126535, 126535); (126537, 126537);
    (126539, 126539); (126541, 126543); (126545, 126546); (126548, 126548);
    (126551, 126551); (126553, 126553); (126555, 126555); (126557, 126557);
    (126559, 126559); (126561, 126562); (126564, 126564); (126567, 126570);
    (126572, 126578); (126580, 126583); (126585, 126588); (126590, 126590);
    (126592, 126601); (126603, 126619); (126625, 126627); (126629, 126633);
    (126635, 126651); (131072, 173791); (173824, 177976); (177984, 178205);
    (178208, 183969); (183984, 191456); (194560, 195101); (196608, 201546) ].

(** [_PyUnicode_IsCased]. *)
Definition CASED : list (N * N) :=
  [ (65, 90); (97, 122); (170, 170); (181, 181); (186, 186); (192, 214);
    (216, 246); (248, 442); (444, 447); (452, 659); (661, 696); (704, 705);
    (736, 740); (837, 837); (880, 883); (886, 887); (890, 893); (895, 895);
    (902, 902); (904, 906); (908, 908); (910, 929); (931, 1013);
    (1015, 1153); (1162, 1327); (1329, 1366); (1376, 1416); (4256, 4293);
    (4295, 4295); (4301, 4301); (4304, 4346); (4349, 4351); (5024, 5109);
    (5112, 5117); (7296, 7304); (7312, 7354); (7357, 7359); (7424, 7615);
    (7680, 7957); (7960, 7965); (7968, 8005); (8008, 8013); (8016, 8023);
    (8025, 8025); (8027, 8027); (8029, 8029); (8031, 8061); (8064, 8116);
    (8118, 8124); (8126, 8126); (8130, 8132); (8134, 8140); (8144, 8147);
    (8150, 8155); (8160, 8172); (8178, 8180); (8182, 8188); (8305, 8305);
    (8319, 8319); (8336, 8348); (8450, 8450); (8455, 8455); (8458, 8467);
    (8469, 8469); (8473, 8477); (8484, 8484); (8486, 8486); (8488, 8488);
    (8490, 8493); (8495, 8500); (8505, 8505); (8508, 8511); (8517, 8521);
    (8526, 8526); (8544, 8575); (8579, 8580); (9398, 9449); (11264, 11492);
    (11499, 11502); (11506, 11507); (11520, 11557); (11559, 11559);
    (11565, 11565); (42560, 42605); (42624, 42653); (42786, 42887);
    (42891, 42894); (42896, 42954); (42960, 42961); (42963, 42963);
    (42965, 42969); (42997, 42998); (43000, 43002); (43824, 43866);
    (43868, 43880); (43888, 43967); (64256, 64262); (64275, 64279);
    (65313, 65338); (65345, 65370); (66560, 66639); (66736, 66771);
    (66776, 66811); (66928, 66938); (66940, 66954); (66956, 66962);
    (66964, 66965); (66967, 66977); (66979, 66993); (66995, 67001);
    (67003, 67004); (67456, 67456); (67459, 67461); (67463, 67504);
    (67506, 67514); (68736, 68786); (68800, 68850); (71840, 71903);
    (93760, 93823); (119808, 119892); (119894, 119964); (119966, 119967);
    (119970, 119970); (119973, 119974); (119977, 119980); (119982, 119993);
    (119995, 119995); (119997, 120003); (120005, 120069); (120071, 120074);
    (120077, 120084); (120086, 120092); (120094, 120121); (120123, 120126);
    (120128, 120132); (120134, 120134); (120138, 120144); (120146, 120485);
    (120488, 120512); (120514, 120538); (120540, 120570); (120572, 120596);
    (120598, 120628); (120630, 120654); (120656, 120686); (120688, 120712);
    (120714, 120744); (120746, 120770); (120772, 120779); (122624, 122633);
    (122635, 122654); (125184, 125251); (127280, 127305); (127312, 127337);
    (127344, 127369) ].

(** [_PyUnicode_IsCaseIgnorable]. *)
Definition CASE_IGNORABLE : list (N * N) :=
  [ (39, 39); (46, 46); (58, 58); (94, 94); (96, 96); (168, 168); (173, 173);
    (175, 175); (180, 180); (183, 184); (688, 879); (884, 885); (890, 890);
    (900, 901); (903, 903); (1155, 1161); (1369, 1369); (1375, 1375);
    (1425, 1469); (1471, 1471); (1473, 1474); (1476, 1477); (1479, 1479);
    (1524, 1524); (1536, 1541); (1552, 1562); (1564, 1564); (1600, 1600);
    (1611, 1631); (1648, 1648); (1750, 1757); (1759, 1768); (1770, 1773);
    (1807, 1807); (1809, 1809); (1840, 1866); (1958, 1968); (2027, 2037);
    (2042, 2042); (2045, 2045); (2070, 2093); (2137, 2139); (2184, 2184);
    (2192, 2193); (2200, 2207); (2249, 2306); (2362, 2362); (2364, 2364);
    (2369, 2376); (2381, 2381); (2385, 2391); (2402, 2403); (2417, 2417);
    (2433, 2433); (2492, 2492); (2497, 2500); (2509, 2509); (2530, 2531);
    (2558, 2558); (2561, 2562); (2620, 2620); (2625, 2626); (2631, 2632);
    (2635, 2637); (2641, 2641); (2672, 2673); (2677, 2677); (2689, 2690);
    (2748, 2748); (2753, 2757); (2759, 2760); (2765, 2765); (2786, 2787);
    (2810, 2815); (2817, 2817); (2876, 2876); (2879, 2879); (2881, 2884);
    (2893, 2893); (2901, 2902); (2914, 2915); (2946, 2946); (3008, 3008);
    (3021, 3021); (3072, 3072); (3076, 3076); (3132, 3132); (3134, 3136);
    (3142, 3144); (3146, 3149); (3157, 3158); (3170, 3171); (3201, 3201);
    (3260, 3260); (3263, 3263); (3270, 3270); (3276, 3277); (3298, 3299);
    (3328, 3329); (3387, 3388); (3393, 3396); (3405, 3405); (3426, 3427);
    (3457, 3457); (3530, 3530); (3538, 3540); (3542, 3542); (3633, 3633);
    (3636, 3642); (3654, 3662); (3761, 3761); (3764, 3772); (3782, 3782);
    (3784, 3789); (3864, 3865); (3893, 3893); (3895, 3895); (3897, 3897);
    (3953, 3966); (3968, 3972); (3974, 3975); (3981, 3991); (3993, 4028);
    (4038, 4038); (4141, 4144); (4146, 4151); (4153, 4154); (4157, 4158);
    (4184, 4185); (4190, 4192); (4209, 4212); (4226, 4226); (4229, 4230);
    (4237, 4237); (4253, 4253); (4348, 4348); (4957, 4959); (5906, 5908);
    (5938, 5939); (5970, 5971); (6002, 6003); (6068, 6069); (6071, 6077);
    (6086, 6086); (6089, 6099); (6103, 6103); (6109, 6109); (6155, 6159);
    (6211, 6211); (6277, 6278); (6313, 6313); (6432, 6434); (6439, 6440);
    (6450, 6450); (6457, 6459); (6679, 6680); (6683, 6683); (6742, 6742);
    (6744, 6750); (6752, 6752); (6754, 6754); (6757, 6764); (6771, 6780);
    (6783, 6783); (6823, 6823); (6832, 6862); (6912, 6915); (6964, 6964);
    (6966, 6970); (6972, 6972); (6978, 6978); (7019, 7027); (7040, 7041);
    (7074, 7077); (7080, 7081); (7083, 7085); (7142, 7142); (7144, 7145);
    (7149, 7149); (7151, 7153); (7212, 7219); (7222, 7223); (7288, 7293);
    (7376, 7378); (7380, 7392); (7394, 7400); (7405, 7405); (7412, 7412);
    (7416, 7417); (7468, 7530); (7544, 7544); (7579, 7679); (8125, 8125);
    (8127, 8129); (8141, 8143); (8157, 8159); (8173, 8175); (8189, 8190);
    (8203, 8207); (8216, 8217); (8228, 8228); (8231, 8231); (8234, 8238);
    (8288, 8292); (8294, 8303); (8305, 8305); (8319, 8319); (8336, 8348);
    (8400, 8432); (11388, 11389); (11503, 11505); (11631, 11631);
    (11647, 11647); (11744, 11775); (11823, 11823); (12293, 12293);
    (12330, 12333); (12337, 12341); (12347, 12347); (12441, 12446);
    (12540, 12542); (40981, 40981); (42232, 42237); (42508, 42508);
    (42607, 42610); (42612, 42621); (42623, 42623); (42652, 42655);
    (42736, 42737); (42752, 42785); (42864, 42864); (42888, 42890);
    (42994, 42996); (43000, 43001); (43010, 43010); (43014, 43014);
    (43019, 43019); (43045, 43046); (43052, 43052); (43204, 43205);
    (43232, 43249); (43263, 43263); (43302, 43309); (43335, 43345);
    (43392, 43394); (43443, 43443); (43446, 43449); (43452, 43453);
    (43471, 43471); (43493, 43494); (43561, 43566); (43569, 43570);
    (43573, 43574); (43587, 43587); (43596, 43596); (43632, 43632);
    (43644, 43644); (43696, 43696); (43698, 43700); (43703, 43704);
    (43710, 43711); (43713, 43713); (43741, 43741); (43756, 43757);
    (43763, 43764); (43766, 43766); (43867, 43871); (43881, 43883);
    (44005, 44005); (44008, 44008); (44013, 44013); (64286, 64286);
    (64434, 64450); (65024, 65039); (65043, 65043); (65056, 65071);
    (65106, 65106); (65109, 65109); (65279, 65279); (65287, 65287);
    (65294, 65294); (65306, 65306); (65342, 65342); (65344, 65344);
    (65392, 65392); (65438, 65439); (65507, 65507); (65529, 65531);
    (66045, 66045); (66272, 66272); (66422, 66426); (67456, 67461);
    (67463, 67504); (67506, 67514); (68097, 68099); (68101, 68102);
    (68108, 68111); (68152, 68154); (68159, 68159); (68325, 68326);
    (68900, 68903); (69291, 69292); (69446, 69456); (69506, 69509);
    (69633, 69633); (69688, 69702); (69744, 69744); (69747, 69748);
    (69759, 69761); (69811, 69814); (69817, 69818); (69821, 69821);
    (69826, 69826); (69837, 69837); (69888, 69890); (69927, 69931);
    (69933, 69940); (70003, 70003); (70016, 70017); (70070, 70078);
    (70089, 70092); (70095, 70095); (70191, 70193); (70196, 70196);
    (70198, 70199); (70206, 70206); (70367, 70367); (70371, 70378);
    (70400, 70401); (70459, 70460); (70464, 70464); (70502, 70508);
    (70512, 70516); (70712, 70719); (70722, 70724); (70726, 70726);
    (70750, 70750); (70835, 70840); (70842, 70842); (70847, 70848);
    (70850, 70851); (71090, 71093); (71100, 71101); (71103, 71104);
    (71132, 71133); (71219, 71226); (71229, 71229); (71231, 71232);
    (71339, 71339); (71341, 71341); (71344, 71349); (71351, 71351);
    (71453, 71455); (71458, 71461); (71463, 71467); (71727, 71735);
    (71737, 71738); (71995, 71996); (71998, 71998); (72003, 72003);
    (72148, 72151); (72154, 72155); (72160, 72160); (72193, 72202);
    (72243, 72248); (72251, 72254); (72263, 72263); (72273, 72278);
    (72281, 72283); (72330, 72342); (72344, 72345); (72752, 72758);
    (72760, 72765); (72767, 72767); (72850, 72871); (72874, 72880);
    (72882, 72883); (72885, 72886); (73009, 73014); (73018, 73018);
    (73020, 73021); (73023, 73029); (73031, 73031); (73104, 73105);
    (73109, 73109); (73111, 73111); (73459, 73460); (78896, 78904);
    (92912, 92916); (92976, 92982); (92992, 92995); (94031, 94031);
    (94095, 94111); (94176, 94177); (94179, 94180); (110576, 110579);
    (110581, 110587); (110589, 110590); (113821, 113822); (113824, 113827);
    (118528, 118573); (118576, 118598); (119143, 119145); (119155, 119170);
    (119173, 119179); (119210, 119213); (119362, 119364); (121344, 121398);
    (121403, 121452); (121461, 121461); (121476, 121476); (121499, 121503);
    (121505, 121519); (122880, 122886); (122888, 122904); (122907, 122913);
    (122915, 122916); (122918, 122922); (123184, 123197); (123566, 123566);
    (123628, 123631); (125136, 125142); (125252, 125259); (127995, 127999);
    (917505, 917505); (917536, 917631); (917760, 917999) ].

(** The uppercase mappings to one code point, as runs
    [(first, last, step, image of first)]. *)
Definition UPPER_RUNS : list (N * N * N * N) :=
  [ (97, 122, 1, 65); (181, 181, 1, 924); (224, 246, 1, 192);
    (248, 254, 1, 216); (255, 255, 1, 376); (257, 303, 2, 256);
    (305, 305, 1, 73); (307, 311, 2, 306); (314, 328, 2, 313);
    (331, 375, 2, 330); (378, 382, 2, 377); (383, 383, 1, 83);
    (384, 384, 1, 579); (387, 389, 2, 386); (392, 392, 1, 391);
    (396, 396, 1, 395); (402, 402, 1, 401); (405, 405, 1, 502);
    (409, 409, 1, 408); (410, 410, 1, 573); (414, 414, 1, 544);
    (417, 421, 2, 416); (424, 424, 1, 423); (429, 429, 1, 428);
    (432, 432, 1, 431); (436, 438, 2, 435); (441, 441, 1, 440);
    (445, 445, 1, 444); (447, 447, 1, 503); (453, 453, 1, 452);
    (454, 454, 1, 452); (456, 456, 1, 455); (457, 457, 1, 455);
    (459, 459, 1, 458); (460, 460, 1, 458); (462, 476, 2, 461);
    (477, 477, 1, 398); (479, 495, 2, 478); (498, 498, 1, 497);
    (499, 499, 1, 497); (501, 501, 1, 500); (505, 543, 2, 504);
    (547, 563, 2, 546); (572, 572, 1, 571); (575, 576, 1, 11390);
    (578, 578, 1, 577); (583, 591, 2, 582); (592, 592, 1, 11375);
    (593, 593, 1, 11373); (594, 594, 1, 11376); (595, 595, 1, 385);
    (596, 596, 1, 390); (598, 599, 1, 393); (601, 601, 1, 399);
    (603, 603, 1, 400); (604, 604, 1, 42923); (608, 608, 1, 403);
    (609, 609, 1, 42924); (611, 611, 1, 404); (613, 613, 1, 42893);
    (614, 614, 1, 42922); (616, 616, 1, 407); (617, 617, 1, 406);
    (618, 618, 1, 42926); (619, 619, 1, 11362); (620, 620, 1, 42925);
    (623, 623, 1, 412); (625, 625, 1, 11374); (626, 626, 1, 413);
    (629, 629, 1, 415); (637, 637, 1, 11364); (640, 640, 1, 422);
    (642, 642, 1, 42949); (643, 643, 1, 425); (647, 647, 1, 42929);
    (648, 648, 1, 430); (649, 649, 1, 580); (650, 651, 1, 433);
    (652, 652, 1, 581); (658, 658, 1, 439); (669, 669, 1, 42930);
    (670, 670, 1, 42928); (837, 837, 1, 921); (881, 883, 2, 880);
    (887, 887, 1, 886); (891, 893, 1, 1021); (940, 940, 1, 902);
    (941, 943, 1, 904); (945, 961, 1, 913); (962, 962, 1, 931);
    (963, 971, 1, 931); (972, 972, 1, 908); (973, 974, 1, 910);
    (976, 976, 1, 914); (977, 977, 1, 920); (981, 981, 1, 934);
    (982, 982, 1, 928); (983, 983, 1, 975); (985, 1007, 2, 984);
    (1008, 1008, 1, 922); (1009, 1009, 1, 929); (1010, 1010, 1, 1017);
    (1011, 1011, 1, 895); (1013, 1013, 1, 917); (1016, 1016, 1, 1015);
    (1019, 1019, 1, 1018); (1072, 1103, 1, 1040); (1104, 1119, 1, 1024);
    (1121, 1153, 2, 1120); (1163, 1215, 2, 1162); (1218, 1230, 2, 1217);
    (1231, 1231, 1, 1216); (1233, 1327, 2, 1232); (1377, 1414, 1, 1329);
    (4304, 4346, 1, 7312); (4349, 4351, 1, 7357); (5112, 5117, 1, 5104);
    (7296, 7296, 1, 1042); (7297, 7297, 1, 1044); (7298, 7298, 1, 1054);
    (7299, 7300, 1, 1057); (7301, 7301, 1, 1058); (7302, 7302, 1, 1066);
    (7303, 7303, 1, 1122); (7304, 7304, 1, 42570); (7545, 7545, 1, 42877);
    (7549, 7549, 1, 11363); (7566, 7566, 1, 42950); (7681, 7829, 2, 7680);
    (7835, 7835, 1, 7776); (7841, 7935, 2, 7840); (7936, 7943, 1, 7944);
    (7952, 7957, 1, 7960); (7968, 7975, 1, 7976); (7984, 7991, 1, 7992);
    (8000, 8005, 1, 8008); (8017, 8023, 2, 8025); (8032, 8039, 1, 8040);
    (8048, 8049, 1, 8122); (8050, 8053, 1, 8136); (8054, 8055, 1, 8154);
    (8056, 8057, 1, 8184); (8058, 8059, 1, 8170); (8060, 8061, 1, 8186);
    (8112, 8113, 1, 8120); (8126, 8126, 1, 921); (8144, 8145, 1, 8152);
    (8160, 8161, 1, 8168); (8165, 8165, 1, 8172); (8526, 8526, 1, 8498);
    (8560, 8575, 1, 8544); (8580, 8580, 1, 8579); (9424, 9449, 1, 9398);
    (11312, 11359, 1, 11264); (11361, 11361, 1, 11360);
    (11365, 11365, 1, 570); (11366, 11366, 1, 574); (11368, 11372, 2, 11367);
    (11379, 11379, 1, 11378); (11382, 11382, 1, 11381);
    (11393, 11491, 2, 11392); (11500, 11502, 2, 11499);
    (11507, 11507, 1, 11506); (11520, 11557, 1, 4256);
    (11559, 11559, 1, 4295); (11565, 11565, 1, 4301);
    (42561, 42605, 2, 42560); (42625, 42651, 2, 42624);
    (42787, 42799, 2, 42786); (42803, 42863, 2, 42802);
    (42874, 42876, 2, 42873); (42879, 42887, 2, 42878);
    (42892, 42892, 1, 42891); (42897, 42899, 2, 42896);
    (42900, 42900, 1, 42948); (42903, 42921, 2, 42902);
    (42933, 42947, 2, 42932); (42952, 42954, 2, 42951);
    (42961, 42961, 1, 42960); (42967, 42969, 2, 42966);
    (42998, 42998, 1, 42997); (43859, 43859, 1, 42931);
    (43888, 43967, 1, 5024); (65345, 65370, 1, 65313);
    (66600, 66639, 1, 66560); (66776, 66811, 1, 66736);
    (66967, 67003, 2, 66928); (66968, 66976, 2, 66929);
    (66980, 66992, 2, 66941); (66996, 67000, 2, 66957);
    (67004, 67004, 1, 66965); (68800, 68850, 1, 68736);
    (71872, 71903, 1, 71840); (93792, 93823, 1, 93760);
    (125218, 125251, 1, 125184) ].

(** The uppercase mappings to several code points. *)
Definition UPPER_SPECIAL : list (N * list N) :=
  [ (223, [83; 83]); (329, [700; 78]); (496, [74; 780]);
    (912, [921; 776; 769]); (944, [933; 776; 769]); (1415, [1333; 1362]);
    (7830, [72; 817]); (7831, [84; 776]); (7832, [87; 778]);
    (7833, [89; 778]); (7834, [65; 702]); (8016, [933; 787]);
    (8018, [933; 787; 768]); (8020, [933; 787; 769]);
    (8022, [933; 787; 834]); (8064, [7944; 921]); (8065, [7945; 921]);
    (8066, [7946; 921]); (8067, [7947; 921]); (8068, [7948; 921]);
    (8069, [7949; 921]); (8070, [7950; 921]); (8071, [7951; 921]);
    (8072, [7944; 921]); (8073, [7945; 921]); (8074, [7946; 921]);
    (8075, [7947; 921]); (8076, [7948; 921]); (8077, [7949; 921]);
    (8078, [7950; 921]); (8079, [7951; 921]); (8080, [7976; 921]);
    (8081, [7977; 921]); (8082, [7978; 921]); (8083, [7979; 921]);
    (8084, [7980; 921]); (8085, [7981; 921]); (8086, [7982; 921]);
    (8087, [7983; 921]); (8088, [7976; 921]); (8089, [7977; 921]);
    (8090, [7978; 921]); (8091, [7979; 921]); (8092, [7980; 921]);
    (8093, [7981; 921]); (8094, [7982; 921]); (8095, [7983; 921]);
    (8096, [8040; 921]); (8097, [8041; 921]); (8098, [8042; 921]);
    (8099, [8043; 921]); (8100, [8044; 921]); (8101, [8045; 921]);
    (8102, [8046; 921]); (8103, [8047; 921]); (8104, [8040; 921]);
    (8105, [8041; 921]); (8106, [8042; 921]); (8107, [8043; 921]);
    (8108, [8044; 921]); (8109, [8045; 921]); (8110, [8046; 921]);
    (8111, [8047; 921]); (8114, [8122; 921]); (8115, [913; 921]);
    (8116, [902; 921]); (8118, [913; 834]); (8119, [913; 834; 921]);
    (8124, [913; 921]); (8130, [8138; 921]); (8131, [919; 921]);
    (8132, [905; 921]); (8134, [919; 834]); (8135, [919; 834; 921]);
    (8140, [919; 921]); (8146, [921; 776; 768]); (8147, [921; 776; 769]);
    (8150, [921; 834]); (8151, [921; 776; 834]); (8162, [933; 776; 768]);
    (8163, [933; 776; 769]); (8164, [929; 787]); (8166, [933; 834]);
    (8167, [933; 776; 834]); (8178, [8186; 921]); (8179, [937; 921]);
    (8180, [911; 921]); (8182, [937; 834]); (8183, [937; 834; 921]);
    (8188, [937; 921]); (64256, [70; 70]); (64257, [70; 73]);
    (64258, [70; 76]); (64259, [70; 70; 73]); (64260, [70; 70; 76]);
    (64261, [83; 84]); (64262, [83; 84]); (64275, [1348; 1350]);
    (64276, [1348; 1333]); (64277, [1348; 1339]); (64278, [1358; 1350]);
    (64279, [1348; 1341]) ].

(** The lowercase mappings to one code point. *)
Definition LOWER_RUNS : list (N * N * N * N) :=
  [ (65, 90, 1, 97); (192, 214, 1, 224); (216, 222, 1, 248);
    (256, 302, 2, 257); (306, 310, 2, 307); (313, 327, 2, 314);
    (330, 374, 2, 331); (376, 376, 1, 255); (377, 381, 2, 378);
    (385, 385, 1, 595); (386, 388, 2, 387); (390, 390, 1, 596);
    (391, 391, 1, 392); (393, 394, 1, 598); (395, 395, 1, 396);
    (398, 398, 1, 477); (399, 399, 1, 601); (400, 400, 1, 603);
    (401, 401, 1, 402); (403, 403, 1, 608); (404, 404, 1, 611);
    (406, 406, 1, 617); (407, 407, 1, 616); (408, 408, 1, 409);
    (412, 412, 1, 623); (413, 413, 1, 626); (415, 415, 1, 629);
    (416, 420, 2, 417); (422, 422, 1, 640); (423, 423, 1, 424);
    (425, 425, 1, 643); (428, 428, 1, 429); (430, 430, 1, 648);
    (431, 431, 1, 432); (433, 434, 1, 650); (435, 437, 2, 436);
    (439, 439, 1, 658); (440, 440, 1, 441); (444, 444, 1, 445);
    (452, 452, 1, 454); (453, 453, 1, 454); (455, 455, 1, 457);
    (456, 456, 1, 457); (458, 458, 1, 460); (459, 475, 2, 460);
    (478, 494, 2, 479); (497, 497, 1, 499); (498, 500, 2, 499);
    (502, 502, 1, 405); (503, 503, 1, 447); (504, 542, 2, 505);
    (544, 544, 1, 414); (546, 562, 2, 547); (570, 570, 1, 11365);
    (571, 571, 1, 572); (573, 573, 1, 410); (574, 574, 1, 11366);
    (577, 577, 1, 578); (579, 579, 1, 384); (580, 580, 1, 649);
    (581, 581, 1, 652); (582, 590, 2, 583); (880, 882, 2, 881);
    (886, 886, 1, 887); (895, 895, 1, 1011); (902, 902, 1, 940);
    (904, 906, 1, 941); (908, 908, 1, 972); (910, 911, 1, 973);
    (913, 929, 1, 945); (931, 939, 1, 963); (975, 975, 1, 983);
    (984, 1006, 2, 985); (1012, 1012, 1, 952); (1015, 1015, 1, 1016);
    (1017, 1017, 1, 1010); (1018, 1018, 1, 1019); (1021, 1023, 1, 891);
    (1024, 1039, 1, 1104); (1040, 1071, 1, 1072); (1120, 1152, 2, 1121);
    (1162, 1214, 2, 1163); (1216, 1216, 1, 1231); (1217, 1229, 2, 1218);
    (1232, 1326, 2, 1233); (1329, 1366, 1, 1377); (4256, 4293, 1, 11520);
    (4295, 4295, 1, 11559); (4301, 4301, 1, 11565); (5024, 5103, 1, 43888);
    (5104, 5109, 1, 5112); (7312, 7354, 1, 4304); (7357, 7359, 1, 4349);
    (7680, 7828, 2, 7681); (7838, 7838, 1, 223); (7840, 7934, 2, 7841);
    (7944, 7951, 1, 7936); (7960, 7965, 1, 7952); (7976, 7983, 1, 7968);
    (7992, 7999, 1, 7984); (8008, 8013, 1, 8000); (8025, 8031, 2, 8017);
    (8040, 8047, 1, 8032); (8072, 8079, 1, 8064); (8088, 8095, 1, 8080);
    (8104, 8111, 1, 8096); (8120, 8121, 1, 8112); (8122, 8123, 1, 8048);
    (8124, 8124, 1, 8115); (8136, 8139, 1, 8050); (8140, 8140, 1, 8131);
    (8152, 8153, 1, 8144); (8154, 8155, 1, 8054); (8168, 8169, 1, 8160);
    (8170, 8171, 1, 8058); (8172, 8172, 1, 8165); (8184, 8185, 1, 8056);
    (8186, 8187, 1, 8060); (8188, 8188, 1, 8179); (8486, 8486, 1, 969);
    (8490, 8490, 1, 107); (8491, 8491, 1, 229); (8498, 8498, 1, 8526);
    (8544, 8559, 1, 8560); (8579, 8579, 1, 8580); (9398, 9423, 1, 9424);
    (11264, 11311, 1, 11312); (11360, 11360, 1, 11361);
    (11362, 11362, 1, 619); (11363, 11363, 1, 7549); (11364, 11364, 1, 637);
    (11367, 11371, 2, 11368); (11373, 11373, 1, 593); (11374, 11374, 1, 625);
    (11375, 11375, 1, 592); (11376, 11376, 1, 594); (11378, 11378, 1, 11379);
    (11381, 11381, 1, 11382); (11390, 11391, 1, 575);
    (11392, 11490, 2, 11393); (11499, 11501, 2, 11500);
    (11506, 11506, 1, 11507); (42560, 42604, 2, 42561);
    (42624, 42650, 2, 42625); (42786, 42798, 2, 42787);
    (42802, 42862, 2, 42803); (42873, 42875, 2, 42874);
    (42877, 42877, 1, 7545); (42878, 42886, 2, 42879);
    (42891, 42891, 1, 42892); (42893, 42893, 1, 613);
    (42896, 42898, 2, 42897); (42902, 42920, 2, 42903);
    (42922, 42922, 1, 614); (42923, 42923, 1, 604); (42924, 42924, 1, 609);
    (42925, 42925, 1, 620); (42926, 42926, 1, 618); (42928, 42928, 1, 670);
    (42929, 42929, 1, 647); (42930, 42930, 1, 669); (42931, 42931, 1, 43859);
    (42932, 42946, 2, 42933); (42948, 42948, 1, 42900);
    (42949, 42949, 1, 642); (42950, 42950, 1, 7566);
    (42951, 42953, 2, 42952); (42960, 42960, 1, 42961);
    (42966, 42968, 2, 42967); (42997, 42997, 1, 42998);
    (65313, 65338, 1, 65345); (66560, 66599, 1, 66600);
    (66736, 66771, 1, 66776); (66928, 66964, 2, 66967);
    (66929, 66937, 2, 66968); (66941, 66953, 2, 66980);
    (66957, 66961, 2, 66996); (66965, 66965, 1, 67004);
    (68736, 68786, 1, 68800); (71840, 71871, 1, 71872);
    (93760, 93791, 1, 93792); (125184, 125217, 1, 125218) ].

(** The lowercase mapping to several code points. *)
Definition LOWER_SPECIAL : list (N * list N) :=
  [ (304, [105; 775]) ].

(** The code points whose titlecase mapping is not their uppercase
    mapping, with their titlecase mapping. *)
Definition TITLE_EXCEPT : list (N * list N) :=
  [ (223, [83; 115]); (452, [453]); (453, [453]); (454, [453]); (455, [456]);
    (456, [456]); (457, [456]); (458, [459]); (459, [459]); (460, [459]);
    (497, [498]); (498, [498]); (499, [498]); (1415, [1333; 1410]);
    (4304, [4304]); (4305, [4305]); (4306, [4306]); (4307, [4307]);
    (4308, [4308]); (4309, [4309]); (4310, [4310]); (4311, [4311]);
    (4312, [4312]); (4313, [4313]); (4314, [4314]); (4315, [4315]);
    (4316, [4316]); (4317, [4317]); (4318, [4318]); (4319, [4319]);
    (4320, [4320]); (4321, [4321]); (4322, [4322]); (4323, [4323]);
    (4324, [4324]); (4325, [4325]); (4326, [4326]); (4327, [4327]);
    (4328, [4328]); (4329, [4329]); (4330, [4330]); (4331, [4331]);
    (4332, [4332]); (4333, [4333]); (4334, [4334]); (4335, [4335]);
    (4336, [4336]); (4337, [4337]); (4338, [4338]); (4339, [4339]);
    (4340, [4340]); (4341, [4341]); (4342, [4342]); (4343, [4343]);
    (4344, [4344]); (4345, [4345]); (4346, [4346]); (4349, [4349]);
    (4350, [4350]); (4351, [4351]); (8064, [8072]); (8065, [8073]);
    (8066, [8074]); (8067, [8075]); (8068, [8076]); (8069, [8077]);
    (8070, [8078]); (8071, [8079]); (8072, [8072]); (8073, [8073]);
    (8074, [8074]); (8075, [8075]); (8076, [8076]); (8077, [8077]);
    (8078, [8078]); (8079, [8079]); (8080, [8088]); (8081, [8089]);
    (8082, [8090]); (8083, [8091]); (8084, [8092]); (8085, [8093]);
    (8086, [8094]); (8087, [8095]); (8088, [8088]); (8089, [8089]);
    (8090, [8090]); (8091, [8091]); (8092, [8092]); (8093, [8093]);
    (8094, [8094]); (8095, [8095]); (8096, [8104]); (8097, [8105]);
    (8098, [8106]); (8099, [8107]); (8100, [8108]); (8101, [8109]);
    (8102, [8110]); (8103, [8111]); (8104, [8104]); (8105, [8105]);
    (8106, [8106]); (8107, [8107]); (8108, [8108]); (8109, [8109]);
    (8110, [8110]); (8111, [8111]); (8114, [8122; 837]); (8115, [8124]);
    (8116, [902; 837]); (8119, [913; 834; 837]); (8124, [8124]);
    (8130, [8138; 837]); (8131, [8140]); (8132, [905; 837]);
    (8135, [919; 834; 837]); (8140, [8140]); (8178, [8186; 837]);
    (8179, [8188]); (8180, [911; 837]); (8183, [937; 834; 837]);
    (8188, [8188]); (64256, [70; 102]); (64257, [70; 105]);
    (64258, [70; 108]); (64259, [70; 102; 105]); (64260, [70; 102; 108]);
    (64261, [83; 116]); (64262, [83; 116]); (64275, [1348; 1398]);
    (64276, [1348; 1381]); (64277, [1348; 1387]); (64278, [1358; 1398]);
    (64279, [1348; 1389]) ].

Fixpoint in_ranges (ranges : list (N * N)) (c : N) : bool :=
  match ranges with
  | [] => false
  | (lo, hi) :: rest =>
      if c <? lo then false
      else if c <=? hi then true
      else in_ranges rest c
  end.

(** The image of [c] in a table of runs: [c] is in the run
    [(lo, hi, step, image)] when it is [lo], [lo + step], ... up to [hi],
    and its image is then as far from [image] as [c] is from [lo]. *)
Fixpoint run_lookup (runs : list (N * N * N * N)) (c : N) : option N :=
  match runs with
  | [] => None
  | (lo, hi, step, image) :: rest =>
      if c <? lo then None
      else if (c <=? hi) && ((c - lo) mod step =? 0) then Some (image + (c - lo))
      else run_lookup rest c
  end.

Fixpoint special_lookup (table : list (N * list N)) (c : N) : option (list N) :=
  match table with
  | [] => None
  | (k, image) :: rest => if c =? k then Some image else special_lookup rest c
  end.

End Unicode.

Import Unicode.

(** ** Python strings *)

Module PyStr.

Abbreviation str := (list N).

(** A literal of the source, as code points. *)
Definition lit (s : string) : str := N_of_ascii <$> list_ascii_of_string s.

Definition in_range (lo hi c : N) : bool := (lo <=? c) && (c <=? hi).

(** [Py_UNICODE_ISSPACE] *)
Definition cp_isspace (c : N) : bool := in_ranges WHITESPACE c.

(** [Py_UNICODE_ISALPHA] *)
Definition cp_isalpha (c : N) : bool := in_ranges ALPHA c.

(** [_PyUnicode_IsCased] and [_PyUnicode_IsCaseIgnorable] *)
Definition cp_iscased (c : N) : bool := in_ranges CASED c.
Definition cp_iscase_ignorable (c : N) : bool := in_ranges CASE_IGNORABLE c.

(** [_PyUnicode_ToUpperFull]: the full mapping, which may produce
    more than one code point (sharp s gives SS). *)
Definition cp_upper (c : N) : str :=
  match special_lookup UPPER_SPECIAL c with
  | Some image => image
  | None => match run_lookup UPPER_RUNS c with
            | Some u => [u]
            | None => [c]
            end
  end.

(** [_PyUnicode_ToLowerFull] *)
Definition cp_lower (c : N) : str :=
  match special_lookup LOWER_SPECIAL c with
  | Some image => image
  | None => match run_lookup LOWER_RUNS c with
            | Some l => [l]
            | None => [c]
            end
  end.

(** [_PyUnicode_ToTitleFull] *)
Definition cp_title (c : N) : str :=
  match special_lookup TITLE_EXCEPT c with
  | Some image => image
  | None => cp_upper c
  end.

#[global] Arguments cp_isspace : simpl never.
#[global] Arguments cp_isalpha : simpl never.
#[global] Arguments cp_iscased : simpl never.
#[global] Arguments cp_iscase_ignorable : simpl never.
#[global] Arguments cp_upper : simpl never.
#[global] Arguments cp_lower : simpl never.
#[global] Arguments cp_title : simpl never.

(** [s.isalpha()]: non-empty and every character alphabetic. *)
Definition isalpha (s : str) : bool :=
  match s with
  | [] => false
  | _ => forallb cp_isalpha s
  end.

(** [s.upper()] *)
Definition upper (s : str) : str := s ≫= cp_upper.

Fixpoint dropwhile (p : N → bool) (s : str) : str :=
  match s with
  | [] => []
  | c :: r => if p c then dropwhile p r else s
  end.

(** [handle_capital_sigma]: a capital sigma is in final position when
    a cased character comes before it, case-ignorable characters
    skipped, and no cased character comes after it, case-ignorable
    characters skipped.  [before] is the text before the sigma, last
    character first. *)
Definition final_sigma (before after : str) : bool :=
  match dropwhile cp_iscase_ignorable before with
  | [] => false
  | c :: _ =>
      cp_iscased c
      && match dropwhile cp_iscase_ignorable after with
         | [] => true
         | d :: _ => negb (cp_iscased d)
         end
  end.

(** [lower_ucs4]: the lowercase of the character [c] that stands
    between [before] and [after]. *)
Definition lower_at (before after : str) (c : N) : str :=
  if c =? 931 then [if final_sigma before after then 962 else 963]
  else cp_lower c.

(** [s.lower()] *)
Fixpoint lower_from (before s : str) : str :=
  match s with
  | [] => []
  | c :: r => lower_at before r c ++ lower_from (c :: before) r
  end.

Definition lower (s : str) : str := lower_from [] s.

(** [s.title()]: a character that follows a cased one is lowercased,
    any other character is titlecased. *)
Fixpoint title_from (before : str) (previous_is_cased : bool) (s : str) : str :=
  match s with
  | [] => []
  | c :: r =>
      (if previous_is_cased then lower_at before r c else cp_title c)
        ++ title_from (c :: before) (cp_iscased c) r
  end.

Definition title (s : str) : str := title_from [] false s.

(** [s.strip()] without argument: leading and trailing whitespace. *)
Definition lstrip (s : str) : str := dropwhile cp_isspace s.
Definition rstrip (s : str) : str := reverse (dropwhile cp_isspace (reverse s)).
Definition strip (s : str) : str := rstrip (lstrip s).

(** [s.replace(old, new)] for an [old] of one character. *)
Definition replace (old : N) (new : str) (s : str) : str :=
  s ≫= (λ c, if c =? old then new else [c]).

(** [s.split()] without argument: the maximal runs of non-whitespace
    characters.  [words s] is the run that starts at the head of [s]
    (empty when [s] starts with whitespace) and the runs after it. *)
Definition push_word (w : str) (ws : list str) : list str :=
  match w with
  | [] => ws
  | _ => w :: ws
  end.

Fixpoint words (s : str) : str * list str :=
  match s with
  | [] => ([], [])
  | c :: r =>
      let '(w, ws) := words r in
      if cp_isspace c then ([], push_word w ws) else (c :: w, ws)
  end.

Definition split (s : str) : list str :=
  let '(w, ws) := words s in push_word w ws.

(** [sep.join(parts)]. *)
Fixpoint join (sep : str) (parts : list str) : str :=
  match parts with
  | [] => []
  | [w] => w
  | w :: ws => w ++ sep ++ join sep ws
  end.

(** A dict built by inserting the items in order: a later item
    replaces an earlier one with the same key. *)
Definition dict_of_items {V} (items : list (str * V)) : gmap str V :=
  foldl (λ m kv, <[kv.1 := kv.2]> m) ∅ items.

(** Lookup in a table given as a list of entries: the first entry
    with the key. *)
Fixpoint table_lookup {V} (key : str) (table : list (str * V)) : option V :=
  match table with
  | [] => None
  | (k, v) :: rest => if decide (k = key) then Some v else table_lookup key rest
  end.

End PyStr.

Import PyStr.

(** ** State identifier normalizer *)

Module Normalizer.

(** The items of the dict literal [STATE_TO_CODE], in source order. *)
Definition STATE_ITEMS : list (str * str) :=
  [ (lit "Alabama", lit "AL"); (lit "Alaska", lit "AK");
    (lit "Arizona", lit "AZ"); (lit "Arkansas", lit "AR");
    (lit "California", lit "CA"); (lit "Colorado", lit "CO");
    (lit "Connecticut", lit "CT"); (lit "Delaware", lit "DE");
    (lit "District of Columbia", lit "DC"); (lit "Florida", lit "FL");
    (lit "Georgia", lit "GA"); (lit "Hawaii", lit "HI");
    (lit "Idaho", lit "ID"); (lit "Illinois", lit "IL");
    (lit "Indiana", lit "IN"); (lit "Iowa", lit "IA");
    (lit "Kansas", lit "KS"); (lit "Kentucky", lit "KY");
    (lit "Louisiana", lit "LA"); (lit "Maine", lit "ME");
    (lit "Maryland", lit "MD"); (lit "Massachusetts", lit "MA");
    (lit "Michigan", lit "MI"); (lit "Minnesota", lit "MN");
    (lit "Mississippi", lit "MS"); (lit "Missouri", lit "MO");
    (lit "Montana", lit "MT"); (lit "Nebraska", lit "NE");
    (lit "Nevada", lit "NV"); (lit "New Hampshire", lit "NH");
    (lit "New Jersey", lit "NJ"); (lit "New Mexico", lit "NM");
    (lit "New York", lit "NY"); (lit "North Carolina", lit "NC");
    (lit "North Dakota", lit "ND"); (lit "Ohio", lit "OH");
    (lit "Oklahoma", lit "OK"); (lit "Oregon", lit "OR");
    (lit "Pennsylvania", lit "PA"); (lit "Rhode Island", lit "RI");
    (lit "South Carolina", lit "SC"); (lit "South Dakota", lit "SD");
    (lit "Tennessee", lit "TN"); (lit "Texas", lit "TX");
    (lit "Utah", lit "UT"); (lit "Vermont", lit "VT");
    (lit "Virginia", lit "VA"); (lit "Washington", lit "WA");
    (lit "West Virginia", lit "WV"); (lit "Wisconsin", lit "WI");
    (lit "Wyoming", lit "WY") ].

Definition STATE_TO_CODE : gmap str str := dict_of_items STATE_ITEMS.

(** [{k.upper(): v for k, v in STATE_TO_CODE.items()}] *)
Definition upper_map : gmap str str :=
  dict_of_items ((λ kv, (upper kv.1, kv.2)) <$> STATE_ITEMS).

(** [to_state_code]; the argument is [None] or a string. *)
Definition to_state_code (s : option str) : option str :=
  match s with
  | None => None
  | Some s =>
      let s := strip s in
      if (length s =? 2)%nat && isalpha s then Some (upper s)
      else
        let s_norm := strip (replace 95 (lit " ") s) in
        let s_norm := join (lit " ") (split s_norm) in
        let s_title := title s_norm in
        match STATE_TO_CODE !! s_title with
        | Some code => Some code
        | None =>
            let s_upper := upper s_norm in
            upper_map !! s_upper
        end
  end.

(** The normalizer as section 4.1 of the specification words it:
    three tiers, first match wins.  The steps of the specification are
    defined here on their own, not by the functions that embed the
    source. *)

(** "Trim": the value without the whitespace at its ends. *)
Fixpoint trim_left (s : str) : str :=
  match s with
  | [] => []
  | c :: r => if cp_isspace c then trim_left r else c :: r
  end.

Definition trim_right (s : str) : str :=
  foldr (λ c kept, if cp_isspace c && bool_decide (kept = []) then [] else c :: kept)
        [] s.

Definition trim (s : str) : str := trim_right (trim_left s).

(** "Replace underscores with spaces" *)
Definition underscores_to_spaces (s : str) : str :=
  (λ c, if c =? 95 then 32 else c) <$> s.

(** "Collapse repeated whitespace": the words of the value with one
    space between two of them, and no whitespace at the ends (the value
    is trimmed again after the underscores are replaced).  [started]
    tells that a word was written, [gap] that whitespace was read after
    it. *)
Fixpoint collapse_run (started gap : bool) (s : str) : str :=
  match s with
  | [] => []
  | c :: r =>
      if cp_isspace c then collapse_run started started r
      else (if gap then [32; c] else [c]) ++ collapse_run true false r
  end.

Definition collapse_whitespace (s : str) : str := collapse_run false false s.

(** "An uppercased copy of the same table's keys" *)
Definition uppercased_table : list (str * str) :=
  (λ kv, (upper kv.1, kv.2)) <$> STATE_ITEMS.

Definition normalizer_spec (raw : str) : option str :=
  let trimmed := trim raw in
  let by_name :=
    let normalized := collapse_whitespace (underscores_to_spaces trimmed) in
    match table_lookup (title normalized) STATE_ITEMS with
    | Some code => Some code
    | None => table_lookup (upper normalized) uppercased_table
    end in
  match trimmed with
  | [a; b] =>
      if cp_isalpha a && cp_isalpha b then Some (cp_upper a ++ cp_upper b)
      else by_name
  | _ => by_name
  end.

(** A way of writing a canonical name: any letter in either case, a
    space as a space or as an underscore.  [spells_char c d] relates the
    canonical character [c] to the written character [d]. *)
Definition spells_char (c d : N) : bool :=
  (d =? c)
  || (in_range 97 122 c && (d =? c - 32))
  || (in_range 65 90 c && (d =? c + 32))
  || ((c =? 32) && (d =? 95)).

Definition spelling (name s : str) : Prop :=
  Forall2 (λ c d, spells_char c d = true) name s.

(** The characters of the table's names: Basic Latin letters and the
    space. *)
Definition name_char (c : N) : bool :=
  in_range 65 90 c || in_range 97 122 c || (c =? 32).

(** What one written character of a name gives after the underscore is
    replaced: the same uppercase form, the same kind of character. *)
Definition written_ok (c d : N) : Prop :=
  let d' := if d =? 95 then 32 else d in
  cp_upper d' = cp_upper c
  ∧ name_char d' = true
  ∧ (cp_isspace d' = false ∨ (c = 32 ∧ d' = 32))
  ∧ (cp_isspace d = false ∨ (c = 32 ∧ d = 32)).

(** Words separated by single spaces, with no whitespace at either
    end; [prev_word] tells whether the previous character belongs to a
    word. *)
Fixpoint tidy_run (prev_word : bool) (s : str) : bool :=
  match s with
  | [] => prev_word
  | c :: r =>
      if cp_isspace c then prev_word && (c =? 32) && tidy_run false r
      else tidy_run true r
  end.

Definition tidy (s : str) : bool := tidy_run false s.

(** Text of Basic Latin only. *)
Definition ascii_text (s : str) : Prop := Forall (λ c, c < 128) s.

(** Two capital letters of Basic Latin. *)
Definition two_capitals (code : str) : Prop :=
  ∃ a b, code = [a; b] ∧ in_range 65 90 a = true ∧ in_range 65 90 b = true.

End Normalizer.

Import Normalizer.

(** ** SQL expressions

    The metric expressions are SQL text that the warehouse evaluates on
    every row.  The text is tokenised and parsed into [expr], then
    evaluated on a row with the null semantics of SQL. *)

Module Sql.

Inductive token :=
| TIdent (name : str)
| TNumber (n : N)
| TOpen | TClose | TComma | TSlash | TMinus.

Inductive expr :=
| Col (name : str)
| Num (n : N)
| NullIf (a b : expr)
| Div (a b : expr)
| Sub (a b : expr).

Definition is_digit (c : N) : bool := in_range 48 57 c.

Definition is_word_char (c : N) : bool :=
  is_digit c || in_range 65 90 c || in_range 97 122 c || (c =? 95).

Definition digits_value (w : str) : N :=
  foldl (λ acc c, 10 * acc + (c - 48)) 0 w.

Definition word_token (w : str) : token :=
  if forallb is_digit w then TNumber (digits_value w) else TIdent w.

Definition flush_word (word : str) (ts : list token) : list token :=
  match word with
  | [] => ts
  | _ => word_token (reverse word) :: ts
  end.

(** [punct c]: the token of a character that is not part of a word;
    [Some None] for a blank, [None] for a character outside the
    expression language. *)
Definition punct (c : N) : option (option token) :=
  if c =? 32 then Some None
  else if c =? 40 then Some (Some TOpen)
  else if c =? 41 then Some (Some TClose)
  else if c =? 44 then Some (Some TComma)
  else if c =? 47 then Some (Some TSlash)
  else if c =? 45 then Some (Some TMinus)
  else None.

(** [word] holds the characters of the word being read, last first. *)
Fixpoint lex_from (word : str) (s : str) : option (list token) :=
  match s with
  | [] => Some (flush_word word [])
  | c :: r =>
      if is_word_char c then lex_from (c :: word) r
      else
        p ← punct c;
        ts ← lex_from [] r;
        Some (flush_word word (from_option (λ t, t :: ts) ts p))
  end.

Definition lex (s : str) : option (list token) := lex_from [] s.

(** Recursive descent; [-] binds weaker than [/], both associate to
    the left.  [NULLIF] is the one function of the language. *)
Fixpoint parse_sum (fuel : nat) (ts : list token) : option (expr * list token) :=
  match fuel with
  | O => None
  | S fuel => '(a, ts) ← parse_quot fuel ts; sum_rest fuel a ts
  end
with sum_rest (fuel : nat) (a : expr) (ts : list token) : option (expr * list token) :=
  match fuel with
  | O => None
  | S fuel =>
      match ts with
      | TMinus :: ts => '(b, ts) ← parse_quot fuel ts; sum_rest fuel (Sub a b) ts
      | _ => Some (a, ts)
      end
  end
with parse_quot (fuel : nat) (ts : list token) : option (expr * list token) :=
  match fuel with
  | O => None
  | S fuel => '(a, ts) ← parse_atom fuel ts; quot_rest fuel a ts
  end
with quot_rest (fuel : nat) (a : expr) (ts : list token) : option (expr * list token) :=
  match fuel with
  | O => None
  | S fuel =>
      match ts with
      | TSlash :: ts => '(b, ts) ← parse_atom fuel ts; quot_rest fuel (Div a b) ts
      | _ => Some (a, ts)
      end
  end
with parse_atom (fuel : nat) (ts : list token) : option (expr * list token) :=
  match fuel with
  | O => None
  | S fuel =>
      match ts with
      | TIdent f :: TOpen :: ts =>
          if decide (upper f = lit "NULLIF") then
            '(a, ts) ← parse_sum fuel ts;
            match ts with
            | TComma :: ts =>
                '(b, ts) ← parse_sum fuel ts;
                match ts with
                | TClose :: ts => Some (NullIf a b, ts)
                | _ => None
                end
            | _ => None
            end
          else None
      | TIdent name :: ts => Some (Col name, ts)
      | TNumber n :: ts => Some (Num n, ts)
      | TOpen :: ts =>
          '(a, ts) ← parse_sum fuel ts;
          match ts with
          | TClose :: ts => Some (a, ts)
          | _ => None
          end
      | _ => None
      end
  end.

Definition parse (text : str) : option expr :=
  ts ← lex text;
  '(e, rest) ← parse_sum (4 * length ts + 4) ts;
  match rest with
  | [] => Some e
  | _ => None
  end.

(** A cell is NULL ([None]) or a number. *)
Abbreviation cell := (option Qc).

(** The numeric columns of a row, by name. *)
Abbreviation columns := (gmap str cell).

(** [eval cols e] is [None] when the query fails on the row (unknown
    column, division by zero) and [Some v] when the expression has the
    value [v], which may be NULL. *)
Fixpoint eval (cols : columns) (e : expr) : option cell :=
  match e with
  | Col name => cols !! name
  | Num n => Some (Some (Qc_of_Z (Z.of_N n)))
  | NullIf a b =>
      va ← eval cols a; vb ← eval cols b;
      match va, vb with
      | Some x, Some y => if decide (x = y) then Some None else Some (Some x)
      | _, _ => Some va
      end
  | Div a b =>
      va ← eval cols a; vb ← eval cols b;
      match va, vb with
      | Some x, Some y =>
          if decide (y = 0%Qc) then None else Some (Some (x / y)%Qc)
      | _, _ => Some None
      end
  | Sub a b =>
      va ← eval cols a; vb ← eval cols b;
      match va, vb with
      | Some x, Some y => Some (Some (x - y)%Qc)
      | _, _ => Some None
      end
  end.

Definition eval_text (cols : columns) (text : str) : option cell :=
  e ← parse text; eval cols e.

(** The columns that an expression reads. *)
Fixpoint expr_columns (e : expr) : list str :=
  match e with
  | Col name => [name]
  | Num _ => []
  | NullIf a b | Div a b | Sub a b => expr_columns a ++ expr_columns b
  end.

Definition text_columns (text : str) : list str :=
  from_option expr_columns [] (parse text).

(** Every division of the expression divides by [NULLIF(_, 0)]. *)
Fixpoint guarded (e : expr) : bool :=
  match e with
  | Col _ | Num _ => true
  | NullIf a b | Sub a b => guarded a && guarded b
  | Div a b =>
      guarded a && guarded b
      && match b with
         | NullIf _ (Num 0) => true
         | _ => false
         end
  end.

End Sql.

Import Sql.

(** ** Source resolver and metric expression registry *)

Module Registry.

Definition DB : str := lit "us_education_curated".
Definition PREFERRED_SOURCE : str := lit "v_state_year_metrics".
Definition FALLBACK_SOURCE : str := lit "states_all".

(** [pick_source]; [table_names] is the column [table_name] of the
    catalog query, the names of the tables of schema [DB]. *)
Definition pick_source (table_names : list str) : str :=
  let tables : gset str := list_to_set (lower <$> table_names) in
  if decide (lower PREFERRED_SOURCE ∈ tables)
  then PREFERRED_SOURCE else FALLBACK_SOURCE.

(** The two schema variants, as the script tells them apart
    ([SOURCE == PREFERRED_SOURCE]). *)
Inductive SchemaVariant := Curated | Raw.

Definition variant_of (SOURCE : str) : SchemaVariant :=
  if decide (SOURCE = PREFERRED_SOURCE) then Curated else Raw.

(** A name is in the catalog when some listed table has it up to
    case. *)
Definition in_catalog (name : str) (table_names : list str) : Prop :=
  ∃ t, t ∈ table_names ∧ lower t = lower name.

(** The items of the dict [metric_options]. *)
Definition metric_options (SOURCE : str) : list (str * str) :=
  if decide (SOURCE = PREFERRED_SOURCE) then
    [ (lit "Expenditure per student", lit "expenditure_per_student");
      (lit "Revenue per student", lit "revenue_per_student");
      (lit "Surplus / Deficit", lit "surplus_deficit");
      (lit "Total Expenditure", lit "total_expenditure");
      (lit "Total Revenue", lit "total_revenue") ]
  else
    [ (lit "Expenditure per student", lit "total_expenditure / NULLIF(enroll, 0)");
      (lit "Revenue per student", lit "total_revenue / NULLIF(enroll, 0)");
      (lit "Surplus / Deficit", lit "total_revenue - total_expenditure");
      (lit "Total Expenditure", lit "total_expenditure");
      (lit "Total Revenue", lit "total_revenue") ].

(** [metric_options[metric_label]]; [None] is the [KeyError]. *)
Definition metric_expr (SOURCE metric_label : str) : option str :=
  dict_of_items (metric_options SOURCE) !! metric_label.

(** The labels of the two metrics that divide by the enrollment. *)
Definition per_student_labels : list str :=
  [lit "Expenditure per student"; lit "Revenue per student"].

(** [has_table_or_view]: the catalog query keeps the tables whose
    lowercased name is the lowercased [name]; the answer is whether a
    row comes back.  The [lower] of the warehouse is taken to be that of
    [str.lower], with which it agrees on the ASCII names of a catalog. *)
Definition has_table_or_view (table_names : list str) (name : str) : bool :=
  bool_decide (0 < length (filter (λ t, lower t = lower name) table_names))%nat.

(** The chain of tests that chooses [nat_expr]. *)
Definition nat_expr (metric_label : str) : str :=
  if decide (metric_label = lit "Expenditure per student") then
    lit "national_spend_per_student"
  else if decide (metric_label = lit "Revenue per student") then
    lit "national_revenue / NULLIF(national_enrollment, 0)"
  else if decide (metric_label = lit "Surplus / Deficit") then
    lit "national_revenue - national_expenditure"
  else if decide (metric_label = lit "Total Expenditure") then
    lit "national_expenditure"
  else if decide (metric_label = lit "Total Revenue") then
    lit "national_revenue"
  else lit "national_spend_per_student".

(** The per-label table of section 4.4 of the specification. *)
Definition NATIONAL_TABLE : list (str * str) :=
  [ (lit "Expenditure per student", lit "national_spend_per_student");
    (lit "Revenue per student", lit "national_revenue / NULLIF(national_enrollment, 0)");
    (lit "Surplus / Deficit", lit "national_revenue - national_expenditure");
    (lit "Total Expenditure", lit "national_expenditure");
    (lit "Total Revenue", lit "national_revenue") ].

Definition spend_per_student : str := lit "national_spend_per_student".

End Registry.

Import Registry.

(** ** Numbers of the data frames *)

Module Stats.

Definition sum (l : list Qc) : Qc := foldr Qcplus 0%Qc l.

(** The arithmetic mean of a non-empty list, in exact arithmetic.  The
    rounding of a floating-point sum, in pandas or in the warehouse, is
    not modelled: what is proved of a mean below is that it is computed,
    over which values, and that the same values give the same mean. *)
Definition mean (l : list Qc) : Qc :=
  (sum l / Qc_of_Z (Z.of_nat (length l)))%Qc.

Definition Qcmax (a b : Qc) : Qc := if decide (a ≤ b)%Qc then b else a.
Definition Qcmin (a b : Qc) : Qc := if decide (a ≤ b)%Qc then a else b.

(** A pandas float: a number or NaN. *)
Inductive pyfloat := Fin (q : Qc) | NaN.

#[export] Instance pyfloat_eq_dec : EqDecision pyfloat.
Proof. solve_decision. Defined.

(** A cell of a pandas column of numbers: a float, or Python's
    [None] in a column of objects. *)
Abbreviation pycell := (option pyfloat).

(** [notna]: neither [None] nor NaN. *)
Definition notna (c : pycell) : option Qc :=
  match c with
  | Some (Fin q) => Some q
  | _ => None
  end.

(** Subtraction of floats; NaN propagates. *)
Definition fsub (a b : pyfloat) : pyfloat :=
  match a, b with
  | Fin x, Fin y => Fin (x - y)%Qc
  | _, _ => NaN
  end.

End Stats.

Import Stats.

(** ** The frame of the selected year and its KPI cards *)

Module Frames.

(** A row of [df = athena_df(q)]. *)
Record record := {
  df_state : option str;
  df_year : option Z;
  df_metric : pycell;
  df_enroll : pycell;
  df_total_revenue : pycell;
  df_total_expenditure : pycell }.

#[export] Instance record_eq_dec : EqDecision record.
Proof. solve_decision. Defined.

(** A row with the column [state_code]. *)
Record coded := { row : record; state_code : option str }.

#[export] Instance coded_eq_dec : EqDecision coded.
Proof. solve_decision. Defined.

(** [df["state_code"] = df["state"].apply(to_state_code)] *)
Definition apply_to_state_code (df : list record) : list coded :=
  (λ r, {| row := r; state_code := to_state_code (df_state r) |}) <$> df.

(** [df.dropna(subset=["state_code"])] *)
Definition dropna_state_code (df : list coded) : list coded :=
  filter (λ r, is_Some (state_code r)) df.

(** The frame that the KPI cards, the map and the leaderboards read. *)
Definition resolved (df : list record) : list coded :=
  dropna_state_code (apply_to_state_code df).

(** The values of [df["metric"]] that [mean], [max] and [min] see. *)
Definition metric_values (df : list coded) : list Qc :=
  omap (λ r, notna (df_metric (row r))) df.

(** The three cards; [None] is the dash shown when no metric is
    present. *)
Definition kpi_mean (df : list coded) : option Qc :=
  match metric_values df with
  | [] => None
  | vs => Some (mean vs)
  end.

Definition kpi_max (df : list coded) : option Qc :=
  match metric_values df with
  | [] => None
  | v :: vs => Some (foldl Qcmax v vs)
  end.

Definition kpi_min (df : list coded) : option Qc :=
  match metric_values df with
  | [] => None
  | v :: vs => Some (foldl Qcmin v vs)
  end.

End Frames.

Import Frames.

(** ** The queries of the trend section, and what the warehouse
    answers *)

Module National.

(** A row of a relation: the state, the year and the numeric
    columns. *)
Record sqlrow := { r_state : option str; r_year : option Z; r_cols : columns }.

(** A row of a result with the columns [year] and [metric]. *)
Record point := { p_year : option Z; p_metric : cell }.

#[export] Instance point_eq_dec : EqDecision point.
Proof. solve_decision. Defined.

(** The queries of the script all have one shape:
    [SELECT <year>, <expr> AS metric FROM <from> [WHERE state = ..]
     [GROUP BY <year>] ORDER BY <year>], where [<year>] is [year] or
    [CAST(year AS integer)] and [<expr>] is under [AVG] when the
    query groups. *)
Record query := {
  q_expr : str;
  q_from : str;
  q_cast_year : bool;
  q_where_state : option str;
  q_avg_by_year : bool }.

(** The text that [WHERE state = '{selected_state}'] pastes between its
    quotes, read as SQL reads a string literal: two quotes in a row
    stand for one quote, and a single quote ends the literal.  [None]
    when the literal does not end with the closing quote of the
    template: the text is then not a statement of the shape
    [state = '<literal>']. *)
Fixpoint sql_literal (text : str) : option str :=
  match text with
  | [] => Some []
  | c :: r =>
      if c =? 39 then
        match r with
        | [] => None
        | d :: r' => if d =? 39 then cons 39 <$> sql_literal r' else None
        end
      else cons c <$> sql_literal r
  end.

(** The query of the state series; [None] when the pasted state does
    not leave a statement of the shape above. *)
Definition state_trend_q (SOURCE metric_expr selected_state : str) : option query :=
  state ← sql_literal selected_state;
  Some (if decide (SOURCE = PREFERRED_SOURCE) then
          {| q_expr := metric_expr; q_from := SOURCE; q_cast_year := false;
             q_where_state := Some state; q_avg_by_year := false |}
        else
          {| q_expr := metric_expr; q_from := SOURCE; q_cast_year := true;
             q_where_state := Some state; q_avg_by_year := false |}).

Definition national_q (use_national : bool)
    (SOURCE metric_label metric_expr : str) : query :=
  if use_national then
    {| q_expr := nat_expr metric_label; q_from := lit "v_national_summary";
       q_cast_year := false; q_where_state := None; q_avg_by_year := false |}
  else if decide (SOURCE = PREFERRED_SOURCE) then
    {| q_expr := metric_expr; q_from := SOURCE; q_cast_year := false;
       q_where_state := None; q_avg_by_year := true |}
  else
    {| q_expr := metric_expr; q_from := SOURCE; q_cast_year := true;
       q_where_state := None; q_avg_by_year := true |}.

(** The relations of the schema, by name. *)
Abbreviation database := (gmap str (list sqlrow)).

(** [CAST(year AS integer)] of a year cell that holds an integer or
    NULL. *)
Definition cast_integer (y : option Z) : option Z := y.

Definition year_of (q : query) (r : sqlrow) : option Z :=
  if q_cast_year q then cast_integer (r_year r) else r_year r.

(** The mean of a list of numbers, NULL when the list is empty. *)
Definition mean_or_null (xs : list Qc) : cell :=
  match xs with
  | [] => None
  | _ => Some (mean xs)
  end.

(** [AVG]: the mean of the values that are not NULL, NULL when there
    is none. *)
Definition sql_avg (vals : list cell) : cell := mean_or_null (omap id vals).

(** [GROUP BY year] with [AVG]: one row per distinct year cell, NULL
    being a year of its own. *)
Definition group_avg (pts : list point) : list point :=
  (λ y, {| p_year := y;
           p_metric := sql_avg (p_metric <$> filter (λ p, p_year p = y) pts) |})
    <$> remove_dups (p_year <$> pts).

(** [ORDER BY year], ascending, NULL last. *)
Definition year_le (a b : option Z) : Prop :=
  match a, b with
  | Some x, Some y => (x ≤ y)%Z
  | _, None => True
  | None, Some _ => False
  end.

#[export] Instance year_le_dec a b : Decision (year_le a b).
Proof. destruct a, b; simpl; apply _. Defined.

Definition order_by_year (pts : list point) : list point :=
  merge_sort (λ p1 p2, year_le (p_year p1) (p_year p2)) pts.

(** The select list on one row; [None] when the expression fails. *)
Definition row_point (q : query) (e : expr) (r : sqlrow) : option point :=
  v ← eval (r_cols r) e; Some {| p_year := year_of q r; p_metric := v |}.

(** The answer of the warehouse; [None] when the query fails. *)
Definition run_query (db : database) (q : query) : option (list point) :=
  rows ← db !! q_from q;
  e ← parse (q_expr q);
  let rows :=
    match q_where_state q with
    | Some s => filter (λ r, r_state r = Some s) rows
    | None => rows
    end in
  pts ← mapM (row_point q e) rows;
  Some (order_by_year (if q_avg_by_year q then group_avg pts else pts)).

(** The per-state metric of one year: the values, NULL left out, that
    the expression takes on the rows reporting the year. *)
Definition year_values (e : expr) (rows : list sqlrow) (y : option Z) : list Qc :=
  omap (λ r, mjoin (eval (r_cols r) e)) (filter (λ r, r_year r = y) rows).

End National.

Import National.

(** ** The trend frame and the KPI delta *)

Module Trend.

(** A row of [state_trend] or [national_trend]. *)
Record obs := { o_year : option Z; o_metric : pycell }.

#[export] Instance obs_eq_dec : EqDecision obs.
Proof. solve_decision. Defined.


(** A row of the frame handed to the line chart: the year is an
    [int]. *)
Record line_row := { l_year : Z; l_metric : pycell; l_series : str }.

#[export] Instance line_row_eq_dec : EqDecision line_row.
Proof. solve_decision. Defined.









(** [float(df[df["year"].astype(int) == year]["metric"].iloc[0])];
    [None] when an exception is raised: a missing year anywhere in the
    column, no row of the year, or a metric that is [None]. *)
Definition year_value (df : list obs) (year : Z) : option pyfloat :=
  years ← mapM o_year df;
  r ← head (filter (λ yr, yr.1 = year) (zip years df));
  o_metric r.2.

(** The body of the [try]; [None] is the [except] branch, where
    nothing is shown. *)
Definition delta (state_trend national_trend : list obs) (year : Z)
  : option pyfloat :=
  st_year_val ← year_value state_trend year;
  nat_year_val ← year_value national_trend year;
  Some (fsub st_year_val nat_year_val).

(** A series has a value for a year when a row of that year holds a
    number. *)
Definition has_value (df : list obs) (year : Z) : Prop :=
  ∃ p q, p ∈ df ∧ o_year p = Some year ∧ o_metric p = Some (Fin q).

(** A series reports a year when it has a row of that year. *)
Definition reports (df : list obs) (year : Z) : Prop :=
  ∃ p, p ∈ df ∧ o_year p = Some year.

(** A row without missing cell. *)
Definition clean (p : obs) : Prop :=
  is_Some (o_year p) ∧ is_Some (notna (o_metric p)).

End Trend.

Import Trend.

(** ** Casing of ASCII text *)

Module Casing.

(** The uppercase of a small letter of Basic Latin; every other
    character is left as it is. *)
Definition ascii_upper (c : N) : N := if in_range 97 122 c then c - 32 else c.

End Casing.

Import Casing.

(** ** The controls of the page: states, years, defaults *)

Module Controls.

(** [ORDER BY state]: strings by code point, NULL last. *)
Definition state_le (a b : option str) : Prop :=
  match a, b with
  | Some x, Some y => x = y ∨ lexico x y
  | _, None => True
  | None, Some _ => False
  end.

#[export] Instance state_le_dec a b : Decision (state_le a b).
Proof.
  destruct a as [x|], b as [y|]; simpl; [|apply _..].
  destruct (trichotomyT lexico x y) as [[Hlt|Heq]|Hgt].
  - left. by right.
  - left. by left.
  - right. intros [->|Hlt].
    + by apply (irreflexivity lexico y).
    + apply (irreflexivity lexico x). by etrans.
Defined.

(** [get_states]: the answer to
    [SELECT DISTINCT state FROM SOURCE ORDER BY state], then
    [["state"].dropna().tolist()]. *)
Definition get_states (rows : list sqlrow) : list str :=
  omap id (merge_sort state_le (remove_dups (r_state <$> rows))).

(** The answer to [SELECT DISTINCT year FROM SOURCE ORDER BY year] (the
    raw variant casts the year), then [["year"].astype(int).tolist()],
    which raises on a missing year. *)
Definition years (rows : list sqlrow) : option (list Z) :=
  mapM id (merge_sort year_le (remove_dups (r_year <$> rows))).

(** [min(years)] and [max(years)]; [None] is the [ValueError] on an
    empty list. *)
Definition py_min (l : list Z) : option Z :=
  match l with
  | [] => None
  | x :: r => Some (foldl Z.min x r)
  end.

Definition py_max (l : list Z) : option Z :=
  match l with
  | [] => None
  | x :: r => Some (foldl Z.max x r)
  end.

(** [min_year, max_year = min(years), max(years)] *)
Definition year_range (years : list Z) : option (Z * Z) :=
  min_year ← py_min years; max_year ← py_max years; Some (min_year, max_year).

(** [l.index(x)]: the first position of [x]; [None] is the
    [ValueError]. *)
Definition py_index (x : str) (l : list str) : option nat :=
  fst <$> list_find (λ y, y = x) l.

(** [states_list.index("NEW_YORK") if "NEW_YORK" in states_list else 0] *)
Definition default_state_index (states_list : list str) : option nat :=
  if decide (lit "NEW_YORK" ∈ states_list)
  then py_index (lit "NEW_YORK") states_list
  else Some 0%nat.

(** The state that the select box shows first: the option at the
    default index, nothing when there is no option. *)
Definition default_selected_state (states_list : list str) : option str :=
  i ← default_state_index states_list; states_list !! i.

(** [list(metric_options.keys())], the options of the metric box. *)
Definition metric_labels (SOURCE : str) : list str := (metric_options SOURCE).*1.

End Controls.

Import Controls.

(** ** The leaderboards and the count of states *)

Module Leaderboard.

(** [sort_values("metric", ascending=False)]: larger metric first, a
    missing metric last. *)
Definition metric_desc (a b : coded) : Prop :=
  match notna (df_metric (row a)), notna (df_metric (row b)) with
  | Some x, Some y => (y ≤ x)%Qc
  | _, None => True
  | None, Some _ => False
  end.

(** [sort_values("metric", ascending=True)]: smaller metric first, a
    missing metric last. *)
Definition metric_asc (a b : coded) : Prop :=
  match notna (df_metric (row a)), notna (df_metric (row b)) with
  | Some x, Some y => (x ≤ y)%Qc
  | _, None => True
  | None, Some _ => False
  end.

#[export] Instance metric_desc_dec a b : Decision (metric_desc a b).
Proof.
  unfold metric_desc.
  destruct (notna (df_metric (row a))), (notna (df_metric (row b))); apply _.
Defined.

#[export] Instance metric_asc_dec a b : Decision (metric_asc a b).
Proof.
  unfold metric_asc.
  destruct (notna (df_metric (row a))), (notna (df_metric (row b))); apply _.
Defined.

(** [df.sort_values("metric", ascending=False).head(10)] *)
Definition top (df : list coded) : list coded := take 10 (merge_sort metric_desc df).

(** [df.sort_values("metric", ascending=True).head(10)] *)
Definition bottom (df : list coded) : list coded := take 10 (merge_sort metric_asc df).

(** [df['state'].nunique()]: the distinct values of the column
    [state], a missing one not counted. *)
Definition states_in_view (df : list coded) : nat :=
  length (remove_dups (omap (λ r, df_state (row r)) df)).

(** The distinct values of the column [state_code]. *)
Definition codes_in_view (df : list coded) : nat :=
  length (remove_dups (omap state_code df)).

End Leaderboard.

Import Leaderboard.

(** ** Sample data *)

Module Examples.

Definition record_of (state : option str) (metric : pycell) : record :=
  {| df_state := state; df_year := Some 2019%Z; df_metric := metric;
     df_enroll := None; df_total_revenue := None; df_total_expenditure := None |}.

Definition ny_record : record := record_of (Some (lit "new_york")) (Some (Fin (Qc_of_Z 30))).
Definition guam_record : record := record_of (Some (lit "Guam")) (Some (Fin (Qc_of_Z 99))).
Definition tx_record : record := record_of (Some (lit "TEXAS")) (Some (Fin (Qc_of_Z 10))).

(** A raw row of a state without pupils. *)
Definition zero_enroll_cols : columns :=
  <[lit "enroll" := Some (Qc_of_Z 0)]>
    (<[lit "total_expenditure" := Some (Qc_of_Z 100)]>
       (<[lit "total_revenue" := Some (Qc_of_Z 120)]> ∅)).

Definition raw_row (state : string) (year revenue : Z) : sqlrow :=
  {| r_state := Some (lit state); r_year := Some year;
     r_cols := <[lit "enroll" := Some (Qc_of_Z 10)]>
                 (<[lit "total_expenditure" := Some (Qc_of_Z 50)]>
                    (<[lit "total_revenue" := Some (Qc_of_Z revenue)]> ∅)) |}.

(** The raw relation with two states in 2018 and one in 2019. *)
Definition raw_rows : list sqlrow :=
  [raw_row "NEW_YORK" 2019 80; raw_row "TEXAS" 2018 60; raw_row "NEW_YORK" 2018 40].

Definition raw_db : database := <[FALLBACK_SOURCE := raw_rows]> ∅.

Definition summary_row (year spend : Z) : sqlrow :=
  {| r_state := None; r_year := Some year;
     r_cols := <[lit "national_spend_per_student" := Some (Qc_of_Z spend)]> ∅ |}.

(** A summary relation with one row per year. *)
Definition summary_db : database :=
  <[lit "v_national_summary" := [summary_row 2016 11; summary_row 2015 10]]> ∅.

Definition obs_of (year value : Z) : obs :=
  {| o_year := Some year; o_metric := Some (Fin (Qc_of_Z value)) |}.

(** The state reports 2015, 2016 and 2017, the nation 2015 and 2017. *)
Definition state_three_years : list obs := [obs_of 2015 7; obs_of 2016 8; obs_of 2017 9].
Definition national_two_years : list obs := [obs_of 2015 5; obs_of 2017 6].

(** The state has a row for 2019 whose metric is NaN (its enrollment of
    that year is zero, so the guarded ratio is NULL). *)
Definition state_nan_2019 : list obs :=
  [obs_of 2018 10; {| o_year := Some 2019%Z; o_metric := Some NaN |}].
Definition national_2018_2019 : list obs := [obs_of 2018 9; obs_of 2019 12].

(** The state has a row without year besides its row for 2019. *)
Definition state_missing_year : list obs :=
  [{| o_year := None; o_metric := Some (Fin (Qc_of_Z 3)) |}; obs_of 2019 10].

End Examples.

Import Examples.

(* ================================================================== *)
(** * Properties *)


Section PyStrFacts.

Lemma forall_below (k : nat) (Q : N → Prop) :
  Forall Q (N.of_nat <$> seq 0 k) → ∀ c, c < N.of_nat k → Q c.
Proof.
  intros HQ c Hc. rewrite Forall_forall in HQ. apply HQ.
  apply list_elem_of_fmap. exists (N.to_nat c). split; [lia|].
  apply elem_of_seq. lia.
Qed.

Lemma dropwhile_decompose p s :
  ∃ pre, s = pre ++ dropwhile p s ∧ Forall (λ c, p c = true) pre.
Proof.
  induction s as [|c r (pre & Heq & Hpre)]; simpl.
  - by exists [].
  - destruct (p c) eqn:Hc.
    + exists (c :: pre). split; [by f_equal/=|by constructor].
    + by exists [].
Qed.

Lemma dropwhile_id p c r : p c = false → dropwhile p (c :: r) = c :: r.
Proof. intros Hc. simpl. by rewrite Hc. Qed.

Lemma words_space_snoc s c :
  cp_isspace c = true → words (s ++ [c]) = words s.
Proof.
  intros Hc. induction s as [|a s IH]; simpl.
  - by rewrite Hc.
  - by rewrite IH.
Qed.

Lemma split_space_cons c s : cp_isspace c = true → split (c :: s) = split s.
Proof.
  intros Hc. unfold split. simpl. destruct (words s) as [w ws].
  by rewrite Hc.
Qed.

Lemma split_spaces_l pre s :
  Forall (λ c, cp_isspace c = true) pre → split (pre ++ s) = split s.
Proof.
  induction 1 as [|c pre Hc _ IH]; [done|].
  simpl. by rewrite split_space_cons.
Qed.

Lemma split_spaces_r s suf :
  Forall (λ c, cp_isspace c = true) suf → split (s ++ suf) = split s.
Proof.
  intros Hsuf. revert s.
  induction Hsuf as [|c suf Hc _ IH]; intros s.
  - by rewrite app_nil_r.
  - rewrite cons_middle, (assoc_L (++) s [c] suf), IH. unfold split.
    by rewrite words_space_snoc.
Qed.

Lemma rstrip_decompose s :
  ∃ suf, s = rstrip s ++ suf ∧ Forall (λ c, cp_isspace c = true) suf.
Proof.
  destruct (dropwhile_decompose cp_isspace (reverse s)) as (pre & Heq & Hpre).
  exists (reverse pre). split.
  - unfold rstrip. rewrite <- reverse_app, <- Heq.
    by rewrite reverse_involutive.
  - by apply Forall_reverse.
Qed.

(** [split] ignores leading and trailing whitespace, so the [strip]
    before it is redundant. *)
Lemma split_strip s : split (strip s) = split s.
Proof.
  unfold strip.
  destruct (rstrip_decompose (lstrip s)) as (suf & Heq & Hsuf).
  destruct (dropwhile_decompose cp_isspace s) as (pre & Heq' & Hpre).
  rewrite Heq' at 2. rewrite split_spaces_l by done.
  fold (lstrip s). rewrite Heq at 2. by rewrite split_spaces_r.
Qed.

Lemma strip_sublist s : strip s ⊆ s.
Proof.
  intros c Hc. unfold strip in Hc.
  destruct (rstrip_decompose (lstrip s)) as (suf & Heq & _).
  destruct (dropwhile_decompose cp_isspace s) as (pre & Heq' & _).
  rewrite Heq'. fold (lstrip s). rewrite Heq. set_solver.
Qed.

Lemma replace_char_fmap old new s :
  replace old [new] s = (λ c, if c =? old then new else c) <$> s.
Proof.
  unfold replace. induction s as [|c s IH]; [done|].
  cbn [mbind list_bind fmap list_fmap]. simpl in IH. rewrite IH.
  by destruct (c =? old).
Qed.

Lemma dropwhile_spaces_l p pre s :
  Forall (λ c, p c = true) pre → dropwhile p (pre ++ s) = dropwhile p s.
Proof. induction 1 as [|c pre Hc _ IH]; [done|]. simpl. by rewrite Hc. Qed.

Lemma dropwhile_all p s : Forall (λ c, p c = true) s → dropwhile p s = [].
Proof. intros H. rewrite <- (app_nil_r s). by rewrite dropwhile_spaces_l. Qed.

Lemma dropwhile_app_r p s suf :
  Forall (λ c, p c = true) suf →
  dropwhile p (s ++ suf) = dropwhile p s ++ suf ∨
  (dropwhile p (s ++ suf) = [] ∧ dropwhile p s = []).
Proof.
  intros Hsuf. induction s as [|c s IH]; simpl.
  - right. by rewrite dropwhile_all.
  - destruct (p c); [done|]. by left.
Qed.

Lemma rstrip_spaces_r s suf :
  Forall (λ c, cp_isspace c = true) suf → rstrip (s ++ suf) = rstrip s.
Proof.
  intros Hsuf. unfold rstrip. rewrite reverse_app.
  rewrite dropwhile_spaces_l; [done|]. by apply Forall_reverse.
Qed.

(** [strip] does not see whitespace added at either end. *)
Lemma strip_padding pre s suf :
  Forall (λ c, cp_isspace c = true) pre →
  Forall (λ c, cp_isspace c = true) suf →
  strip (pre ++ s ++ suf) = strip s.
Proof.
  intros Hpre Hsuf. unfold strip, lstrip. rewrite dropwhile_spaces_l by done.
  destruct (dropwhile_app_r cp_isspace s suf Hsuf) as [->|[-> ->]]; [|done].
  by apply rstrip_spaces_r.
Qed.

(** [strip] takes whitespace off both ends and nothing else. *)
Lemma strip_decompose s :
  ∃ pre suf, s = pre ++ strip s ++ suf
             ∧ Forall (λ c, cp_isspace c = true) pre
             ∧ Forall (λ c, cp_isspace c = true) suf.
Proof.
  destruct (dropwhile_decompose cp_isspace s) as (pre & Heq & Hpre).
  destruct (rstrip_decompose (lstrip s)) as (suf & Heq' & Hsuf).
  exists pre, suf. split; [|done]. unfold strip. by rewrite <- Heq'.
Qed.

Lemma strip_no_space s :
  match s with
  | [] => True
  | c :: _ => cp_isspace c = false ∧ cp_isspace (List.last s c) = false
  end → strip s = s.
Proof.
  destruct s as [|c r]; [done|]. intros [Hc Hlast].
  unfold strip, lstrip. rewrite dropwhile_id by done. unfold rstrip.
  destruct (reverse (c :: r)) as [|z t] eqn:Hrev.
  { by apply (f_equal length) in Hrev; rewrite length_reverse in Hrev. }
  assert (c :: r = reverse t ++ [z]) as Hs.
  { by rewrite <- reverse_cons, <- Hrev, reverse_involutive. }
  rewrite Hs, List.last_last in Hlast.
  rewrite dropwhile_id by done. by rewrite <- Hrev, reverse_involutive.
Qed.

(** A table of ranges holds of a code point what holds of every point
    of its ranges. *)
Lemma in_ranges_Forall (Q : N → Prop) ranges :
  Forall Q (ranges ≫= λ r, (λ k, r.1 + N.of_nat k) <$> seq 0 (N.to_nat (r.2 + 1 - r.1))) →
  ∀ c, in_ranges ranges c = true → Q c.
Proof.
  induction ranges as [|[lo hi] rest IH]; [done|].
  rewrite bind_cons, Forall_app. cbn [fst snd]. intros [Hhere Hrest] c. cbn [in_ranges].
  destruct (N.ltb_spec c lo) as [|Hlo]; [done|].
  destruct (N.leb_spec c hi) as [Hhi|]; [|by apply IH].
  intros _. rewrite Forall_forall in Hhere. apply Hhere.
  apply list_elem_of_fmap. exists (N.to_nat (c - lo)). split; [lia|].
  apply elem_of_seq. lia.
Qed.

(** No letter is whitespace. *)
Lemma isspace_not_alpha c : cp_isspace c = true → cp_isalpha c = false.
Proof.
  apply (in_ranges_Forall (λ c, cp_isalpha c = false) WHITESPACE).
  apply (bool_decide_unpack _). vm_compute. reflexivity.
Qed.

Lemma isalpha_not_space c : cp_isalpha c = true → cp_isspace c = false.
Proof.
  intros Ha. destruct (cp_isspace c) eqn:Hs; [|done].
  apply isspace_not_alpha in Hs. congruence.
Qed.

End PyStrFacts.


Section DictFacts.
Context {V : Type}.
Implicit Types (items : list (str * V)) (m : gmap str V).

Lemma table_lookup_None key items :
  key ∉ items.*1 → table_lookup key items = None.
Proof.
  induction items as [|[k v] rest IH]; [done|].
  rewrite fmap_cons, not_elem_of_cons. intros [Hne Hrest]. simpl.
  rewrite decide_False by done. auto.
Qed.

Lemma table_lookup_Some key v items :
  table_lookup key items = Some v → (key, v) ∈ items.
Proof.
  induction items as [|[k w] rest IH]; [done|]. simpl.
  case_decide as Hk.
  - intros [= ->]. subst. left.
  - intros. right. auto.
Qed.

Lemma table_lookup_elem key v items :
  NoDup items.*1 → (key, v) ∈ items → table_lookup key items = Some v.
Proof.
  induction items as [|[k w] rest IH]; [by intros _ ?%elem_of_nil|].
  rewrite fmap_cons, NoDup_cons. intros [Hk Hnd] [[= -> ->]|Hin]%elem_of_cons; simpl.
  - by rewrite decide_True.
  - rewrite decide_False; [auto|]. intros ->. apply Hk.
    apply list_elem_of_fmap. by exists (key, v).
Qed.

Lemma foldl_insert_lookup items m key :
  NoDup items.*1 →
  foldl (λ m kv, <[kv.1 := kv.2]> m) m items !! key
  = match table_lookup key items with Some v => Some v | None => m !! key end.
Proof.
  revert m. induction items as [|[k v] rest IH]; intros m; [done|].
  rewrite fmap_cons, NoDup_cons. intros [Hk Hnd]. simpl. rewrite IH by done.
  case_decide as Hkey.
  - subst. rewrite table_lookup_None by done. by rewrite lookup_insert_eq.
  - by rewrite lookup_insert_ne.
Qed.

(** With distinct keys, a dict lookup is the first match in the list
    of items. *)
Lemma dict_of_items_lookup items key :
  NoDup items.*1 → dict_of_items items !! key = table_lookup key items.
Proof.
  intros Hnd. unfold dict_of_items. rewrite foldl_insert_lookup by done.
  rewrite lookup_empty. by destruct (table_lookup key items).
Qed.

End DictFacts.

Section NormalizerFacts.

Lemma STATE_ITEMS_length : length STATE_ITEMS = 51%nat.
Proof. reflexivity. Qed.

Lemma STATE_ITEMS_NoDup : NoDup STATE_ITEMS.*1.
Proof. apply (bool_decide_unpack _). vm_compute. reflexivity. Qed.

(** No two names of the table agree up to case. *)
Lemma uppercased_table_NoDup : NoDup uppercased_table.*1.
Proof. apply (bool_decide_unpack _). vm_compute. reflexivity. Qed.

Lemma STATE_TO_CODE_lookup key :
  STATE_TO_CODE !! key = table_lookup key STATE_ITEMS.
Proof.
  apply dict_of_items_lookup, STATE_ITEMS_NoDup.
Qed.

Lemma upper_map_lookup key :
  upper_map !! key = table_lookup key uppercased_table.
Proof.
  apply (dict_of_items_lookup uppercased_table), uppercased_table_NoDup.
Qed.

(** [to_state_code] with its two dicts read as tables. *)
Lemma to_state_code_tables s :
  to_state_code (Some s)
  = if decide (length (strip s) = 2%nat ∧ isalpha (strip s) = true)
    then Some (upper (strip s))
    else
      match table_lookup (title (join [32] (split (replace 95 [32] (strip s)))))
                         STATE_ITEMS with
      | Some code => Some code
      | None =>
          table_lookup (upper (join [32] (split (replace 95 [32] (strip s)))))
                       uppercased_table
      end.
Proof.
  unfold to_state_code.
  change (lit " ") with [32]. rewrite split_strip.
  rewrite STATE_TO_CODE_lookup, upper_map_lookup.
  case_decide as Htier.
  - destruct Htier as [Hlen Ha]. rewrite Ha.
    by destruct (Nat.eqb_spec (length (strip s)) 2).
  - destruct (Nat.eqb_spec (length (strip s)) 2) as [Hlen|Hlen]; [|done].
    destruct (isalpha (strip s)); [|done]. by destruct Htier.
Qed.

(** The steps of the specification against the built-ins that the
    source calls. *)
Lemma trim_left_lstrip s : trim_left s = lstrip s.
Proof.
  unfold lstrip. induction s as [|c r IH]; [done|]. cbn [trim_left dropwhile].
  by destruct (cp_isspace c).
Qed.

Lemma dropwhile_snoc p l c :
  dropwhile p (l ++ [c])
  = match dropwhile p l with
    | [] => if p c then [] else [c]
    | d => d ++ [c]
    end.
Proof.
  induction l as [|a l IH]; [done|]. rewrite <- app_comm_cons. cbn [dropwhile].
  by destruct (p a).
Qed.

Lemma trim_right_rstrip s : trim_right s = rstrip s.
Proof.
  unfold trim_right, rstrip. induction s as [|c r IH]; [done|].
  cbn [foldr]. rewrite IH, reverse_cons, dropwhile_snoc.
  destruct (dropwhile cp_isspace (reverse r)) as [|d ds] eqn:Hd.
  - change (reverse []) with (@nil N). rewrite bool_decide_eq_true_2 by done.
    rewrite andb_true_r. by destruct (cp_isspace c).
  - rewrite bool_decide_eq_false_2, andb_false_r.
    + by rewrite reverse_app.
    + intros Hnil. apply (f_equal length) in Hnil.
      by rewrite length_reverse in Hnil.
Qed.

Lemma trim_strip s : trim s = strip s.
Proof. unfold trim, strip. by rewrite trim_left_lstrip, trim_right_rstrip. Qed.

Lemma join_spaced w ws : join [32] (w :: ws) = w ++ (ws ≫= λ v, 32 :: v).
Proof.
  revert w. induction ws as [|v ws IH]; intros w.
  - by rewrite app_nil_r.
  - cbn [join]. cbn [join] in IH. by rewrite IH.
Qed.

Lemma collapse_run_words started gap s :
  collapse_run started gap s
  = match (words s).1 with
    | [] => if started then (words s).2 ≫= (λ v, 32 :: v) else join [32] (words s).2
    | w => (if gap then [32] else []) ++ w ++ ((words s).2 ≫= λ v, 32 :: v)
    end.
Proof.
  revert started gap. induction s as [|c r IH]; intros started gap.
  - by destruct started.
  - cbn [collapse_run words]. destruct (words r) as [w ws] eqn:Hw.
    destruct (cp_isspace c).
    + rewrite IH. cbn [fst snd]. destruct w as [|a w]; [done|].
      cbn [push_word]. destruct started; [done|]. by rewrite join_spaced.
    + rewrite IH. cbn [fst snd]. destruct w as [|a w], gap; done.
Qed.

Lemma collapse_split s : collapse_whitespace s = join [32] (split s).
Proof.
  unfold collapse_whitespace, split. rewrite collapse_run_words.
  destruct (words s) as [w ws]. cbn [fst snd]. destruct w as [|a w]; [done|].
  cbn [push_word]. by rewrite join_spaced.
Qed.

(** The source and the three-tier definition agree on every string. *)
Lemma to_state_code_refines s : to_state_code (Some s) = normalizer_spec s.
Proof.
  rewrite to_state_code_tables. unfold normalizer_spec. cbv zeta.
  rewrite trim_strip, collapse_split. unfold underscores_to_spaces.
  rewrite <- replace_char_fmap.
  destruct (strip s) as [|a [|b [|c r]]].
  - by rewrite decide_False by (by intros [? _]).
  - by rewrite decide_False by (by intros [? _]).
  - cbn [isalpha forallb]. rewrite andb_true_r.
    destruct (cp_isalpha a && cp_isalpha b) eqn:Hab.
    + rewrite decide_True by done. unfold upper.
      rewrite !bind_cons. change (@nil N ≫= cp_upper) with (@nil N).
      by rewrite app_nil_r.
    + by rewrite decide_False by (by intros [_ ?]).
  - by rewrite decide_False by (by intros [? _]).
Qed.

End NormalizerFacts.

Section TidyFacts.

Lemma tidy_run_mono s : tidy_run false s = true → tidy_run true s = true.
Proof. destruct s as [|c r]; [done|]. simpl. by destruct (cp_isspace c). Qed.

Lemma tidy_run_words b s :
  tidy_run b s = true →
  ∃ w ws, words s = (w, ws) ∧ (b = false → w ≠ [])
          ∧ w ++ match ws with [] => [] | _ => 32 :: join [32] ws end = s.
Proof.
  revert b. induction s as [|c r IH]; intros b; simpl.
  - intros ->. by exists [], [].
  - destruct (cp_isspace c) eqn:Hc.
    + intros [[-> Hc32%N.eqb_eq]%andb_true_iff Hr]%andb_true_iff. subst c.
      destruct (IH _ Hr) as (w & ws & -> & Hw & Hjoin).
      exists [], (w :: ws). split_and!; [|done|].
      * destruct w; [by destruct Hw|done].
      * simpl. f_equal. rewrite <- Hjoin. by destruct ws; rewrite ?app_nil_r.
    + intros Hr. destruct (IH _ Hr) as (w & ws & -> & _ & Hjoin).
      exists (c :: w), ws. split_and!; [done..|]. simpl. by rewrite Hjoin.
Qed.

(** Splitting a tidy string into words and joining them with single
    spaces gives the string back. *)
Lemma tidy_join_split s : tidy s = true → join [32] (split s) = s.
Proof.
  intros (w & ws & Hws & Hw & Hjoin)%tidy_run_words.
  unfold split. rewrite Hws. destruct w as [|a w]; [by destruct Hw|].
  rewrite <- Hjoin. simpl. by destruct ws; rewrite ?app_nil_r.
Qed.

Lemma tidy_run_last b s c : tidy_run b (s ++ [c]) = true → cp_isspace c = false.
Proof.
  revert b. induction s as [|a s IH]; intros b; simpl.
  - destruct (cp_isspace c); [|done]. by rewrite andb_false_r.
  - destruct (cp_isspace a); [|by apply IH].
    intros [_ ?]%andb_true_iff. by eapply IH.
Qed.

Lemma tidy_strip s : tidy s = true → strip s = s.
Proof.
  intros Ht. unfold strip, lstrip, rstrip.
  destruct s as [|a s]; [done|].
  assert (cp_isspace a = false) as Ha.
  { unfold tidy in Ht. simpl in Ht. by destruct (cp_isspace a). }
  rewrite dropwhile_id by done.
  destruct (reverse (a :: s)) as [|z t] eqn:Hrev.
  { by apply (f_equal length) in Hrev; rewrite length_reverse in Hrev. }
  assert (a :: s = reverse t ++ [z]) as Hs.
  { by rewrite <- reverse_cons, <- Hrev, reverse_involutive. }
  rewrite Hs in Ht. apply tidy_run_last in Ht.
  rewrite dropwhile_id by done. by rewrite <- Hrev, reverse_involutive.
Qed.

(** Tidiness is kept when characters are replaced one for one by
    non-space characters, a single space staying a single space. *)
Lemma tidy_run_transfer (R : N → N → Prop) n s :
  (∀ c d, R c d → cp_isspace d = false ∨ (c = 32 ∧ d = 32)) →
  Forall2 R n s → ∀ b, tidy_run b n = true → tidy_run b s = true.
Proof.
  intros HR. induction 1 as [|c d n s Hcd _ IH]; intros b; [done|]. simpl.
  destruct (HR _ _ Hcd) as [Hd|[-> ->]].
  - rewrite Hd. destruct (cp_isspace c).
    + intros [_ ?]%andb_true_iff. by apply tidy_run_mono, IH.
    + apply IH.
  - simpl. rewrite !andb_true_iff. intros [? ?]. split; [done|by apply IH].
Qed.

End TidyFacts.

Section SpellingFacts.

Lemma name_char_ascii c : name_char c = true → c < 128.
Proof.
  unfold name_char, in_range.
  rewrite !orb_true_iff, !andb_true_iff, !N.leb_le, N.eqb_eq. lia.
Qed.

Lemma spells_char_cases c d :
  spells_char c d = true → d ∈ [c; c - 32; c + 32; 95].
Proof.
  unfold spells_char.
  rewrite !orb_true_iff, !andb_true_iff, !N.eqb_eq.
  intros [[[->|[_ ->]]|[_ ->]]|[_ ->]]; repeat constructor.
Qed.

Lemma spells_char_written c d :
  name_char c = true → spells_char c d = true → written_ok c d.
Proof.
  intros Hc Hd.
  assert (∀ c, c < 128 →
            Forall (λ d, name_char c = true → spells_char c d = true → written_ok c d)
                   [c; c - 32; c + 32; 95]) as H.
  { apply (forall_below 128). apply (bool_decide_unpack _). vm_compute. reflexivity. }
  specialize (H c (name_char_ascii _ Hc)). rewrite Forall_forall in H.
  by apply H; [apply spells_char_cases|..].
Qed.

Lemma name_char_case c :
  name_char c = true →
  upper (cp_lower c) = cp_upper c ∧ upper (cp_title c) = cp_upper c.
Proof.
  intros Hc. pose proof (name_char_ascii c Hc) as Hlt. revert c Hlt Hc.
  apply (forall_below 128
           (λ c, name_char c = true →
                 upper (cp_lower c) = cp_upper c ∧ upper (cp_title c) = cp_upper c)).
  apply (bool_decide_unpack _). vm_compute. reflexivity.
Qed.

End SpellingFacts.

Section SpellingProof.

Lemma name_char_lower_at before after c :
  name_char c = true → lower_at before after c = cp_lower c.
Proof.
  intros Hc%name_char_ascii. unfold lower_at.
  destruct (N.eqb_spec c 931) as [->|_]; [lia|done].
Qed.

Lemma upper_title_from before b s :
  Forall (λ c, name_char c = true) s → upper (title_from before b s) = upper s.
Proof.
  intros Hs. revert before b.
  induction Hs as [|c s Hc _ IH]; intros before b; [done|].
  cbn [title_from]. rewrite (name_char_lower_at _ _ _ Hc).
  unfold upper in *. rewrite bind_app, bind_cons, IH. f_equal.
  destruct (name_char_case c Hc) as [Hl Ht]. by destruct b.
Qed.

Lemma spelling_written name s :
  Forall (λ c, name_char c = true) name → spelling name s →
  Forall2 written_ok name s.
Proof.
  intros Hname Hsp. induction Hsp as [|c d name s Hcd _ IH]; [constructor|].
  apply Forall_cons in Hname as [Hc Hname].
  constructor; [by apply spells_char_written|by apply IH].
Qed.

Lemma written_upper name s :
  Forall2 written_ok name s → upper (replace 95 [32] s) = upper name.
Proof.
  rewrite replace_char_fmap. unfold upper.
  induction 1 as [|c d name s (Hup & _) _ IH]; [done|].
  rewrite fmap_cons, !bind_cons, IH. by f_equal.
Qed.

Lemma written_name_char name s :
  Forall2 written_ok name s →
  Forall (λ c, name_char c = true) (replace 95 [32] s).
Proof.
  rewrite replace_char_fmap.
  induction 1 as [|c d name s (_ & Hn & _) _ IH]; [constructor|].
  rewrite fmap_cons. by constructor.
Qed.

Lemma written_tidy name s :
  Forall2 written_ok name s → tidy name = true →
  tidy s = true ∧ tidy (replace 95 [32] s) = true.
Proof.
  intros Hw Hname. split.
  - eapply (tidy_run_transfer written_ok); [|done..].
    by intros c d (_ & _ & _ & ?).
  - rewrite replace_char_fmap.
    eapply (tidy_run_transfer
              (λ c d', cp_isspace d' = false ∨ c = 32 ∧ d' = 32)); [done| |done].
    apply Forall2_fmap_r. eapply Forall2_impl; [done|].
    by intros c d (_ & _ & ? & _).
Qed.

(** The names of the table are tidy words of letters, none of them two
    characters long. *)
Lemma STATE_ITEMS_names :
  Forall (λ kv, tidy kv.1 = true
                ∧ Forall (λ c, name_char c = true) kv.1
                ∧ length kv.1 ≠ 2%nat) STATE_ITEMS.
Proof. apply (bool_decide_unpack _). vm_compute. reflexivity. Qed.

Lemma uppercased_table_elem name code :
  (name, code) ∈ STATE_ITEMS → (upper name, code) ∈ uppercased_table.
Proof.
  intros Hin. unfold uppercased_table. apply list_elem_of_fmap.
  by exists (name, code).
Qed.

(** Tier 2 and tier 3 on a spelling of a canonical name. *)
Lemma spelling_code name code s :
  (name, code) ∈ STATE_ITEMS → spelling name s →
  to_state_code (Some s) = Some code.
Proof.
  intros Hin Hsp.
  pose proof STATE_ITEMS_names as Hnames. rewrite Forall_forall in Hnames.
  destruct (Hnames _ Hin) as (Htidy & Hchars & Hlen).
  cbn [fst] in Htidy, Hchars, Hlen. clear Hnames.
  pose proof (spelling_written _ _ Hchars Hsp) as Hw.
  destruct (written_tidy _ _ Hw Htidy) as [Hs Hs'].
  assert (table_lookup (upper name) uppercased_table = Some code) as Hup.
  { apply table_lookup_elem; [apply uppercased_table_NoDup|].
    by apply uppercased_table_elem. }
  rewrite to_state_code_tables.
  rewrite (tidy_strip s Hs), decide_False.
  2:{ intros [Hl _]. apply Hlen. by rewrite (Forall2_length _ _ _ Hsp). }
  rewrite (tidy_join_split _ Hs'), (written_upper _ _ Hw), Hup.
  destruct (table_lookup _ STATE_ITEMS) as [code'|] eqn:Ht; [|done].
  apply table_lookup_Some, uppercased_table_elem in Ht. unfold title in Ht.
  rewrite upper_title_from, (written_upper _ _ Hw) in Ht
    by by eapply written_name_char.
  apply (table_lookup_elem _ _ _ uppercased_table_NoDup) in Ht. congruence.
Qed.

(** Whitespace around an identifier is not seen. *)
Lemma to_state_code_padding pre s suf :
  Forall (λ c, cp_isspace c = true) pre →
  Forall (λ c, cp_isspace c = true) suf →
  to_state_code (Some (pre ++ s ++ suf)) = to_state_code (Some s).
Proof. intros Hpre Hsuf. unfold to_state_code. by rewrite strip_padding. Qed.

(** Tier 1, the whitespace around the two letters written out. *)
Lemma two_letters_code pre a b suf :
  Forall (λ c, cp_isspace c = true) pre →
  Forall (λ c, cp_isspace c = true) suf →
  cp_isalpha a = true → cp_isalpha b = true →
  to_state_code (Some (pre ++ [a; b] ++ suf)) = Some (cp_upper a ++ cp_upper b).
Proof.
  intros Hpre Hsuf Ha Hb. rewrite to_state_code_padding by done.
  rewrite to_state_code_tables.
  rewrite (strip_no_space [a; b]) by (cbn; split; by apply isalpha_not_space).
  rewrite decide_True.
  - unfold upper. rewrite !bind_cons. change (@nil N ≫= cp_upper) with (@nil N).
    by rewrite app_nil_r.
  - split; [done|]. cbn [isalpha forallb]. by rewrite Ha, Hb.
Qed.

(** What tier 1 answers comes from two letters between whitespace. *)
Lemma two_letters_shape s :
  length (strip s) = 2%nat → isalpha (strip s) = true →
  ∃ pre a b suf,
    s = pre ++ [a; b] ++ suf
    ∧ Forall (λ c, cp_isspace c = true) pre
    ∧ Forall (λ c, cp_isspace c = true) suf
    ∧ cp_isalpha a = true ∧ cp_isalpha b = true
    ∧ upper (strip s) = cp_upper a ++ cp_upper b.
Proof.
  intros Hlen Ha. destruct (strip_decompose s) as (pre & suf & Heq & Hpre & Hsuf).
  destruct (strip s) as [|a [|b [|c r]]]; try done.
  cbn [isalpha forallb] in Ha. apply andb_true_iff in Ha as [Haa [Hab _]%andb_true_iff].
  exists pre, a, b, suf. split_and!; [done..|].
  unfold upper. rewrite !bind_cons. change (@nil N ≫= cp_upper) with (@nil N).
  by rewrite app_nil_r.
Qed.

End SpellingProof.

(** ** The normalizer: the three tiers (C1) and the shape of a code (C10) *)

(** C1.  The normalizer [to_state_code] equals the three-tier definition
    of the specification on every string.  Two alphabetic characters,
    with whitespace around them or not, are returned in uppercase; each
    of the 51 canonical names, written in any casing and with underscores
    or spaces between its words, with whitespace around it or not, gives
    the code of that name; a string that matches no tier gives no
    match. *)
Theorem to_state_code_three_tiers :
  length STATE_ITEMS = 51%nat
  ∧ (∀ s, to_state_code (Some s) = normalizer_spec s)
  ∧ (∀ pre a b suf,
       Forall (λ c, cp_isspace c = true) pre →
       Forall (λ c, cp_isspace c = true) suf →
       cp_isalpha a = true → cp_isalpha b = true →
       to_state_code (Some (pre ++ [a; b] ++ suf)) = Some (cp_upper a ++ cp_upper b))
  ∧ (∀ name code s pre suf,
       (name, code) ∈ STATE_ITEMS → spelling name s →
       Forall (λ c, cp_isspace c = true) pre →
       Forall (λ c, cp_isspace c = true) suf →
       to_state_code (Some (pre ++ s ++ suf)) = Some code)
  ∧ (∀ s,
       (∀ a b, trim s = [a; b] → cp_isalpha a && cp_isalpha b = false) →
       title (collapse_whitespace (underscores_to_spaces (trim s))) ∉ STATE_ITEMS.*1 →
       upper (collapse_whitespace (underscores_to_spaces (trim s)))
         ∉ uppercased_table.*1 →
       to_state_code (Some s) = None).
Proof.
  split_and!.
  - reflexivity.
  - apply to_state_code_refines.
  - apply two_letters_code.
  - intros name code s pre suf Hin Hsp Hpre Hsuf.
    rewrite to_state_code_padding by done. by eapply spelling_code.
  - intros s Htier Htitle Hupper. rewrite to_state_code_refines.
    unfold normalizer_spec. cbv zeta. rewrite !table_lookup_None by done.
    destruct (trim s) as [|a [|b [|c r]]] eqn:Ht; try done.
    by rewrite (Htier a b eq_refl).
Qed.

(** Instances: a code with a space or an em space (U+2003) before it,
    two Greek letters, names in mixed casing, a name that is not in the
    table; and, by the three-tier definition, an identifier that only
    tier 2 resolves (its [K] is the Kelvin sign U+212A, which [title]
    lowercases to [k] and [upper] leaves alone) and one that only tier 3
    resolves (its last letter is the long s U+017F, which [upper] maps
    to [S]). *)
Lemma to_state_code_three_tiers_witness :
  to_state_code (Some ([32] ++ lit "tx" ++ [])) = Some (lit "TX")
  ∧ to_state_code (Some ([8195] ++ [116; 120] ++ [10])) = Some (lit "TX")
  ∧ to_state_code (Some ([] ++ [945; 946] ++ [])) = Some [913; 914]
  ∧ to_state_code (Some ([] ++ lit "nEw_yOrK" ++ [])) = Some (lit "NY")
  ∧ to_state_code (Some ([9] ++ lit "DISTRICT_of columbia" ++ [12288])) = Some (lit "DC")
  ∧ to_state_code (Some (lit "Puerto Rico")) = None
  ∧ to_state_code (Some (lit "alas" ++ [8490] ++ lit "a")) = Some (lit "AK")
  ∧ to_state_code (Some (lit "texa" ++ [383])) = Some (lit "TX").
Proof.
  destruct to_state_code_three_tiers as (_ & Hspec & Htwo & Hname & Hnone).
  split_and!.
  - apply (Htwo [32] 116 120 []);
      first [apply (bool_decide_unpack _); vm_compute; reflexivity
            |vm_compute; reflexivity].
  - apply (Htwo [8195] 116 120 [10]);
      first [apply (bool_decide_unpack _); vm_compute; reflexivity
            |vm_compute; reflexivity].
  - apply (Htwo [] 945 946 []);
      first [apply (bool_decide_unpack _); vm_compute; reflexivity
            |vm_compute; reflexivity].
  - apply (Hname (lit "New York")); unfold spelling;
      apply (bool_decide_unpack _); vm_compute; reflexivity.
  - apply (Hname (lit "District of Columbia")); unfold spelling;
      apply (bool_decide_unpack _); vm_compute; reflexivity.
  - apply (Hnone (lit "Puerto Rico")).
    + intros a b Hab. vm_compute in Hab. discriminate Hab.
    + apply (bool_decide_unpack _). vm_compute. reflexivity.
    + apply (bool_decide_unpack _). vm_compute. reflexivity.
  - rewrite Hspec. vm_compute. reflexivity.
  - rewrite Hspec. vm_compute. reflexivity.
Defined.

Section CodeShape.

#[local] Instance two_capitals_dec code : Decision (two_capitals code).
Proof.
  destruct code as [|a [|b [|c r]]].
  1, 2, 4: by right; intros (? & ? & [=] & _).
  destruct (decide (in_range 65 90 a = true ∧ in_range 65 90 b = true)) as [Hab|Hab].
  - left. by exists a, b.
  - right. intros (a' & b' & [= <- <-] & ? & ?). by apply Hab.
Defined.

Lemma STATE_ITEMS_codes : Forall (λ kv, two_capitals kv.2) STATE_ITEMS.
Proof. apply (bool_decide_unpack _). vm_compute. reflexivity. Qed.

Lemma uppercased_table_codes : Forall (λ kv, two_capitals kv.2) uppercased_table.
Proof. apply (bool_decide_unpack _). vm_compute. reflexivity. Qed.

Lemma ascii_alpha_upper c :
  c < 128 → cp_isalpha c = true →
  ∃ u, cp_upper c = [u] ∧ in_range 65 90 u = true.
Proof.
  intros Hc Ha. exists (default 0 (head (cp_upper c))). revert c Hc Ha.
  apply (forall_below 128
           (λ c, cp_isalpha c = true →
                 cp_upper c = [default 0 (head (cp_upper c))]
                 ∧ in_range 65 90 (default 0 (head (cp_upper c))) = true)).
  apply (bool_decide_unpack _). vm_compute. reflexivity.
Qed.

(** On text of Basic Latin the result is no match or two capitals. *)
Lemma to_state_code_ascii s :
  ascii_text s →
  to_state_code (Some s) = None
  ∨ ∃ code, to_state_code (Some s) = Some code ∧ two_capitals code.
Proof.
  intros Hs. rewrite to_state_code_tables.
  case_decide as Htier.
  - right. eexists. split; [done|]. destruct Htier as [Hlen Ha].
    assert (ascii_text (strip s)) as Hstrip.
    { unfold ascii_text in *. rewrite Forall_forall in *.
      intros c Hc. by apply Hs, strip_sublist. }
    destruct (strip s) as [|a [|b [|]]]; try done.
    apply Forall_cons in Hstrip as [Ha128 [Hb128 _]%Forall_cons].
    simpl in Ha. apply andb_true_iff in Ha as [Haa [Hab _]%andb_true_iff].
    destruct (ascii_alpha_upper a) as (ua & Hua & ?); [done..|].
    destruct (ascii_alpha_upper b) as (ub & Hub & ?); [done..|].
    exists ua, ub. unfold upper. simpl. by rewrite Hua, Hub.
  - destruct (table_lookup _ STATE_ITEMS) as [code|] eqn:Ht.
    { right. exists code. split; [done|].
      apply table_lookup_Some in Ht.
      pose proof STATE_ITEMS_codes as H. rewrite Forall_forall in H.
      apply (H _ Ht). }
    destruct (table_lookup _ uppercased_table) as [code|] eqn:Hu; [|by left].
    right. exists code. split; [done|].
    apply table_lookup_Some in Hu.
    pose proof uppercased_table_codes as H. rewrite Forall_forall in H.
    apply (H _ Hu).
Qed.

(** On every string: a code of the table, or what tier 1 makes of two
    letters. *)
Lemma to_state_code_shape s code :
  to_state_code (Some s) = Some code →
  two_capitals code
  ∨ ∃ pre a b suf,
      s = pre ++ [a; b] ++ suf
      ∧ Forall (λ c, cp_isspace c = true) pre
      ∧ Forall (λ c, cp_isspace c = true) suf
      ∧ cp_isalpha a = true ∧ cp_isalpha b = true
      ∧ code = cp_upper a ++ cp_upper b.
Proof.
  rewrite to_state_code_tables. case_decide as Htier.
  - intros [= <-]. right. destruct Htier as [Hlen Ha].
    destruct (two_letters_shape s Hlen Ha)
      as (pre & a & b & suf & Hs & Hpre & Hsuf & Haa & Hab & Hup).
    by exists pre, a, b, suf.
  - intros Hcode. left.
    destruct (table_lookup _ STATE_ITEMS) as [code'|] eqn:Ht.
    + injection Hcode as <-. apply table_lookup_Some in Ht.
      pose proof STATE_ITEMS_codes as H. rewrite Forall_forall in H.
      apply (H _ Ht).
    + apply table_lookup_Some in Hcode.
      pose proof uppercased_table_codes as H. rewrite Forall_forall in H.
      apply (H _ Hcode).
Qed.

End CodeShape.

(** ** The resolved frame and its KPI cards (C4) *)

Section FramesFacts.

Lemma resolved_app l1 l2 : resolved (l1 ++ l2) = resolved l1 ++ resolved l2.
Proof.
  unfold resolved, dropna_state_code, apply_to_state_code.
  by rewrite fmap_app, filter_app.
Qed.

Lemma resolved_cons r df :
  resolved (r :: df)
  = match to_state_code (df_state r) with
    | Some code => {| row := r; state_code := Some code |} :: resolved df
    | None => resolved df
    end.
Proof.
  unfold resolved, dropna_state_code, apply_to_state_code.
  rewrite fmap_cons, filter_cons. cbn [state_code].
  destruct (to_state_code (df_state r)) as [code|].
  - rewrite decide_True; [done|by eexists].
  - rewrite decide_False; [done|]. by intros [? ?].
Qed.

Lemma elem_of_resolved df r :
  r ∈ resolved df
  ↔ row r ∈ df ∧ is_Some (state_code r)
    ∧ state_code r = to_state_code (df_state (row r)).
Proof.
  unfold resolved, dropna_state_code, apply_to_state_code.
  rewrite list_elem_of_filter, list_elem_of_fmap. split.
  - intros (Hsome & r0 & -> & Hin). simpl in *. done.
  - intros (Hin & Hsome & Hcode). split; [done|].
    exists (row r). split; [|done]. destruct r as [r0 c]. simpl in *. by subst.
Qed.

Lemma metric_values_resolved df :
  metric_values (resolved df)
  = omap (λ r, notna (df_metric r))
         (filter (λ r, is_Some (to_state_code (df_state r))) df).
Proof.
  unfold metric_values. induction df as [|r df IH]; [done|].
  rewrite resolved_cons, filter_cons.
  destruct (to_state_code (df_state r)) as [code|] eqn:Hcode.
  - rewrite decide_True by by eexists. simpl. unfold omap in IH. by rewrite IH.
  - rewrite decide_False; [done|]. by intros [? ?].
Qed.

Lemma resolved_drop l1 r l2 :
  to_state_code (df_state r) = None →
  resolved (l1 ++ r :: l2) = resolved (l1 ++ l2).
Proof.
  intros Hr. rewrite !resolved_app, resolved_cons. by rewrite Hr.
Qed.

End FramesFacts.

(** C4.  A record whose state identifier does not resolve is dropped
    before the map and the statistics and gets no default code: the rows
    of the resolved frame are the rows on which the normalizer answers,
    with the code it answers.  The cards read the metric of those rows
    only, so a record that does not resolve, wherever it stands in the
    frame, changes neither the mean nor the maximum nor the minimum. *)
Theorem unresolved_records_dropped :
  (∀ df r, r ∈ resolved df →
     row r ∈ df
     ∧ ∃ code, state_code r = Some code
               ∧ to_state_code (df_state (row r)) = Some code)
  ∧ (∀ df r, to_state_code (df_state r) = None → r ∉ row <$> resolved df)
  ∧ (∀ df r code, r ∈ df → to_state_code (df_state r) = Some code →
       {| row := r; state_code := Some code |} ∈ resolved df)
  ∧ (∀ df, metric_values (resolved df)
           = omap (λ r, notna (df_metric r))
                  (filter (λ r, is_Some (to_state_code (df_state r))) df))
  ∧ (∀ l1 r l2, to_state_code (df_state r) = None →
       kpi_mean (resolved (l1 ++ r :: l2)) = kpi_mean (resolved (l1 ++ l2))
       ∧ kpi_max (resolved (l1 ++ r :: l2)) = kpi_max (resolved (l1 ++ l2))
       ∧ kpi_min (resolved (l1 ++ r :: l2)) = kpi_min (resolved (l1 ++ l2))).
Proof.
  split_and!.
  - intros df r (Hin & [code Hcode] & Heq)%elem_of_resolved.
    split; [done|]. exists code. split; [done|]. by rewrite <- Heq.
  - intros df r Hnone (r' & -> & Hin)%list_elem_of_fmap.
    apply elem_of_resolved in Hin as (_ & [code Hcode] & Heq). congruence.
  - intros df r code Hin Hcode. apply elem_of_resolved. simpl.
    split_and!; [done|by eexists|done].
  - apply metric_values_resolved.
  - intros l1 r l2 Hr. by rewrite (resolved_drop l1 r l2 Hr).
Qed.

(** C10, as the code has it.  [to_state_code] maps [None] to [None].  On
    every string it returns [None], or the code of a table entry, which is
    two capital letters, or, when the trimmed value is two alphabetic
    characters, the Unicode uppercase form of these two characters.  The
    last is two capital letters when the identifier is made of Basic Latin
    (ASCII) characters, so each [state_code] that reaches the later stages
    from such identifiers is two capital letters; for other letters it is
    what [str.upper] gives, which need not be two characters. *)
Theorem to_state_code_two_capitals :
  to_state_code None = None
  ∧ (∀ s code, to_state_code (Some s) = Some code →
       two_capitals code
       ∨ ∃ pre a b suf,
           s = pre ++ [a; b] ++ suf
           ∧ Forall (λ c, cp_isspace c = true) pre
           ∧ Forall (λ c, cp_isspace c = true) suf
           ∧ cp_isalpha a = true ∧ cp_isalpha b = true
           ∧ code = cp_upper a ++ cp_upper b)
  ∧ (∀ s, ascii_text s →
       to_state_code (Some s) = None
       ∨ ∃ code, to_state_code (Some s) = Some code ∧ two_capitals code)
  ∧ (∀ df r, Forall (λ r0, ∀ s, df_state r0 = Some s → ascii_text s) df →
       r ∈ resolved df →
       ∃ code, state_code r = Some code ∧ two_capitals code).
Proof.
  split_and!; [done|apply to_state_code_shape|apply to_state_code_ascii|].
  intros df r Hdf (Hin & [code Hcode] & Heq)%elem_of_resolved.
  exists code. split; [done|]. rewrite Forall_forall in Hdf.
  specialize (Hdf _ Hin). rewrite Hcode in Heq.
  destruct (df_state (row r)) as [s|] eqn:Hs; [|done].
  destruct (to_state_code_ascii s) as [Hn|(code' & Hc & Hshape)]; [by apply Hdf|..];
    congruence.
Qed.

(** Instances: an ASCII identifier, and the two letters [é] and [a],
    which tier 1 returns as [ÉA]. *)
Lemma to_state_code_two_capitals_witness :
  (to_state_code (Some (lit "new_york")) = None
   ∨ ∃ code, to_state_code (Some (lit "new_york")) = Some code ∧ two_capitals code)
  ∧ (two_capitals [201; 65]
     ∨ ∃ pre a b suf,
         [233; 97] = pre ++ [a; b] ++ suf
         ∧ Forall (λ c, cp_isspace c = true) pre
         ∧ Forall (λ c, cp_isspace c = true) suf
         ∧ cp_isalpha a = true ∧ cp_isalpha b = true
         ∧ [201; 65] = cp_upper a ++ cp_upper b).
Proof.
  destruct to_state_code_two_capitals as (_ & Hshape & Hascii & _).
  split.
  - apply (Hascii (lit "new_york")).
    apply (bool_decide_unpack _). vm_compute. reflexivity.
  - apply (Hshape [233; 97] [201; 65]). vm_compute. reflexivity.
Defined.

(** C10 as stated fails: the two-letter string of a sharp s and an [a] is
    alphabetic, and its uppercase form has three letters. *)
Lemma to_state_code_sharp_s :
  to_state_code (Some [223; 97]) = Some (lit "SSA")
  ∧ ¬ (to_state_code (Some [223; 97]) = None
       ∨ ∃ code, to_state_code (Some [223; 97]) = Some code ∧ two_capitals code).
Proof.
  assert (to_state_code (Some [223; 97]) = Some (lit "SSA")) as H.
  { vm_compute. reflexivity. }
  split; [done|]. rewrite H.
  intros [|(code & [= <-] & (a & b & Hab & _))]; [done|]. vm_compute in Hab. done.
Qed.

(** ** The source resolver (C9) *)

Section SourceFacts.

Lemma pick_source_preferred names :
  in_catalog PREFERRED_SOURCE names → pick_source names = PREFERRED_SOURCE.
Proof.
  intros (t & Hin & Hlow). unfold pick_source. rewrite decide_True; [done|].
  rewrite elem_of_list_to_set, list_elem_of_fmap. by exists t.
Qed.

Lemma pick_source_fallback names :
  ¬ in_catalog PREFERRED_SOURCE names → pick_source names = FALLBACK_SOURCE.
Proof.
  intros Hnot. unfold pick_source. rewrite decide_False; [done|].
  rewrite elem_of_list_to_set, list_elem_of_fmap.
  intros (t & Hlow & Hin). apply Hnot. by exists t.
Qed.

Lemma in_catalog_dec name names :
  in_catalog name names ∨ ¬ in_catalog name names.
Proof.
  destruct (decide (lower name ∈ lower <$> names)) as [Hin|Hin].
  - left. apply list_elem_of_fmap in Hin as (t & ? & ?). by exists t.
  - right. intros (t & ? & ?). apply Hin, list_elem_of_fmap. by exists t.
Qed.

(** The existence test of the national summary relation is the same
    comparison up to case. *)
Lemma has_table_or_view_in_catalog names name :
  has_table_or_view names name = true ↔ in_catalog name names.
Proof.
  unfold has_table_or_view. rewrite bool_decide_eq_true. split.
  - intros Hlen. destruct (filter _ names) as [|t ts] eqn:Hf; [simpl in Hlen; lia|].
    assert (t ∈ filter (λ t, lower t = lower name) names) as Hin
      by (rewrite Hf; left).
    apply list_elem_of_filter in Hin as [? ?]. by exists t.
  - intros (t & Hin & Hlow).
    assert (t ∈ filter (λ t, lower t = lower name) names) as Hf
      by by apply list_elem_of_filter.
    destruct (filter _ names); [by apply elem_of_nil in Hf|simpl; lia].
Qed.

End SourceFacts.

(** C9.  The source resolver lists the table names of the schema,
    lowercases them, and selects the curated relation exactly when one
    of them is its name up to case; otherwise it selects the raw
    relation. *)
Theorem pick_source_curated_iff_present :
  ∀ names,
    (pick_source names = PREFERRED_SOURCE ↔ in_catalog PREFERRED_SOURCE names)
    ∧ (pick_source names = FALLBACK_SOURCE ↔ ¬ in_catalog PREFERRED_SOURCE names)
    ∧ (variant_of (pick_source names) = Curated ↔ in_catalog PREFERRED_SOURCE names)
    ∧ (variant_of (pick_source names) = Raw ↔ ¬ in_catalog PREFERRED_SOURCE names).
Proof.
  intros names.
  assert (PREFERRED_SOURCE ≠ FALLBACK_SOURCE) as Hne by (vm_compute; done).
  assert (variant_of PREFERRED_SOURCE = Curated) as Hp by (vm_compute; done).
  assert (variant_of FALLBACK_SOURCE = Raw) as Hf by (vm_compute; done).
  destruct (in_catalog_dec PREFERRED_SOURCE names) as [Hin|Hin].
  - rewrite (pick_source_preferred _ Hin), Hp. split_and!; split; try done.
    all: by intros ?.
  - rewrite (pick_source_fallback _ Hin), Hf. split_and!; split; try done.
    all: by intros ?.
Qed.

Lemma pick_source_curated_iff_present_witness :
  pick_source [lit "States_All"; lit "V_STATE_YEAR_METRICS"] = PREFERRED_SOURCE
  ∧ pick_source [lit "states_all"; lit "v_national_summary"] = FALLBACK_SOURCE.
Proof.
  split.
  - apply (pick_source_curated_iff_present _).
    exists (lit "V_STATE_YEAR_METRICS"). split.
    + apply (bool_decide_unpack _). vm_compute. reflexivity.
    + vm_compute. reflexivity.
  - apply (pick_source_curated_iff_present _).
    intros (t & Hin & Hlow). revert t Hin Hlow.
    apply (proj1 (Forall_forall (λ t, lower t ≠ lower PREFERRED_SOURCE) _)).
    apply (bool_decide_unpack _). vm_compute. reflexivity.
Defined.

(** ** The metric expression registry (C5) and the national expression (C6) *)

Section RegistryFacts.

Lemma variant_of_Raw SOURCE : variant_of SOURCE = Raw → SOURCE ≠ PREFERRED_SOURCE.
Proof. unfold variant_of. by case_decide. Qed.

Lemma metric_expr_raw_expenditure SOURCE :
  SOURCE ≠ PREFERRED_SOURCE →
  metric_expr SOURCE (lit "Expenditure per student")
  = Some (lit "total_expenditure / NULLIF(enroll, 0)").
Proof.
  intros Hne. unfold metric_expr, metric_options. rewrite decide_False by done.
  vm_compute. reflexivity.
Qed.

Lemma metric_expr_raw_revenue SOURCE :
  SOURCE ≠ PREFERRED_SOURCE →
  metric_expr SOURCE (lit "Revenue per student")
  = Some (lit "total_revenue / NULLIF(enroll, 0)").
Proof.
  intros Hne. unfold metric_expr, metric_options. rewrite decide_False by done.
  vm_compute. reflexivity.
Qed.

Lemma parse_guarded_ratio_expenditure :
  parse (lit "total_expenditure / NULLIF(enroll, 0)")
  = Some (Div (Col (lit "total_expenditure")) (NullIf (Col (lit "enroll")) (Num 0))).
Proof. vm_compute. reflexivity. Qed.

Lemma parse_guarded_ratio_revenue :
  parse (lit "total_revenue / NULLIF(enroll, 0)")
  = Some (Div (Col (lit "total_revenue")) (NullIf (Col (lit "enroll")) (Num 0))).
Proof. vm_compute. reflexivity. Qed.

(** A ratio whose divisor is [NULLIF(d, 0)] is NULL when [d] is zero,
    whatever the dividend holds. *)
Lemma eval_guarded_ratio cols n d :
  cols !! d = Some (Some 0%Qc) → is_Some (cols !! n) →
  eval cols (Div (Col n) (NullIf (Col d) (Num 0))) = Some None.
Proof.
  intros Hd [v Hn]. cbn [eval]. rewrite Hn, Hd. cbn [mbind option_bind].
  destruct v as [x|]; [|done].
  rewrite decide_True; [done|]. by apply Qc_is_canon.
Qed.

(** Without the guard the same row makes the query fail. *)
Lemma eval_unguarded_ratio cols n d x :
  cols !! d = Some (Some 0%Qc) → cols !! n = Some (Some x) →
  eval cols (Div (Col n) (Col d)) = None.
Proof.
  intros Hd Hn. cbn [eval]. rewrite Hn, Hd. cbn [mbind option_bind].
  by rewrite decide_True.
Qed.

End RegistryFacts.

(** C5.  Under the raw variant the expression of each per-student metric
    evaluates to NULL on a row whose enrollment is zero: the query does
    not fail and the value is not zero. *)
Theorem raw_per_student_null_on_zero_enroll :
  ∀ SOURCE label cols,
    variant_of SOURCE = Raw →
    label ∈ per_student_labels →
    cols !! lit "enroll" = Some (Some 0%Qc) →
    is_Some (cols !! lit "total_expenditure") →
    is_Some (cols !! lit "total_revenue") →
    ∃ text, metric_expr SOURCE label = Some text
            ∧ eval_text cols text = Some None.
Proof.
  intros SOURCE label cols Hraw%variant_of_Raw Hlabel Henroll Hexp Hrev.
  unfold per_student_labels in Hlabel.
  apply elem_of_cons in Hlabel as [->|Hlabel];
    [|apply elem_of_cons in Hlabel as [->|Hlabel]; [|by apply elem_of_nil in Hlabel]].
  - eexists. split; [by apply metric_expr_raw_expenditure|].
    unfold eval_text. rewrite parse_guarded_ratio_expenditure. cbn [mbind option_bind].
    by apply eval_guarded_ratio.
  - eexists. split; [by apply metric_expr_raw_revenue|].
    unfold eval_text. rewrite parse_guarded_ratio_revenue. cbn [mbind option_bind].
    by apply eval_guarded_ratio.
Qed.

(** C6.  With the dedicated summary relation the query reads
    [nat_expr], which maps each of the five labels to its entry of the
    per-label table and every other label to the expression of the spend
    per student. *)
Theorem nat_expr_per_label_table :
  length NATIONAL_TABLE = 5%nat
  ∧ NATIONAL_TABLE.*1 = (metric_options PREFERRED_SOURCE).*1
  ∧ (∀ label e, (label, e) ∈ NATIONAL_TABLE → nat_expr label = e)
  ∧ (∀ label, label ∉ NATIONAL_TABLE.*1 → nat_expr label = spend_per_student)
  ∧ nat_expr (lit "Expenditure per student") = spend_per_student
  ∧ (∀ SOURCE label mexpr,
       q_expr (national_q true SOURCE label mexpr) = nat_expr label
       ∧ q_from (national_q true SOURCE label mexpr) = lit "v_national_summary"
       ∧ q_avg_by_year (national_q true SOURCE label mexpr) = false).
Proof.
  split_and!; try (vm_compute; reflexivity).
  - intros label e Hin. unfold NATIONAL_TABLE in Hin.
    repeat (apply elem_of_cons in Hin as [[= -> ->]|Hin]; [vm_compute; reflexivity|]).
    by apply elem_of_nil in Hin.
  - intros label Hnot. unfold nat_expr.
    repeat (case_decide as Hl;
            [exfalso; apply Hnot; rewrite Hl;
             apply (bool_decide_unpack _); vm_compute; reflexivity|clear Hl]).
    reflexivity.
  - done.
Qed.

Lemma nat_expr_per_label_table_witness :
  nat_expr (lit "Total Revenue") = lit "national_revenue"
  ∧ nat_expr (lit "Enrollment") = spend_per_student.
Proof.
  destruct nat_expr_per_label_table as (_ & _ & Htable & Hother & _).
  split.
  - apply Htable. apply (bool_decide_unpack _). vm_compute. reflexivity.
  - apply Hother. apply (bool_decide_unpack _). vm_compute. reflexivity.
Defined.

Lemma raw_per_student_null_on_zero_enroll_witness :
  ∃ text, metric_expr FALLBACK_SOURCE (lit "Revenue per student") = Some text
          ∧ eval_text zero_enroll_cols text = Some None.
Proof.
  apply (raw_per_student_null_on_zero_enroll FALLBACK_SOURCE).
  - vm_compute. reflexivity.
  - apply (bool_decide_unpack _). vm_compute. reflexivity.
  - apply (bool_decide_unpack _). vm_compute. reflexivity.
  - apply (bool_decide_unpack _). vm_compute. reflexivity.
  - apply (bool_decide_unpack _). vm_compute. reflexivity.
Defined.

Lemma unresolved_records_dropped_witness :
  kpi_mean (resolved ([ny_record] ++ guam_record :: [tx_record]))
  = kpi_mean (resolved ([ny_record] ++ [tx_record]))
  ∧ {| row := ny_record; state_code := Some (lit "NY") |}
    ∈ resolved [ny_record; guam_record; tx_record]
  ∧ guam_record ∉ row <$> resolved [ny_record; guam_record; tx_record].
Proof.
  destruct unresolved_records_dropped as (_ & Hdrop & Hkeep & _ & Hkpi).
  split_and!.
  - apply Hkpi. vm_compute. reflexivity.
  - apply Hkeep.
    + apply (bool_decide_unpack _). vm_compute. reflexivity.
    + vm_compute. reflexivity.
  - apply Hdrop. vm_compute. reflexivity.
Defined.

(** ** The national baseline (C2, C7) *)

Section NationalFacts.

Implicit Types (pts : list point) (rows : list sqlrow) (q : query).

#[global] Instance year_le_trans : Transitive year_le.
Proof. intros [x|] [y|] [z|]; simpl; try done. lia. Qed.

#[global] Instance year_le_total : Total year_le.
Proof. intros [x|] [y|]; simpl; auto. lia. Qed.

#[global] Instance point_year_le_trans :
  Transitive (λ p1 p2 : point, year_le (p_year p1) (p_year p2)).
Proof. intros p1 p2 p3. apply year_le_trans. Qed.

#[global] Instance point_year_le_total :
  Total (λ p1 p2 : point, year_le (p_year p1) (p_year p2)).
Proof. intros p1 p2. apply year_le_total. Qed.

Lemma order_by_year_perm pts : order_by_year pts ≡ₚ pts.
Proof. apply merge_sort_Permutation. Qed.

Lemma order_by_year_sorted pts :
  StronglySorted year_le (p_year <$> order_by_year pts).
Proof.
  apply (StronglySorted_fmap _ (λ p1 p2, year_le (p_year p1) (p_year p2)));
    [done|].
  unfold order_by_year. apply StronglySorted_merge_sort; apply _.
Qed.

Lemma group_avg_years pts :
  p_year <$> group_avg pts = remove_dups (p_year <$> pts).
Proof.
  unfold group_avg. rewrite <- list_fmap_compose.
  induction (remove_dups (p_year <$> pts)) as [|y ys IH]; [done|].
  by rewrite !fmap_cons, IH.
Qed.

Lemma group_avg_metric pts p :
  p ∈ group_avg pts →
  p_metric p = sql_avg (p_metric <$> filter (λ p', p_year p' = p_year p) pts).
Proof.
  unfold group_avg. intros (y & -> & _)%list_elem_of_fmap. done.
Qed.

Lemma year_of_row q r : year_of q r = r_year r.
Proof. unfold year_of, cast_integer. by destruct (q_cast_year q). Qed.

Lemma row_points_total q e rows :
  Forall (λ r, is_Some (eval (r_cols r) e)) rows →
  is_Some (mapM (row_point q e) rows).
Proof.
  intros Hrows. apply mapM_is_Some. eapply Forall_impl; [done|].
  intros r [v Hv]. unfold row_point. simpl. rewrite Hv. by eexists.
Qed.

Lemma row_points_years q e rows pts :
  mapM (row_point q e) rows = Some pts → p_year <$> pts = r_year <$> rows.
Proof.
  intros H%mapM_Some. induction H as [|r p rows pts Hrp _ IH]; [done|].
  rewrite !fmap_cons, IH. f_equal. unfold row_point in Hrp.
  destruct (eval (r_cols r) e); simplify_eq/=. apply year_of_row.
Qed.

Lemma row_points_values q e rows pts y :
  mapM (row_point q e) rows = Some pts →
  omap id (p_metric <$> filter (λ p, p_year p = y) pts) = year_values e rows y.
Proof.
  intros H%mapM_Some. unfold year_values.
  induction H as [|r p rows pts Hrp _ IH]; [done|].
  unfold row_point in Hrp.
  destruct (eval (r_cols r) e) as [v|] eqn:Hv; simplify_eq/=.
  rewrite !filter_cons. simpl. rewrite year_of_row.
  case_decide; [|done]. rewrite fmap_cons. simpl. rewrite Hv. simpl.
  unfold omap in IH. rewrite IH. done.
Qed.

Lemma national_q_computed SOURCE label mexpr :
  let q := national_q false SOURCE label mexpr in
  q_expr q = mexpr ∧ q_from q = SOURCE ∧ q_where_state q = None
  ∧ q_avg_by_year q = true.
Proof. unfold national_q. by case_decide. Qed.

Lemma national_q_dedicated SOURCE label mexpr :
  let q := national_q true SOURCE label mexpr in
  q_expr q = nat_expr label ∧ q_from q = lit "v_national_summary"
  ∧ q_where_state q = None ∧ q_avg_by_year q = false.
Proof. done. Qed.

(** [run_query] on a query without [WHERE], spelled out. *)
Lemma run_query_unfiltered (db : database) q rows e :
  db !! q_from q = Some rows → parse (q_expr q) = Some e → q_where_state q = None →
  run_query db q
  = pts ← mapM (row_point q e) rows;
    Some (order_by_year (if q_avg_by_year q then group_avg pts else pts)).
Proof.
  intros Hrows He Hw. unfold run_query. rewrite Hrows. simpl. rewrite He. simpl.
  by rewrite Hw.
Qed.

End NationalFacts.

(** The answer to the query of the computed aggregate, for any metric
    expression that evaluates on the rows of the source. *)
Lemma national_q_computed_answer :
  ∀ (db : database) SOURCE label mexpr rows e,
    db !! SOURCE = Some rows →
    parse mexpr = Some e →
    Forall (λ r, is_Some (eval (r_cols r) e)) rows →
    ∃ frame,
      run_query db (national_q false SOURCE label mexpr) = Some frame
      ∧ NoDup (p_year <$> frame)
      ∧ (∀ y, y ∈ p_year <$> frame ↔ y ∈ r_year <$> rows)
      ∧ (∀ p, p ∈ frame →
           p_metric p = mean_or_null (year_values e rows (p_year p)))
      ∧ StronglySorted year_le (p_year <$> frame).
Proof.
  intros db SOURCE label mexpr rows e Hrows He Hev.
  destruct (national_q_computed SOURCE label mexpr) as (Hqe & Hqf & Hqw & Hqa).
  set (q := national_q false SOURCE label mexpr) in *.
  destruct (row_points_total q e rows Hev) as [pts Hpts].
  exists (order_by_year (group_avg pts)). split_and!.
  - rewrite (run_query_unfiltered db q rows e); [|by rewrite ?Hqf, ?Hqe..].
    rewrite Hpts, Hqa. done.
  - rewrite (order_by_year_perm (group_avg pts)), group_avg_years.
    apply NoDup_remove_dups.
  - intros y. rewrite (order_by_year_perm (group_avg pts)), group_avg_years.
    by rewrite elem_of_remove_dups, (row_points_years q e rows pts).
  - intros p Hp. rewrite (order_by_year_perm (group_avg pts)) in Hp.
    rewrite (group_avg_metric _ _ Hp). unfold sql_avg.
    by rewrite (row_points_values q e rows pts).
  - apply order_by_year_sorted.
Qed.

(** On the sample relation the answer is the mean of the two states for
    2018 and the single state for 2019. *)
Example computed_aggregate_sample :
  run_query raw_db (national_q false FALLBACK_SOURCE (lit "Total Revenue")
                               (lit "total_revenue"))
  = Some [ {| p_year := Some 2018%Z; p_metric := Some (Qc_of_Z 50) |};
           {| p_year := Some 2019%Z; p_metric := Some (Qc_of_Z 80) |} ].
Proof. apply (bool_decide_unpack _). vm_compute. reflexivity. Qed.

(** ** The trend frame (C8) and the delta (C3) *)

Section TrendFacts.

Implicit Types (df st nat : list obs) (year : Z).








(** The lookup of the delta, when every row has a year: the metric of
    the first row of the year. *)
Lemma year_value_first df years year :
  mapM o_year df = Some years →
  year_value df year = head (filter (λ p, o_year p = Some year) df) ≫= o_metric.
Proof.
  intros Hyears. unfold year_value. rewrite Hyears. cbn [mbind option_bind].
  apply mapM_Some in Hyears. f_equal.
  induction Hyears as [|p y df years Hy _ IH]; [done|].
  cbn [zip zip_with]. rewrite !filter_cons. cbn [fst]. rewrite Hy.
  destruct (decide (y = year)) as [->|Hne].
  - by rewrite decide_True.
  - rewrite decide_False by congruence. apply IH.
Qed.

Lemma year_value_not_reported df year :
  ¬ reports df year → year_value df year = None.
Proof.
  intros Hno. destruct (mapM o_year df) as [years|] eqn:Hyears.
  - rewrite (year_value_first _ _ _ Hyears).
    destruct (head _) as [p|] eqn:Hhead; [|done].
    apply head_Some_elem_of, list_elem_of_filter in Hhead as [Hy Hp].
    destruct Hno. by exists p.
  - unfold year_value. by rewrite Hyears.
Qed.

Lemma year_value_clean df year :
  Forall clean df →
  (∃ q, year_value df year = Some (Fin q) ∧ has_value df year)
  ∨ (year_value df year = None ∧ ¬ reports df year).
Proof.
  intros Hclean.
  assert (is_Some (mapM o_year df)) as [years Hyears].
  { apply mapM_is_Some. eapply Forall_impl; [done|]. by intros p [? _]. }
  rewrite (year_value_first _ _ _ Hyears).
  destruct (head _) as [p|] eqn:Hhead.
  - left. apply head_Some_elem_of, list_elem_of_filter in Hhead as [Hy Hp].
    rewrite Forall_forall in Hclean. destruct (Hclean _ Hp) as [_ [q Hq]].
    unfold notna in Hq. destruct (o_metric p) as [[q'|]|] eqn:Hm; simplify_eq/=.
    exists q. split; [done|]. by exists p, q.
  - right. split; [done|]. intros (p & Hp & Hy).
    apply head_None in Hhead.
    assert (p ∈ filter (λ p, o_year p = Some year) df) as Hin
      by by apply list_elem_of_filter.
    rewrite Hhead in Hin. by apply elem_of_nil in Hin.
Qed.

Lemma has_value_reports df year : has_value df year → reports df year.
Proof. intros (p & q & ? & ? & _). by exists p. Qed.

(** On frames without missing cell the delta is shown exactly when both
    series have a value for the year. *)
Lemma delta_clean st nat year :
  Forall clean st → Forall clean nat →
  (is_Some (delta st nat year) ↔ has_value st year ∧ has_value nat year).
Proof.
  intros Hst Hnat. unfold delta.
  destruct (year_value_clean st year Hst) as [(a & -> & Ha)|[-> Ha]];
    destruct (year_value_clean nat year Hnat) as [(b & -> & Hb)|[-> Hb]];
    cbn [mbind option_bind]; split; try done.
  - intros [_ ?%has_value_reports]. done.
  - intros [?%has_value_reports _]. done.
  - intros [?%has_value_reports _]. done.
Qed.

(** A year that one of the series does not report has no delta. *)
Lemma delta_not_reported st nat year :
  ¬ reports st year ∨ ¬ reports nat year → delta st nat year = None.
Proof.
  unfold delta. intros [Hno|Hno].
  - by rewrite (year_value_not_reported _ _ Hno).
  - rewrite (year_value_not_reported nat _ Hno).
    by destruct (year_value st year).
Qed.

End TrendFacts.



(** C3: the code at the failing inputs.  The state has a row for 2019
    whose metric is NaN: the series has no value for the year, yet the
    lookup succeeds and the caption is written, with NaN as the delta.
    And a row without year anywhere in the state's series makes the
    conversion of the year column raise, so no delta is shown for 2019
    although both series have a value for it.  The chart path drops such
    rows first ([dropna] before [astype(int)]); the delta reads the frames
    as the warehouse returned them. *)
Theorem delta_reads_undropped_frames :
  (delta state_nan_2019 national_2018_2019 2019 = Some NaN
   ∧ ¬ has_value state_nan_2019 2019)
  ∧ (delta state_missing_year national_2018_2019 2019 = None
     ∧ has_value state_missing_year 2019
     ∧ has_value national_2018_2019 2019).
Proof.
  split_and!.
  - vm_compute. reflexivity.
  - intros (p & q & Hp & Hy & Hm). revert p Hp Hy Hm.
    apply (proj1 (Forall_forall
                    (λ p, o_year p = Some 2019%Z → o_metric p ≠ Some (Fin q)) _)).
    unfold state_nan_2019, obs_of. repeat constructor; cbn; congruence.
  - vm_compute. reflexivity.
  - exists (obs_of 2019 10), (Qc_of_Z 10). split; [|done].
    apply (bool_decide_unpack _). vm_compute. reflexivity.
  - exists (obs_of 2019 12), (Qc_of_Z 12). split; [|done].
    apply (bool_decide_unpack _). vm_compute. reflexivity.
Qed.

(** When no row of either series misses its year or its metric, the
    delta is shown exactly when both series have a value for the selected
    year, and a year that a series does not report never raises: the
    delta is left out. *)
Lemma delta_on_clean_frames st nat year :
  Forall clean st → Forall clean nat →
  (is_Some (delta st nat year) ↔ has_value st year ∧ has_value nat year)
  ∧ (¬ reports st year ∨ ¬ reports nat year → delta st nat year = None).
Proof.
  intros Hst Hnat. split; [by apply delta_clean|apply delta_not_reported].
Qed.

(** ** The expressions of the registry always evaluate *)

Section EvalFacts.

Lemma eval_nullif_zero cols b y :
  eval cols (NullIf b (Num 0)) = Some (Some y) → y ≠ 0%Qc.
Proof.
  cbn [eval]. destruct (eval cols b) as [[x|]|]; cbn; [|done..].
  case_decide as Hx; [done|]. intros [= <-] ->. apply Hx. by apply Qc_is_canon.
Qed.

(** A guarded expression evaluates on every row that has its columns:
    no division by zero is left. *)
Lemma eval_guarded_total cols e :
  guarded e = true →
  Forall (λ c, is_Some (cols !! c)) (expr_columns e) →
  is_Some (eval cols e).
Proof.
  induction e as [name|n|a IHa b IHb|a IHa b IHb|a IHa b IHb];
    cbn [guarded expr_columns eval].
  - intros _ Hc. by inversion Hc.
  - intros _ _. by eexists.
  - intros [Ha Hb]%andb_true_iff [Hca Hcb]%Forall_app.
    destruct (IHa Ha Hca) as [va ->], (IHb Hb Hcb) as [vb ->]. cbn.
    destruct va, vb; try case_decide; by eexists.
  - intros [[Ha Hb]%andb_true_iff Hshape]%andb_true_iff [Hca Hcb]%Forall_app.
    destruct (IHa Ha Hca) as [va Hva], (IHb Hb Hcb) as [vb Hvb].
    rewrite Hva, Hvb. cbn. destruct va as [x|], vb as [y|]; try by eexists.
    rewrite decide_False; [by eexists|].
    destruct b as [| |b1 [|[|]| | |]| |]; try done.
    by apply (eval_nullif_zero cols b1).
  - intros [Ha Hb]%andb_true_iff [Hca Hcb]%Forall_app.
    destruct (IHa Ha Hca) as [va ->], (IHb Hb Hcb) as [vb ->]. cbn.
    destruct va, vb; by eexists.
Qed.

Lemma metric_options_NoDup SOURCE : NoDup (metric_options SOURCE).*1.
Proof.
  unfold metric_options. case_decide;
    apply (bool_decide_unpack _); vm_compute; reflexivity.
Qed.

Lemma metric_expr_elem SOURCE label text :
  metric_expr SOURCE label = Some text → (label, text) ∈ metric_options SOURCE.
Proof.
  unfold metric_expr. rewrite dict_of_items_lookup by apply metric_options_NoDup.
  apply table_lookup_Some.
Qed.

(** Each expression of the registry parses, and is guarded. *)
Lemma metric_options_guarded SOURCE :
  Forall (λ kv, from_option guarded false (parse kv.2) = true) (metric_options SOURCE).
Proof.
  unfold metric_options. case_decide;
    apply (bool_decide_unpack _); vm_compute; reflexivity.
Qed.

Lemma metric_expr_evaluates SOURCE label text cols :
  metric_expr SOURCE label = Some text →
  Forall (λ c, is_Some (cols !! c)) (text_columns text) →
  ∃ e, parse text = Some e ∧ is_Some (eval cols e).
Proof.
  intros Hin%metric_expr_elem Hcols.
  pose proof (metric_options_guarded SOURCE) as Hg. rewrite Forall_forall in Hg.
  specialize (Hg _ Hin). cbn [snd] in Hg. unfold text_columns in Hcols.
  destruct (parse text) as [e|]; [|done]. exists e. split; [done|].
  by apply eval_guarded_total.
Qed.

End EvalFacts.

(** C2.  Without the dedicated summary relation the national query
    reads the expression of the registry under [AVG], grouped by year.
    On source rows that have the columns of the expression it answers
    one point per distinct year of the source, and the value of a point
    is the arithmetic mean of the metric over the rows of its year: the
    sum of the values divided by their number (a NULL metric is left out;
    the value is NULL when none is left). *)
Theorem computed_aggregate_mean_per_year :
  ∀ (db : database) SOURCE label mexpr rows,
    db !! SOURCE = Some rows →
    metric_expr SOURCE label = Some mexpr →
    Forall (λ r, Forall (λ c, is_Some (r_cols r !! c)) (text_columns mexpr)) rows →
    ∃ e frame,
      parse mexpr = Some e
      ∧ run_query db (national_q false SOURCE label mexpr) = Some frame
      ∧ NoDup (p_year <$> frame)
      ∧ (∀ y, y ∈ p_year <$> frame ↔ y ∈ r_year <$> rows)
      ∧ (∀ p, p ∈ frame →
           match year_values e rows (p_year p) with
           | [] => p_metric p = None
           | values =>
               p_metric p
               = Some (foldr Qcplus 0 values / Qc_of_Z (Z.of_nat (length values)))%Qc
           end).
Proof.
  intros db SOURCE label mexpr rows Hrows Hexpr Hcols.
  assert (∃ e, parse mexpr = Some e) as [e He].
  { pose proof (metric_options_guarded SOURCE) as Hg. rewrite Forall_forall in Hg.
    specialize (Hg _ (metric_expr_elem _ _ _ Hexpr)). cbn [snd] in Hg.
    destruct (parse mexpr) as [e|]; [by exists e|done]. }
  destruct (national_q_computed_answer db SOURCE label mexpr rows e Hrows He)
    as (frame & Hrun & Hnodup & Hyears & Hmean & _).
  { eapply Forall_impl; [done|]. intros r Hr.
    destruct (metric_expr_evaluates _ _ _ (r_cols r) Hexpr Hr) as (e' & He' & Hev).
    by simplify_eq. }
  exists e, frame. split_and!; [done..|].
  intros p Hp. rewrite (Hmean p Hp).
  by destruct (year_values e rows (p_year p)).
Qed.

(** On the sample relation: 2018 has the two states with 60/10 and
    40/10, 2019 the one state with 80/10. *)
Lemma computed_aggregate_mean_per_year_witness :
  ∃ e frame,
    parse (lit "total_revenue / NULLIF(enroll, 0)") = Some e
    ∧ run_query raw_db (national_q false FALLBACK_SOURCE (lit "Revenue per student")
                                   (lit "total_revenue / NULLIF(enroll, 0)"))
      = Some frame
    ∧ NoDup (p_year <$> frame)
    ∧ (∀ y, y ∈ p_year <$> frame ↔ y ∈ r_year <$> raw_rows)
    ∧ (∀ p, p ∈ frame →
         match year_values e raw_rows (p_year p) with
         | [] => p_metric p = None
         | values =>
             p_metric p
             = Some (foldr Qcplus 0 values / Qc_of_Z (Z.of_nat (length values)))%Qc
         end).
Proof.
  apply (computed_aggregate_mean_per_year raw_db FALLBACK_SOURCE).
  - vm_compute. reflexivity.
  - vm_compute. reflexivity.
  - apply (bool_decide_unpack _). vm_compute. reflexivity.
Defined.

Section NationalAnswers.

Lemma nat_expr_guarded label :
  from_option guarded false (parse (nat_expr label)) = true.
Proof. unfold nat_expr. repeat case_decide; vm_compute; reflexivity. Qed.

Lemma text_guarded_evaluates text cols :
  from_option guarded false (parse text) = true →
  Forall (λ c, is_Some (cols !! c)) (text_columns text) →
  ∃ e, parse text = Some e ∧ is_Some (eval cols e).
Proof.
  unfold text_columns. destruct (parse text) as [e|]; [|done].
  intros Hg Hcols. exists e. split; [done|]. by apply eval_guarded_total.
Qed.

(** The query on the dedicated summary relation answers one point per
    row of the relation. *)
Lemma national_q_dedicated_answer (db : database) SOURCE label mexpr rows :
  db !! lit "v_national_summary" = Some rows →
  Forall (λ r, Forall (λ c, is_Some (r_cols r !! c)) (text_columns (nat_expr label)))
         rows →
  ∃ frame,
    run_query db (national_q true SOURCE label mexpr) = Some frame
    ∧ p_year <$> frame ≡ₚ r_year <$> rows
    ∧ StronglySorted year_le (p_year <$> frame).
Proof.
  intros Hrows Hcols.
  destruct (parse (nat_expr label)) as [e|] eqn:He.
  2:{ pose proof (nat_expr_guarded label) as Hg. by rewrite He in Hg. }
  set (q := national_q true SOURCE label mexpr).
  destruct (row_points_total q e rows) as [pts Hpts].
  { eapply Forall_impl; [done|]. intros r Hr.
    destruct (text_guarded_evaluates _ (r_cols r) (nat_expr_guarded label) Hr)
      as (e' & He' & Hev). by simplify_eq. }
  exists (order_by_year pts). split_and!.
  - rewrite (run_query_unfiltered db q rows e); [|done..]. by rewrite Hpts.
  - rewrite (order_by_year_perm pts). by rewrite (row_points_years q e rows pts).
  - apply order_by_year_sorted.
Qed.

End NationalAnswers.

(** C7.  Whichever provenance is selected, the national query answers
    when its relation has the columns it reads, and the answer is a
    series indexed by year: ascending in the year, with exactly the years
    of the relation and no year twice.  The computed aggregate gets this
    from its [GROUP BY]; the query on the dedicated summary relation has
    none and answers one point per row, so there the property is that of
    the relation, which by section 3 of the specification carries one
    row per year. *)
Theorem national_series_years :
  ∀ (db : database) use_national SOURCE label mexpr rows,
    db !! q_from (national_q use_national SOURCE label mexpr) = Some rows →
    (use_national = false → metric_expr SOURCE label = Some mexpr) →
    (use_national = true → NoDup (r_year <$> rows)) →
    Forall (λ r, Forall (λ c, is_Some (r_cols r !! c))
                   (text_columns (q_expr (national_q use_national SOURCE label mexpr))))
           rows →
    ∃ frame,
      run_query db (national_q use_national SOURCE label mexpr) = Some frame
      ∧ NoDup (p_year <$> frame)
      ∧ StronglySorted year_le (p_year <$> frame)
      ∧ (∀ y, y ∈ p_year <$> frame ↔ y ∈ r_year <$> rows)
      ∧ length frame = length (remove_dups (r_year <$> rows)).
Proof.
  intros db [] SOURCE label mexpr rows Hrows Hexpr Hone Hcols.
  - destruct (national_q_dedicated_answer db SOURCE label mexpr rows Hrows Hcols)
      as (frame & Hrun & Hperm & Hsorted).
    specialize (Hone eq_refl).
    exists frame. split_and!; [done| |done| |].
    + by rewrite Hperm.
    + intros y. by rewrite Hperm.
    + rewrite <- (length_fmap p_year). apply Permutation_length.
      apply NoDup_Permutation; [by rewrite Hperm|apply NoDup_remove_dups|].
      intros y. by rewrite Hperm, elem_of_remove_dups.
  - specialize (Hexpr eq_refl).
    destruct (national_q_computed SOURCE label mexpr) as (Hqe & Hqf & _).
    rewrite Hqf in Hrows. rewrite Hqe in Hcols.
    assert (∃ e, parse mexpr = Some e
                 ∧ Forall (λ r, is_Some (eval (r_cols r) e)) rows) as (e & He & Hev).
    { pose proof (metric_options_guarded SOURCE) as Hg. rewrite Forall_forall in Hg.
      specialize (Hg _ (metric_expr_elem _ _ _ Hexpr)). cbn [snd] in Hg.
      destruct (parse mexpr) as [e|] eqn:He; [|done]. exists e. split; [done|].
      eapply Forall_impl; [done|]. intros r Hr.
      destruct (text_guarded_evaluates mexpr (r_cols r)) as (e' & He' & Hev');
        [by rewrite He|done|]. by simplify_eq. }
    destruct (national_q_computed_answer db SOURCE label mexpr rows e Hrows He Hev)
      as (frame & Hrun & Hnodup & Hyears & _ & Hsorted).
    exists frame. split_and!; [done..|].
    rewrite <- (length_fmap p_year). apply Permutation_length.
    apply NoDup_Permutation; [done|apply NoDup_remove_dups|].
    intros y. by rewrite Hyears, elem_of_remove_dups.
Qed.

(** Both provenances on sample relations: the summary relation with the
    years 2016 and 2015, and the raw relation with three rows in two
    years. *)
Lemma national_series_years_witness :
  (∃ frame,
     run_query summary_db
       (national_q true PREFERRED_SOURCE (lit "Expenditure per student")
                   (lit "expenditure_per_student")) = Some frame
     ∧ NoDup (p_year <$> frame)
     ∧ StronglySorted year_le (p_year <$> frame)
     ∧ (∀ y, y ∈ p_year <$> frame
             ↔ y ∈ r_year <$> [summary_row 2016 11; summary_row 2015 10])
     ∧ length frame
       = length (remove_dups (r_year <$> [summary_row 2016 11; summary_row 2015 10])))
  ∧ (∃ frame,
       run_query raw_db
         (national_q false FALLBACK_SOURCE (lit "Total Revenue") (lit "total_revenue"))
       = Some frame
       ∧ NoDup (p_year <$> frame)
       ∧ StronglySorted year_le (p_year <$> frame)
       ∧ (∀ y, y ∈ p_year <$> frame ↔ y ∈ r_year <$> raw_rows)
       ∧ length frame = length (remove_dups (r_year <$> raw_rows))).
Proof.
  split.
  - apply (national_series_years summary_db true).
    + vm_compute. reflexivity.
    + intros [=].
    + intros _. apply (bool_decide_unpack _). vm_compute. reflexivity.
    + apply (bool_decide_unpack _). vm_compute. reflexivity.
  - apply (national_series_years raw_db false).
    + vm_compute. reflexivity.
    + intros _. vm_compute. reflexivity.
    + intros [=].
    + apply (bool_decide_unpack _). vm_compute. reflexivity.
Defined.

(* ================================================================== *)
(** * Further properties of the script *)

(** ** The normalizer: fixed points, padding, casing, distinct codes *)

Section NormalizerMore.

Lemma capital_char a :
  in_range 65 90 a = true →
  cp_isspace a = false ∧ cp_isalpha a = true ∧ cp_upper a = [a].
Proof.
  intros Ha. assert (a < 128) as Hlt.
  { unfold in_range in Ha. apply andb_true_iff in Ha as [_ ?%N.leb_le]. lia. }
  revert a Hlt Ha.
  apply (forall_below 128
           (λ a, in_range 65 90 a = true →
                 cp_isspace a = false ∧ cp_isalpha a = true ∧ cp_upper a = [a])).
  apply (bool_decide_unpack _). vm_compute. reflexivity.
Qed.

Lemma two_capitals_fixed code :
  two_capitals code → to_state_code (Some code) = Some code.
Proof.
  intros (a & b & -> & Ha & Hb).
  destruct (capital_char a Ha) as (Hsa & Haa & Hua).
  destruct (capital_char b Hb) as (Hsb & Hab & Hub).
  unfold to_state_code, strip, lstrip, rstrip.
  rewrite dropwhile_id by done.
  change (reverse [a; b]) with [b; a]. rewrite dropwhile_id by done.
  change (reverse [b; a]) with [a; b]. cbn [length Nat.eqb isalpha forallb].
  rewrite Haa, Hab. cbn [andb]. unfold upper. cbn. by rewrite Hua, Hub.
Qed.

Lemma values_NoDup_inj {A B} (l : list (A * B)) a1 a2 b :
  NoDup l.*2 → (a1, b) ∈ l → (a2, b) ∈ l → a1 = a2.
Proof.
  induction l as [|[a c] l IH]; [by intros _ ?%elem_of_nil|].
  rewrite fmap_cons, NoDup_cons. intros [Hc Hnd].
  intros [H1|H1]%elem_of_cons [H2|H2]%elem_of_cons.
  - congruence.
  - injection H1 as -> ->. destruct Hc. apply list_elem_of_fmap. by exists (a2, c).
  - injection H2 as -> ->. destruct Hc. apply list_elem_of_fmap. by exists (a1, c).
  - by apply IH.
Qed.

Lemma STATE_ITEMS_codes_NoDup : NoDup STATE_ITEMS.*2.
Proof. apply (bool_decide_unpack _). vm_compute. reflexivity. Qed.

End NormalizerMore.

(** X1.  A code that the normalizer returned for a string of ASCII
    characters is a fixed point: normalizing it again gives the same
    code. *)
Theorem to_state_code_idempotent :
  ∀ s code, ascii_text s →
    to_state_code (Some s) = Some code → to_state_code (Some code) = Some code.
Proof.
  intros s code Hs Hcode. apply two_capitals_fixed.
  destruct (to_state_code_ascii s Hs) as [Hn|(code' & Hc & Hshape)]; congruence.
Qed.

Lemma to_state_code_idempotent_witness :
  to_state_code (Some (lit "NY")) = Some (lit "NY").
Proof.
  apply (to_state_code_idempotent (lit "new_york")).
  - apply (bool_decide_unpack _). vm_compute. reflexivity.
  - vm_compute. reflexivity.
Defined.

(** X2.  Whitespace around an identifier, that is any characters that
    [str.isspace] accepts (the em space U+2003 and the ideographic space
    U+3000 as well as blanks, tabs and line ends), does not change its
    code, and an identifier of whitespace only (or the empty one) has
    none. *)
Theorem to_state_code_ignores_padding :
  ∀ pre s suf,
    Forall (λ c, cp_isspace c = true) pre →
    Forall (λ c, cp_isspace c = true) suf →
    to_state_code (Some (pre ++ s ++ suf)) = to_state_code (Some s)
    ∧ to_state_code (Some (pre ++ suf)) = None.
Proof.
  intros pre s suf Hpre Hsuf.
  split; [by apply to_state_code_padding|].
  pose proof (to_state_code_padding pre [] suf Hpre Hsuf) as H.
  by rewrite app_nil_l in H.
Qed.

Lemma to_state_code_ignores_padding_witness :
  to_state_code (Some ([32; 8195] ++ lit "ohio" ++ [9; 10; 12288]))
  = to_state_code (Some (lit "ohio"))
  ∧ to_state_code (Some ([32; 8195] ++ [9; 10; 12288])) = None.
Proof.
  apply to_state_code_ignores_padding;
    apply (bool_decide_unpack _); vm_compute; reflexivity.
Defined.

(** X3.  The code identifies the state: two identifiers that spell two
    different names of the table, each letter for letter in any casing
    and with a space or an underscore where the name has a space, with
    whitespace around them or not, never get the same code. *)
Theorem to_state_code_separates_states :
  ∀ name1 code1 s1 pre1 suf1 name2 code2 s2 pre2 suf2,
    (name1, code1) ∈ STATE_ITEMS → (name2, code2) ∈ STATE_ITEMS →
    spelling name1 s1 → spelling name2 s2 →
    Forall (λ c, cp_isspace c = true) (pre1 ++ suf1 ++ pre2 ++ suf2) →
    name1 ≠ name2 →
    to_state_code (Some (pre1 ++ s1 ++ suf1)) ≠ to_state_code (Some (pre2 ++ s2 ++ suf2)).
Proof.
  intros name1 code1 s1 pre1 suf1 name2 code2 s2 pre2 suf2 Hin1 Hin2 Hs1 Hs2 Hpad Hne.
  apply Forall_app in Hpad as [Hpre1 Hpad]. apply Forall_app in Hpad as [Hsuf1 Hpad].
  apply Forall_app in Hpad as [Hpre2 Hsuf2].
  rewrite !to_state_code_padding by done.
  rewrite (spelling_code _ _ _ Hin1 Hs1), (spelling_code _ _ _ Hin2 Hs2).
  intros [= <-]. apply Hne.
  by eapply values_NoDup_inj; [apply STATE_ITEMS_codes_NoDup|..].
Qed.

Lemma to_state_code_separates_states_witness :
  to_state_code (Some ([32] ++ lit "NEW_YORK" ++ [10]))
  ≠ to_state_code (Some ([] ++ lit "new jersey" ++ [9; 32])).
Proof.
  apply (to_state_code_separates_states
           (lit "New York") (lit "NY") _ _ _ (lit "New Jersey") (lit "NJ"));
    unfold spelling; apply (bool_decide_unpack _); vm_compute; reflexivity.
Defined.

Section CaseFacts.

Local Abbreviation up := ascii_upper.
Local Abbreviation ups := (λ w : str, ascii_upper <$> w).

Implicit Types (s w : str) (parts : list str).

Lemma up_char c :
  cp_isspace (up c) = cp_isspace c ∧ cp_isalpha (up c) = cp_isalpha c
  ∧ (up c =? 95) = (c =? 95) ∧ cp_upper (up c) = cp_upper c
  ∧ cp_lower (up c) = cp_lower c ∧ cp_title (up c) = cp_title c
  ∧ cp_iscased (up c) = cp_iscased c
  ∧ cp_iscase_ignorable (up c) = cp_iscase_ignorable c
  ∧ (up c =? 931) = (c =? 931).
Proof.
  destruct (in_range 97 122 c) eqn:Hc.
  2:{ unfold ascii_upper. by rewrite Hc. }
  assert (c < 128) as Hlt.
  { unfold in_range in Hc. apply andb_true_iff in Hc as [_ ?%N.leb_le]. lia. }
  revert c Hlt Hc.
  apply (forall_below 128
           (λ c, in_range 97 122 c = true →
                 cp_isspace (up c) = cp_isspace c ∧ cp_isalpha (up c) = cp_isalpha c
                 ∧ (up c =? 95) = (c =? 95) ∧ cp_upper (up c) = cp_upper c
                 ∧ cp_lower (up c) = cp_lower c ∧ cp_title (up c) = cp_title c
                 ∧ cp_iscased (up c) = cp_iscased c
                 ∧ cp_iscase_ignorable (up c) = cp_iscase_ignorable c
                 ∧ (up c =? 931) = (c =? 931))).
  apply (bool_decide_unpack _). vm_compute. reflexivity.
Qed.

Lemma upper_ascii s : ascii_text s → upper s = up <$> s.
Proof.
  unfold upper. induction 1 as [|c s Hc _ IH]; [done|].
  rewrite fmap_cons, bind_cons, IH. f_equal. revert c Hc.
  apply (forall_below 128 (λ c, cp_upper c ++ (up <$> s) = up c :: (up <$> s))).
  apply Forall_forall. intros c Hc. revert c Hc. apply Forall_forall.
  apply (Forall_impl (λ c, cp_upper c = [up c])); [|by intros c ->].
  apply (bool_decide_unpack _). vm_compute. reflexivity.
Qed.

Lemma dropwhile_up s :
  dropwhile cp_isspace (up <$> s) = up <$> dropwhile cp_isspace s.
Proof.
  induction s as [|c s IH]; [done|]. rewrite fmap_cons. cbn [dropwhile].
  destruct (up_char c) as (-> & _). destruct (cp_isspace c); [done|].
  by rewrite fmap_cons.
Qed.

Lemma strip_up s : strip (up <$> s) = up <$> strip s.
Proof.
  unfold strip, lstrip, rstrip.
  by rewrite dropwhile_up, <- fmap_reverse, dropwhile_up, fmap_reverse.
Qed.

Lemma forallb_isalpha_up s :
  forallb cp_isalpha (up <$> s) = forallb cp_isalpha s.
Proof.
  induction s as [|c s IH]; [done|]. rewrite fmap_cons. cbn [forallb].
  destruct (up_char c) as (_ & -> & _). by rewrite IH.
Qed.

Lemma isalpha_up s : isalpha (up <$> s) = isalpha s.
Proof.
  destruct s as [|c s]; [done|]. unfold isalpha.
  rewrite <- (forallb_isalpha_up (c :: s)). by rewrite fmap_cons.
Qed.

Lemma upper_up s : upper (up <$> s) = upper s.
Proof.
  unfold upper. induction s as [|c s IH]; [done|].
  rewrite fmap_cons, !bind_cons, IH. by destruct (up_char c) as (_ & _ & _ & -> & _).
Qed.

Lemma replace_up s : replace 95 [32] (up <$> s) = up <$> replace 95 [32] s.
Proof.
  rewrite !replace_char_fmap, <- !list_fmap_compose. apply list_fmap_ext.
  intros _ c _. cbn [compose].
  destruct (up_char c) as (_ & _ & -> & _). by destruct (c =? 95).
Qed.

Lemma words_up s :
  words (up <$> s) = (up <$> (words s).1, ups <$> (words s).2).
Proof.
  induction s as [|c s IH]; [done|]. rewrite fmap_cons. cbn [words].
  rewrite IH. destruct (words s) as [w ws]. cbn [fst snd].
  destruct (up_char c) as (-> & _). destruct (cp_isspace c); [|done].
  cbn [fst snd]. by destruct w.
Qed.

Lemma split_up s : split (up <$> s) = ups <$> split s.
Proof.
  unfold split. rewrite words_up. destruct (words s) as [w ws]. cbn [fst snd].
  by destruct w.
Qed.

Lemma join_up parts :
  join [32] (ups <$> parts) = up <$> join [32] parts.
Proof.
  induction parts as [|w [|w' ws] IH]; [done..|].
  rewrite !fmap_cons. rewrite !fmap_cons in IH. cbn [join]. cbn [join] in IH.
  rewrite IH. by rewrite !fmap_app.
Qed.

Lemma final_sigma_head_up s :
  (λ t, match t with
        | [] => None
        | c :: _ => Some (cp_iscased c)
        end) (dropwhile cp_iscase_ignorable (up <$> s))
  = (λ t, match t with
          | [] => None
          | c :: _ => Some (cp_iscased c)
          end) (dropwhile cp_iscase_ignorable s).
Proof.
  induction s as [|c s IH]; [done|]. rewrite fmap_cons. cbn [dropwhile].
  destruct (up_char c) as (_ & _ & _ & _ & _ & _ & Hcased & -> & _).
  destruct (cp_iscase_ignorable c); [done|]. cbn beta iota. by rewrite Hcased.
Qed.

Lemma final_sigma_up before after :
  final_sigma (up <$> before) (up <$> after) = final_sigma before after.
Proof.
  unfold final_sigma.
  pose proof (final_sigma_head_up before) as Hb.
  pose proof (final_sigma_head_up after) as Ha. cbn beta in Hb, Ha.
  destruct (dropwhile _ (up <$> before)), (dropwhile _ before);
    simplify_eq/=; [done|].
  destruct (dropwhile _ (up <$> after)), (dropwhile _ after);
    simplify_eq/=; congruence.
Qed.

Lemma lower_at_up before after c :
  lower_at (up <$> before) (up <$> after) (up c) = lower_at before after c.
Proof.
  unfold lower_at.
  destruct (up_char c) as (_ & _ & _ & _ & -> & _ & _ & _ & ->).
  by rewrite final_sigma_up.
Qed.

Lemma title_from_up before b s :
  title_from (up <$> before) b (up <$> s) = title_from before b s.
Proof.
  revert before b. induction s as [|c s IH]; intros before b; [done|].
  rewrite fmap_cons. cbn [title_from]. rewrite lower_at_up.
  destruct (up_char c) as (_ & _ & _ & _ & _ & -> & -> & _).
  by rewrite <- fmap_cons, IH.
Qed.

(** Uppercasing the ASCII letters of an identifier does not change its
    code. *)
Lemma to_state_code_up s :
  to_state_code (Some (up <$> s)) = to_state_code (Some s).
Proof.
  unfold to_state_code. change (lit " ") with [32].
  rewrite strip_up, length_fmap, isalpha_up, upper_up.
  rewrite replace_up, strip_up, split_up, join_up.
  unfold title. by rewrite (title_from_up []), upper_up.
Qed.

End CaseFacts.

(** X4.  The casing of an identifier of ASCII characters does not
    matter: two such identifiers with the same uppercase form get the same
    answer. *)
Theorem to_state_code_case_insensitive :
  ∀ s1 s2, ascii_text s1 → ascii_text s2 → upper s1 = upper s2 →
    to_state_code (Some s1) = to_state_code (Some s2).
Proof.
  intros s1 s2 H1 H2 Hup.
  rewrite <- (to_state_code_up s1), <- (to_state_code_up s2).
  by rewrite <- !upper_ascii, Hup.
Qed.

Lemma to_state_code_case_insensitive_witness :
  to_state_code (Some (lit "nOrTh_dAkOtA")) = to_state_code (Some (lit "North_Dakota")).
Proof.
  apply to_state_code_case_insensitive.
  - apply (bool_decide_unpack _). vm_compute. reflexivity.
  - apply (bool_decide_unpack _). vm_compute. reflexivity.
  - vm_compute. reflexivity.
Defined.

(** ** The catalog tests and the registry *)

(** X5.  The two existence tests agree: [pick_source] chooses the
    preferred relation exactly when [has_table_or_view] finds it in the
    same list of table names. *)
Theorem pick_source_agrees_with_has_table :
  ∀ names,
    pick_source names = PREFERRED_SOURCE
    ↔ has_table_or_view names PREFERRED_SOURCE = true.
Proof.
  intros names. rewrite has_table_or_view_in_catalog.
  destruct (in_catalog_dec PREFERRED_SOURCE names) as [Hin|Hin].
  - by rewrite (pick_source_preferred _ Hin).
  - rewrite (pick_source_fallback _ Hin). split; [|done].
    intros Heq. exfalso. revert Heq. vm_compute. done.
Qed.

Section RegistryMore.

Lemma table_lookup_is_Some {V} key (table : list (str * V)) :
  is_Some (table_lookup key table) ↔ key ∈ table.*1.
Proof.
  split.
  - intros [v Hv%table_lookup_Some]. apply list_elem_of_fmap. by exists (key, v).
  - intros Hin. destruct (table_lookup key table) eqn:Hl; [by eexists|].
    exfalso. revert Hin. induction table as [|[k v] rest IH]; [by intros ?%elem_of_nil|].
    simpl in Hl. case_decide; [done|]. rewrite fmap_cons.
    intros [?|?]%elem_of_cons; [by simplify_eq|by apply IH].
Qed.

Lemma metric_labels_eq SOURCE :
  metric_labels SOURCE
  = [lit "Expenditure per student"; lit "Revenue per student";
     lit "Surplus / Deficit"; lit "Total Expenditure"; lit "Total Revenue"].
Proof. unfold metric_labels, metric_options. case_decide; vm_compute; reflexivity. Qed.

Lemma metric_expr_raw SOURCE :
  SOURCE ≠ PREFERRED_SOURCE →
  metric_expr SOURCE (lit "Surplus / Deficit")
  = Some (lit "total_revenue - total_expenditure")
  ∧ metric_expr SOURCE (lit "Total Expenditure") = Some (lit "total_expenditure")
  ∧ metric_expr SOURCE (lit "Total Revenue") = Some (lit "total_revenue").
Proof.
  intros Hne. unfold metric_expr, metric_options. rewrite decide_False by done.
  split_and!; vm_compute; reflexivity.
Qed.

Lemma parse_raw_others :
  parse (lit "total_revenue - total_expenditure")
  = Some (Sub (Col (lit "total_revenue")) (Col (lit "total_expenditure")))
  ∧ parse (lit "total_expenditure") = Some (Col (lit "total_expenditure"))
  ∧ parse (lit "total_revenue") = Some (Col (lit "total_revenue")).
Proof. split_and!; vm_compute; reflexivity. Qed.

(** The value of a guarded ratio: NULL when a cell is NULL or the
    divisor is zero, the quotient otherwise. *)
Lemma eval_guarded_ratio_value cols n d t e :
  cols !! n = Some t → cols !! d = Some e →
  eval cols (Div (Col n) (NullIf (Col d) (Num 0)))
  = Some (match t, e with
          | Some x, Some y => if decide (y = 0%Qc) then None else Some (x / y)%Qc
          | _, _ => None
          end).
Proof.
  intros Hn Hd. cbn [eval]. rewrite Hn, Hd.
  assert (Qc_of_Z (Z.of_N 0) = 0%Qc) as -> by by apply Qc_is_canon.
  destruct t as [x|], e as [y|]; cbn [mbind option_bind]; try done.
  - destruct (decide (y = 0%Qc)) as [Hy|Hy]; cbn; [done|]. by rewrite decide_False.
  - by case_decide.
Qed.

End RegistryMore.

(** X6.  Both schema variants offer the same five labels in the same
    order, the first being the default of the metric box, and the
    lookup of the expression succeeds exactly for these labels (any other
    label is a [KeyError]). *)
Theorem registry_labels :
  ∀ SOURCE,
    metric_labels SOURCE = metric_labels PREFERRED_SOURCE
    ∧ length (metric_labels SOURCE) = 5%nat
    ∧ head (metric_labels SOURCE) = Some (lit "Expenditure per student")
    ∧ (∀ label, is_Some (metric_expr SOURCE label) ↔ label ∈ metric_labels SOURCE).
Proof.
  intros SOURCE. rewrite !metric_labels_eq. split_and!; [done..|].
  intros label. unfold metric_expr.
  rewrite dict_of_items_lookup by apply metric_options_NoDup.
  rewrite table_lookup_is_Some. fold (metric_labels SOURCE).
  by rewrite metric_labels_eq.
Qed.

(** X7.  Under the raw variant a per-student metric is NULL when the
    total or the enrollment is NULL or the enrollment is zero, and is the
    total divided by the enrollment otherwise. *)
Theorem raw_per_student_value :
  ∀ SOURCE label total (cols : columns) t e,
    variant_of SOURCE = Raw →
    (label, total) ∈ [ (lit "Expenditure per student", lit "total_expenditure");
                       (lit "Revenue per student", lit "total_revenue") ] →
    cols !! total = Some t →
    cols !! lit "enroll" = Some e →
    ∃ text,
      metric_expr SOURCE label = Some text
      ∧ eval_text cols text
        = Some (match t, e with
                | Some x, Some y => if decide (y = 0%Qc) then None else Some (x / y)%Qc
                | _, _ => None
                end).
Proof.
  intros SOURCE label total cols t e Hraw%variant_of_Raw Hlabel Ht He.
  apply elem_of_cons in Hlabel as [[= -> ->]|Hlabel];
    [|apply elem_of_cons in Hlabel as [[= -> ->]|Hlabel];
      [|by apply elem_of_nil in Hlabel]].
  - eexists. split; [by apply metric_expr_raw_expenditure|].
    unfold eval_text. rewrite parse_guarded_ratio_expenditure. cbn [mbind option_bind].
    by apply eval_guarded_ratio_value.
  - eexists. split; [by apply metric_expr_raw_revenue|].
    unfold eval_text. rewrite parse_guarded_ratio_revenue. cbn [mbind option_bind].
    by apply eval_guarded_ratio_value.
Qed.

Lemma raw_per_student_value_witness :
  ∃ text,
    metric_expr FALLBACK_SOURCE (lit "Revenue per student") = Some text
    ∧ eval_text (r_cols (raw_row "TEXAS" 2018 60)) text
      = Some (if decide (Qc_of_Z 10 = 0%Qc) then None
              else Some (Qc_of_Z 60 / Qc_of_Z 10)%Qc).
Proof.
  apply (raw_per_student_value FALLBACK_SOURCE _ (lit "total_revenue") _
           (Some (Qc_of_Z 60)) (Some (Qc_of_Z 10))).
  - vm_compute. reflexivity.
  - apply (bool_decide_unpack _). vm_compute. reflexivity.
  - vm_compute. reflexivity.
  - vm_compute. reflexivity.
Defined.

(** X8.  Under the raw variant every metric of the registry evaluates
    on a row that has the three columns [enroll], [total_revenue] and
    [total_expenditure]: no metric query fails on a division by zero or
    on a column it does not have. *)
Theorem raw_metrics_evaluate :
  ∀ SOURCE label (cols : columns),
    variant_of SOURCE = Raw →
    label ∈ metric_labels SOURCE →
    is_Some (cols !! lit "enroll") →
    is_Some (cols !! lit "total_revenue") →
    is_Some (cols !! lit "total_expenditure") →
    ∃ text v, metric_expr SOURCE label = Some text ∧ eval_text cols text = Some v.
Proof.
  intros SOURCE label cols Hraw Hlabel Hen Hrev Hexp.
  pose proof (variant_of_Raw _ Hraw) as Hne.
  assert (is_Some (metric_expr SOURCE label)) as [text Htext].
  { unfold metric_expr. rewrite dict_of_items_lookup by apply metric_options_NoDup.
    by apply table_lookup_is_Some. }
  exists text.
  destruct (metric_expr_evaluates SOURCE label text cols Htext) as (ex & Hex & [v Hv]).
  - pose proof (metric_expr_elem _ _ _ Htext) as Hin.
    unfold metric_options in Hin. rewrite decide_False in Hin by done.
    repeat (apply elem_of_cons in Hin as [[= -> ->]|Hin];
            [apply (Forall_impl (λ c, c ∈ [lit "enroll"; lit "total_revenue";
                                           lit "total_expenditure"]));
             [apply (bool_decide_unpack _); vm_compute; reflexivity
             |intros c Hc; repeat (apply elem_of_cons in Hc as [->|Hc]; [done|]);
              by apply elem_of_nil in Hc]|]).
    by apply elem_of_nil in Hin.
  - exists v. split; [done|]. unfold eval_text. by rewrite Hex.
Qed.

Lemma raw_metrics_evaluate_witness :
  ∃ text v, metric_expr FALLBACK_SOURCE (lit "Surplus / Deficit") = Some text
            ∧ eval_text zero_enroll_cols text = Some v.
Proof.
  apply (raw_metrics_evaluate FALLBACK_SOURCE).
  - vm_compute. reflexivity.
  - apply (bool_decide_unpack _). vm_compute. reflexivity.
  - apply (bool_decide_unpack _). vm_compute. reflexivity.
  - apply (bool_decide_unpack _). vm_compute. reflexivity.
  - apply (bool_decide_unpack _). vm_compute. reflexivity.
Defined.

(** X9.  Under the raw variant the surplus is the total revenue minus
    the total expenditure of the same row, NULL when either is NULL. *)
Theorem raw_surplus_is_difference :
  ∀ SOURCE (cols : columns) revenue expenditure,
    variant_of SOURCE = Raw →
    cols !! lit "total_revenue" = Some revenue →
    cols !! lit "total_expenditure" = Some expenditure →
    ∃ ts tr te,
      metric_expr SOURCE (lit "Surplus / Deficit") = Some ts
      ∧ metric_expr SOURCE (lit "Total Revenue") = Some tr
      ∧ metric_expr SOURCE (lit "Total Expenditure") = Some te
      ∧ eval_text cols tr = Some revenue
      ∧ eval_text cols te = Some expenditure
      ∧ eval_text cols ts
        = Some (match revenue, expenditure with
                | Some x, Some y => Some (x - y)%Qc
                | _, _ => None
                end).
Proof.
  intros SOURCE cols revenue expenditure Hraw%variant_of_Raw Hrev Hexp.
  destruct (metric_expr_raw SOURCE Hraw) as (Hs & He & Hr).
  destruct parse_raw_others as (Hps & Hpe & Hpr).
  eexists _, _, _. split_and!; [done..| | |]; unfold eval_text.
  - rewrite Hpr. cbn. done.
  - rewrite Hpe. cbn. done.
  - rewrite Hps. cbn [mbind option_bind eval]. rewrite Hrev, Hexp.
    cbn [mbind option_bind]. by destruct revenue, expenditure.
Qed.

Lemma raw_surplus_is_difference_witness :
  ∃ ts tr te,
    metric_expr FALLBACK_SOURCE (lit "Surplus / Deficit") = Some ts
    ∧ metric_expr FALLBACK_SOURCE (lit "Total Revenue") = Some tr
    ∧ metric_expr FALLBACK_SOURCE (lit "Total Expenditure") = Some te
    ∧ eval_text zero_enroll_cols tr = Some (Some (Qc_of_Z 120))
    ∧ eval_text zero_enroll_cols te = Some (Some (Qc_of_Z 100))
    ∧ eval_text zero_enroll_cols ts = Some (Some (Qc_of_Z 120 - Qc_of_Z 100)%Qc).
Proof.
  apply (raw_surplus_is_difference FALLBACK_SOURCE zero_enroll_cols
           (Some (Qc_of_Z 120)) (Some (Qc_of_Z 100))).
  - vm_compute. reflexivity.
  - vm_compute. reflexivity.
  - vm_compute. reflexivity.
Defined.

(** ** The KPI cards *)

Section KpiFacts.

Local Open Scope Qc_scope.

Implicit Types (l vs : list Qc) (v x lo hi : Qc).

Lemma Qcmax_ge a b : a ≤ Qcmax a b ∧ b ≤ Qcmax a b.
Proof.
  unfold Qcmax. case_decide as H; split; try done.
  by apply Qclt_le_weak, Qclt_nge.
Qed.

Lemma Qcmin_le a b : Qcmin a b ≤ a ∧ Qcmin a b ≤ b.
Proof.
  unfold Qcmin. case_decide as H; split; try done.
  by apply Qclt_le_weak, Qclt_nge.
Qed.

Lemma Qcmax_cases a b : Qcmax a b = a ∨ Qcmax a b = b.
Proof. unfold Qcmax. case_decide; auto. Qed.

Lemma Qcmin_cases a b : Qcmin a b = a ∨ Qcmin a b = b.
Proof. unfold Qcmin. case_decide; auto. Qed.

(** The fold of the maximum is a greatest element of the list. *)
Lemma foldl_Qcmax_greatest v vs :
  foldl Qcmax v vs ∈ v :: vs ∧ ∀ x, x ∈ v :: vs → x ≤ foldl Qcmax v vs.
Proof.
  revert v. induction vs as [|w vs IH]; intros v; cbn [foldl].
  - split; [left|]. by intros x ->%list_elem_of_singleton.
  - destruct (IH (Qcmax v w)) as [Hin Hge]. split.
    + apply elem_of_cons in Hin as [->|Hin]; [|by do 2 right].
      destruct (Qcmax_cases v w) as [->| ->]; [left|right; left].
    + destruct (Qcmax_ge v w) as [Hv Hw].
      assert (Qcmax v w ≤ foldl Qcmax (Qcmax v w) vs) as Hm by (apply Hge; left).
      intros x [->|[->|Hx]%elem_of_cons]%elem_of_cons.
      * by trans (Qcmax v w).
      * by trans (Qcmax v w).
      * apply Hge. by right.
Qed.

Lemma foldl_Qcmin_least v vs :
  foldl Qcmin v vs ∈ v :: vs ∧ ∀ x, x ∈ v :: vs → foldl Qcmin v vs ≤ x.
Proof.
  revert v. induction vs as [|w vs IH]; intros v; cbn [foldl].
  - split; [left|]. by intros x ->%list_elem_of_singleton.
  - destruct (IH (Qcmin v w)) as [Hin Hle]. split.
    + apply elem_of_cons in Hin as [->|Hin]; [|by do 2 right].
      destruct (Qcmin_cases v w) as [->| ->]; [left|right; left].
    + destruct (Qcmin_le v w) as [Hv Hw].
      assert (foldl Qcmin (Qcmin v w) vs ≤ Qcmin v w) as Hm by (apply Hle; left).
      intros x [->|[->|Hx]%elem_of_cons]%elem_of_cons.
      * by trans (Qcmin v w).
      * by trans (Qcmin v w).
      * apply Hle. by right.
Qed.

Lemma resolved_Permutation df1 df2 : df1 ≡ₚ df2 → resolved df1 ≡ₚ resolved df2.
Proof.
  intros H. unfold resolved, dropna_state_code, apply_to_state_code. by rewrite H.
Qed.

Lemma metric_values_Permutation (df1 df2 : list coded) :
  df1 ≡ₚ df2 → metric_values df1 ≡ₚ metric_values df2.
Proof. intros H. unfold metric_values. by rewrite H. Qed.

End KpiFacts.

(** X10.  The three cards go together: either no row has a metric and
    all three show the dash, or all three show a number; then the minimum
    and the maximum are metrics of rows of the frame and every metric
    lies between them. *)
Theorem kpi_cards_consistent :
  ∀ df : list coded,
    (metric_values df = []
     ∧ kpi_mean df = None ∧ kpi_max df = None ∧ kpi_min df = None)
    ∨ (∃ lo av hi,
         kpi_min df = Some lo ∧ kpi_mean df = Some av ∧ kpi_max df = Some hi
         ∧ lo ∈ metric_values df ∧ hi ∈ metric_values df
         ∧ (∀ x, x ∈ metric_values df → (lo ≤ x)%Qc ∧ (x ≤ hi)%Qc)).
Proof.
  intros df. unfold kpi_mean, kpi_max, kpi_min.
  destruct (metric_values df) as [|v vs] eqn:Hvs; [by left|]. right.
  destruct (foldl_Qcmax_greatest v vs) as [Hmax_in Hmax].
  destruct (foldl_Qcmin_least v vs) as [Hmin_in Hmin].
  exists (foldl Qcmin v vs), (mean (v :: vs)), (foldl Qcmax v vs).
  split_and!; try done.
  intros x Hx. split; [by apply Hmin|by apply Hmax].
Qed.

(** X11.  The maximum and the minimum card do not depend on the order
    in which the warehouse returns the rows (the query of the selected
    year has no [ORDER BY]). *)
Theorem kpi_max_min_order_independent :
  ∀ df1 df2 : list record,
    df1 ≡ₚ df2 →
    kpi_max (resolved df1) = kpi_max (resolved df2)
    ∧ kpi_min (resolved df1) = kpi_min (resolved df2).
Proof.
  intros df1 df2 Hperm%resolved_Permutation%metric_values_Permutation.
  unfold kpi_max, kpi_min.
  destruct (metric_values (resolved df1)) as [|v1 vs1] eqn:H1;
    destruct (metric_values (resolved df2)) as [|v2 vs2] eqn:H2.
  - done.
  - by apply Permutation_nil_l in Hperm.
  - by apply Permutation_nil_r in Hperm.
  - split; f_equal.
    + destruct (foldl_Qcmax_greatest v1 vs1) as [Hin1 Hge1].
      destruct (foldl_Qcmax_greatest v2 vs2) as [Hin2 Hge2].
      apply (anti_symm Qcle).
      * apply Hge2. by rewrite <- Hperm.
      * apply Hge1. by rewrite Hperm.
    + destruct (foldl_Qcmin_least v1 vs1) as [Hin1 Hle1].
      destruct (foldl_Qcmin_least v2 vs2) as [Hin2 Hle2].
      apply (anti_symm Qcle).
      * apply Hle1. by rewrite Hperm.
      * apply Hle2. by rewrite <- Hperm.
Qed.

Lemma kpi_max_min_order_independent_witness :
  kpi_max (resolved [ny_record; guam_record; tx_record])
  = kpi_max (resolved [guam_record; ny_record; tx_record])
  ∧ kpi_min (resolved [ny_record; guam_record; tx_record])
    = kpi_min (resolved [guam_record; ny_record; tx_record]).
Proof.
  apply kpi_max_min_order_independent. apply perm_swap.
Defined.

(** ** The leaderboards and the count of states *)

Section LeaderboardFacts.

Implicit Types (df : list coded) (a b c : coded).

#[global] Instance metric_desc_trans : Transitive metric_desc.
Proof.
  intros a b c. unfold metric_desc.
  destruct (notna (df_metric (row a))), (notna (df_metric (row b))),
    (notna (df_metric (row c))); try done.
  intros ??. by etrans.
Qed.

#[global] Instance metric_desc_total : Total metric_desc.
Proof.
  intros a b. unfold metric_desc.
  destruct (notna (df_metric (row a))) as [x|], (notna (df_metric (row b))) as [y|];
    auto. destruct (total Qcle x y); auto.
Qed.

#[global] Instance metric_asc_trans : Transitive metric_asc.
Proof.
  intros a b c. unfold metric_asc.
  destruct (notna (df_metric (row a))), (notna (df_metric (row b))),
    (notna (df_metric (row c))); try done.
  intros ??. by etrans.
Qed.

#[global] Instance metric_asc_total : Total metric_asc.
Proof.
  intros a b. unfold metric_asc.
  destruct (notna (df_metric (row a))) as [x|], (notna (df_metric (row b))) as [y|];
    auto. destruct (total Qcle x y); auto.
Qed.

(** The first rows of a sorted frame: as many as asked for when the
    frame has them, rows of the frame, sorted, and before every row
    left out. *)
Lemma head_of_sorted (R : relation coded) `{!∀ a b, Decision (R a b)}
    `{!Transitive R, !Total R} n df :
  length (take n (merge_sort R df)) = (n `min` length df)%nat
  ∧ take n (merge_sort R df) ⊆+ df
  ∧ StronglySorted R (take n (merge_sort R df))
  ∧ (∀ a b, a ∈ take n (merge_sort R df) → b ∈ drop n (merge_sort R df) → R a b)
  ∧ take n (merge_sort R df) ++ drop n (merge_sort R df) ≡ₚ df.
Proof.
  pose proof (StronglySorted_merge_sort R df) as Hsorted.
  rewrite <- (take_drop n (merge_sort R df)) in Hsorted.
  apply StronglySorted_app in Hsorted as (Hdom & Htake & _).
  split_and!.
  - by rewrite length_take, (Permutation_length (merge_sort_Permutation R df)).
  - rewrite <- (merge_sort_Permutation R df) at 2. apply submseteq_take.
  - done.
  - done.
  - rewrite take_drop. apply merge_sort_Permutation.
Qed.

(** The first row of the frame sorted by falling metric carries the
    greatest metric. *)
Lemma head_desc_greatest df r :
  head (merge_sort metric_desc df) = Some r →
  r ∈ df ∧ ∀ x, x ∈ metric_values df →
              ∃ y, notna (df_metric (row r)) = Some y ∧ (x ≤ y)%Qc.
Proof.
  intros Hhead. pose proof (StronglySorted_merge_sort metric_desc df) as Hsorted.
  pose proof (merge_sort_Permutation metric_desc df) as Hperm.
  destruct (merge_sort metric_desc df) as [|r' l]; simplify_eq/=.
  split; [rewrite <- Hperm; left|].
  intros x (a & Ha & Hx)%list_elem_of_omap.
  apply StronglySorted_cons in Hsorted as [Hr _]. rewrite Forall_forall in Hr.
  rewrite <- Hperm in Ha. apply elem_of_cons in Ha as [->|Ha]; [by exists x|].
  specialize (Hr _ Ha). unfold metric_desc in Hr. rewrite Hx in Hr.
  destruct (notna (df_metric (row r))) as [y|]; [by exists y|done].
Qed.

Lemma head_asc_least df r :
  head (merge_sort metric_asc df) = Some r →
  r ∈ df ∧ ∀ x, x ∈ metric_values df →
              ∃ y, notna (df_metric (row r)) = Some y ∧ (y ≤ x)%Qc.
Proof.
  intros Hhead. pose proof (StronglySorted_merge_sort metric_asc df) as Hsorted.
  pose proof (merge_sort_Permutation metric_asc df) as Hperm.
  destruct (merge_sort metric_asc df) as [|r' l]; simplify_eq/=.
  split; [rewrite <- Hperm; left|].
  intros x (a & Ha & Hx)%list_elem_of_omap.
  apply StronglySorted_cons in Hsorted as [Hr _]. rewrite Forall_forall in Hr.
  rewrite <- Hperm in Ha. apply elem_of_cons in Ha as [->|Ha]; [by exists x|].
  specialize (Hr _ Ha). unfold metric_asc in Hr. rewrite Hx in Hr.
  destruct (notna (df_metric (row r))) as [y|]; [by exists y|done].
Qed.

Lemma head_take_10 {A} (l : list A) : head (take 10 l) = head l.
Proof. by destruct l. Qed.

Lemma head_merge_sort_nil (R : relation coded) `{!∀ a b, Decision (R a b)} df :
  head (merge_sort R df) = None → df = [].
Proof.
  intros Hnil%head_None. apply (f_equal length) in Hnil.
  rewrite (Permutation_length (merge_sort_Permutation R df)) in Hnil.
  by destruct df.
Qed.

End LeaderboardFacts.

(** X13.  Each leaderboard shows ten rows, or all rows of a frame that
    has fewer; they are rows of the frame, in the order of the sort, and
    every row shown comes before every row left out: no row left out has
    a larger metric than a row of the top list, or a smaller one than a
    row of the bottom list, and a row without metric is shown only after
    all rows with one. *)
Theorem leaderboards_show_extremes :
  ∀ df : list coded,
    (length (top df) = (10 `min` length df)%nat
     ∧ top df ⊆+ df
     ∧ StronglySorted metric_desc (top df)
     ∧ ∃ rest, top df ++ rest ≡ₚ df
               ∧ ∀ a b, a ∈ top df → b ∈ rest → metric_desc a b)
    ∧ (length (bottom df) = (10 `min` length df)%nat
       ∧ bottom df ⊆+ df
       ∧ StronglySorted metric_asc (bottom df)
       ∧ ∃ rest, bottom df ++ rest ≡ₚ df
                 ∧ ∀ a b, a ∈ bottom df → b ∈ rest → metric_asc a b).
Proof.
  intros df. unfold top, bottom. split.
  - destruct (head_of_sorted metric_desc 10 df) as (Hlen & Hsub & Hsorted & Hdom & Hperm).
    split_and!; [done..|]. by exists (drop 10 (merge_sort metric_desc df)).
  - destruct (head_of_sorted metric_asc 10 df) as (Hlen & Hsub & Hsorted & Hdom & Hperm).
    split_and!; [done..|]. by exists (drop 10 (merge_sort metric_asc df)).
Qed.

(** X14.  The leaderboards agree with the cards: the first row of the
    top list carries the value of the maximum card and the first row of
    the bottom list the value of the minimum card (and when the cards
    show the dash, the first rows, if any, have no metric). *)
Theorem leaderboards_agree_with_cards :
  ∀ df : list coded,
    kpi_max df = head (top df) ≫= (λ r, notna (df_metric (row r)))
    ∧ kpi_min df = head (bottom df) ≫= (λ r, notna (df_metric (row r))).
Proof.
  intros df. unfold top, bottom. rewrite !head_take_10. split.
  - destruct (head (merge_sort metric_desc df)) as [r|] eqn:Hhead.
    2:{ by rewrite (head_merge_sort_nil _ _ Hhead). }
    destruct (head_desc_greatest _ _ Hhead) as [Hr Hge]. cbn [mbind option_bind].
    unfold kpi_max. destruct (metric_values df) as [|v vs] eqn:Hvs.
    + destruct (notna (df_metric (row r))) as [y|] eqn:Hy; [|done].
      assert (y ∈ metric_values df) as Hin by (apply list_elem_of_omap; by exists r).
      rewrite Hvs in Hin. by apply elem_of_nil in Hin.
    + destruct (foldl_Qcmax_greatest v vs) as [Hin Hmax].
      destruct (Hge _ Hin) as (y & Hy & Hle). rewrite Hy. f_equal.
      apply (anti_symm Qcle); [done|]. apply Hmax. rewrite <- Hvs.
      apply list_elem_of_omap. by exists r.
  - destruct (head (merge_sort metric_asc df)) as [r|] eqn:Hhead.
    2:{ by rewrite (head_merge_sort_nil _ _ Hhead). }
    destruct (head_asc_least _ _ Hhead) as [Hr Hle]. cbn [mbind option_bind].
    unfold kpi_min. destruct (metric_values df) as [|v vs] eqn:Hvs.
    + destruct (notna (df_metric (row r))) as [y|] eqn:Hy; [|done].
      assert (y ∈ metric_values df) as Hin by (apply list_elem_of_omap; by exists r).
      rewrite Hvs in Hin. by apply elem_of_nil in Hin.
    + destruct (foldl_Qcmin_least v vs) as [Hin Hmin].
      destruct (Hle _ Hin) as (y & Hy & Hge). rewrite Hy. f_equal.
      apply (anti_symm Qcle); [|done]. apply Hmin. rewrite <- Hvs.
      apply list_elem_of_omap. by exists r.
Qed.

Section CountFacts.

Lemma length_omap_le {A B} (f : A → option B) (l : list A) :
  (length (omap f l) ≤ length l)%nat.
Proof.
  induction l as [|x l IH]; [done|]. cbn. destruct (f x); simpl; lia.
Qed.

Lemma resolved_state_code r df :
  r ∈ resolved df →
  ∃ s code, df_state (row r) = Some s ∧ state_code r = Some code
            ∧ to_state_code (Some s) = Some code.
Proof.
  intros (_ & [code Hcode] & Heq)%elem_of_resolved.
  destruct (df_state (row r)) as [s|] eqn:Hs.
  - exists s, code. by rewrite <- Heq.
  - rewrite Hcode in Heq. done.
Qed.

End CountFacts.

(** X15.  The card "States in view" counts the distinct raw
    identifiers of the resolved frame, not the distinct codes: it is
    never smaller than the number of codes, and it is larger when a state
    comes under two spellings. *)
Theorem states_in_view_counts_identifiers :
  (∀ df : list record,
     (codes_in_view (resolved df) ≤ states_in_view (resolved df))%nat)
  ∧ (codes_in_view (resolved [record_of (Some (lit "NEW_YORK")) None;
                              record_of (Some (lit "New York")) None]) = 1%nat
     ∧ states_in_view (resolved [record_of (Some (lit "NEW_YORK")) None;
                                 record_of (Some (lit "New York")) None]) = 2%nat).
Proof.
  split; [|split; vm_compute; reflexivity].
  intros df. unfold codes_in_view, states_in_view.
  set (states := remove_dups (omap (λ r, df_state (row r)) (resolved df))).
  trans (length (omap (λ s, to_state_code (Some s)) states));
    [|apply length_omap_le].
  apply submseteq_length, NoDup_submseteq; [apply NoDup_remove_dups|].
  intros code (r & Hr & Hcode)%elem_of_remove_dups%list_elem_of_omap.
  destruct (resolved_state_code _ _ Hr) as (s & code' & Hs & Hc & Hn).
  apply list_elem_of_omap. exists s. split; [|congruence].
  apply elem_of_remove_dups, list_elem_of_omap. by exists r.
Qed.

(** ** The controls: the states, the years and the defaults *)

Section ControlsFacts.

#[global] Instance state_le_trans : Transitive state_le.
Proof.
  intros [x|] [y|] [z|]; simpl; try done.
  intros [->|Hxy] [->|Hyz]; auto. right. by etrans.
Qed.

#[global] Instance state_le_total : Total state_le.
Proof.
  intros [x|] [y|]; simpl; auto.
  destruct (trichotomyT lexico x y) as [[?|?]|?]; auto.
Qed.

Lemma NoDup_omap_id {A} (l : list (option A)) : NoDup l → NoDup (omap id l).
Proof.
  induction 1 as [|x l Hx _ IH]; [constructor|].
  destruct x as [a|]; [|done]. cbn. constructor; [|done].
  intros (y & Hy & Heq)%list_elem_of_omap. simpl in Heq. by subst.
Qed.

Lemma elem_of_omap_id {A} (l : list (option A)) a : a ∈ omap id l ↔ Some a ∈ l.
Proof.
  rewrite list_elem_of_omap. split.
  - intros (x & Hx & Heq). simpl in Heq. by subst.
  - intros Hin. by exists (Some a).
Qed.

Lemma StronglySorted_omap_id {A} (R : relation (option A)) (l : list (option A)) :
  StronglySorted R l → StronglySorted (λ x y, R (Some x) (Some y)) (omap id l).
Proof.
  induction 1 as [|x l _ IH Hx]; [constructor|].
  destruct x as [a|]; [|done]. cbn. constructor; [done|].
  apply Forall_forall. intros y Hy%elem_of_omap_id.
  rewrite Forall_forall in Hx. by apply Hx.
Qed.

Lemma StronglySorted_fmap_Some (l : list Z) :
  StronglySorted year_le (Some <$> l) → StronglySorted Z.le l.
Proof.
  induction l as [|x l IH]; [constructor|]. rewrite fmap_cons.
  intros [Hx Hl]%StronglySorted_cons. constructor; [by apply IH|].
  rewrite Forall_fmap in Hx. exact Hx.
Qed.

Lemma mapM_id_Some {A} (l : list (option A)) k : mapM id l = Some k ↔ l = Some <$> k.
Proof.
  rewrite mapM_Some. split.
  - induction 1 as [|x y l k Hxy _ IH]; [done|]. simpl in Hxy. by subst.
  - intros ->. induction k; by constructor.
Qed.

Lemma foldl_Zmin_least x l :
  foldl Z.min x l ∈ x :: l ∧ ∀ y, y ∈ x :: l → (foldl Z.min x l ≤ y)%Z.
Proof.
  revert x. induction l as [|w l IH]; intros x; cbn [foldl].
  - split; [left|]. intros y ->%list_elem_of_singleton. lia.
  - destruct (IH (Z.min x w)) as [Hin Hle]. split.
    + apply elem_of_cons in Hin as [->|Hin]; [|by do 2 right].
      destruct (Z.min_spec x w) as [[_ ->]|[_ ->]]; [left|right; left].
    + assert (foldl Z.min (Z.min x w) l ≤ Z.min x w)%Z as Hm by (apply Hle; left).
      intros y [->|[->|Hy]%elem_of_cons]%elem_of_cons; [lia..|].
      apply Hle. by right.
Qed.

Lemma foldl_Zmax_greatest x l :
  foldl Z.max x l ∈ x :: l ∧ ∀ y, y ∈ x :: l → (y ≤ foldl Z.max x l)%Z.
Proof.
  revert x. induction l as [|w l IH]; intros x; cbn [foldl].
  - split; [left|]. intros y ->%list_elem_of_singleton. lia.
  - destruct (IH (Z.max x w)) as [Hin Hge]. split.
    + apply elem_of_cons in Hin as [->|Hin]; [|by do 2 right].
      destruct (Z.max_spec x w) as [[_ ->]|[_ ->]]; [right; left|left].
    + assert (Z.max x w ≤ foldl Z.max (Z.max x w) l)%Z as Hm by (apply Hge; left).
      intros y [->|[->|Hy]%elem_of_cons]%elem_of_cons; [lia..|].
      apply Hge. by right.
Qed.

End ControlsFacts.

(** X16.  The list of states offered for the drill-down has every
    state of the source once, no missing value, in ascending order of
    code points. *)
Theorem get_states_distinct_sorted :
  ∀ rows : list sqlrow,
    NoDup (get_states rows)
    ∧ (∀ s, s ∈ get_states rows ↔ ∃ r, r ∈ rows ∧ r_state r = Some s)
    ∧ StronglySorted (λ x y, x = y ∨ lexico x y) (get_states rows).
Proof.
  intros rows. unfold get_states.
  pose proof (merge_sort_Permutation state_le (remove_dups (r_state <$> rows))) as Hperm.
  split_and!.
  - apply NoDup_omap_id. rewrite Hperm. apply NoDup_remove_dups.
  - intros s. rewrite elem_of_omap_id, Hperm, elem_of_remove_dups, list_elem_of_fmap.
    split; intros (r & ? & ?); by exists r.
  - apply (StronglySorted_omap_id state_le), StronglySorted_merge_sort; apply _.
Qed.

(** X17.  The years of the slider: the conversion to integers fails
    exactly when some row of the source has no year; otherwise the list
    has every year of the source once, in ascending order. *)
Theorem years_distinct_sorted :
  ∀ rows : list sqlrow,
    (years rows = None ↔ ∃ r, r ∈ rows ∧ r_year r = None)
    ∧ (∀ ys, years rows = Some ys →
         NoDup ys ∧ StronglySorted Z.le ys
         ∧ ∀ y, y ∈ ys ↔ ∃ r, r ∈ rows ∧ r_year r = Some y).
Proof.
  intros rows. unfold years.
  pose proof (merge_sort_Permutation year_le (remove_dups (r_year <$> rows))) as Hperm.
  split.
  - rewrite mapM_None, Exists_exists. split.
    + intros (x & Hx & Hnone). simpl in Hnone. subst x.
      rewrite Hperm, elem_of_remove_dups, list_elem_of_fmap in Hx.
      destruct Hx as (r & ? & ?). by exists r.
    + intros (r & Hr & Hy). exists None. split; [|done].
      rewrite Hperm, elem_of_remove_dups, list_elem_of_fmap. by exists r.
  - intros ys Hys%mapM_id_Some. split_and!.
    + apply (NoDup_fmap_1 Some). rewrite <- Hys, Hperm. apply NoDup_remove_dups.
    + apply StronglySorted_fmap_Some. rewrite <- Hys.
      apply StronglySorted_merge_sort; apply _.
    + intros y. trans (Some y ∈ Some <$> ys).
      { rewrite list_elem_of_fmap. split; [by exists y|]. by intros (? & [= <-] & ?). }
      rewrite <- Hys, Hperm, elem_of_remove_dups, list_elem_of_fmap.
      split; intros (r & ? & ?); by exists r.
Qed.

Lemma years_distinct_sorted_witness :
  NoDup [2018%Z; 2019%Z] ∧ StronglySorted Z.le [2018%Z; 2019%Z]
  ∧ ∀ y, y ∈ [2018%Z; 2019%Z] ↔ ∃ r, r ∈ raw_rows ∧ r_year r = Some y.
Proof.
  apply (years_distinct_sorted raw_rows). vm_compute. reflexivity.
Defined.

(** X18.  The bounds of the slider: [min] and [max] raise on an empty
    list of years; otherwise both bounds are years of the list and every
    year lies between them, so the default of the slider, the upper
    bound, is the latest year of the data. *)
Theorem year_range_bounds :
  ∀ ys : list Z,
    (year_range ys = None ↔ ys = [])
    ∧ (∀ min_year max_year, year_range ys = Some (min_year, max_year) →
         min_year ∈ ys ∧ max_year ∈ ys
         ∧ ∀ y, y ∈ ys → (min_year ≤ y)%Z ∧ (y ≤ max_year)%Z).
Proof.
  intros [|x l]; [done|]. split; [done|].
  unfold year_range. cbn. intros lo hi [= <- <-].
  destruct (foldl_Zmin_least x l) as [Hmin_in Hmin].
  destruct (foldl_Zmax_greatest x l) as [Hmax_in Hmax].
  split_and!; [done..|]. intros y Hy. split; [by apply Hmin|by apply Hmax].
Qed.

Lemma year_range_bounds_witness :
  (1992%Z ∈ [2016%Z; 1992%Z; 2003%Z]) ∧ (2016%Z ∈ [2016%Z; 1992%Z; 2003%Z])
  ∧ ∀ y, y ∈ [2016%Z; 1992%Z; 2003%Z] → (1992 ≤ y)%Z ∧ (y ≤ 2016)%Z.
Proof.
  apply (year_range_bounds [2016%Z; 1992%Z; 2003%Z]). vm_compute. reflexivity.
Defined.

(** X19.  The index passed to the select box of the drill-down is
    computed without raising: it is the first position of [NEW_YORK] when
    the list of states has it, and 0 otherwise.  On a list that is not
    empty it designates an option of the list, [NEW_YORK] or else the
    first option; on an empty list it is 0 and designates nothing. *)
Theorem default_selected_state_in_list :
  ∀ states_list : list str,
    (∃ i, default_state_index states_list = Some i)
    ∧ (lit "NEW_YORK" ∈ states_list →
       default_selected_state states_list = Some (lit "NEW_YORK"))
    ∧ (lit "NEW_YORK" ∉ states_list →
       default_state_index states_list = Some 0%nat
       ∧ default_selected_state states_list = head states_list)
    ∧ (states_list ≠ [] →
       ∃ s, default_selected_state states_list = Some s ∧ s ∈ states_list)
    ∧ (states_list = [] →
       default_state_index states_list = Some 0%nat
       ∧ default_selected_state states_list = None).
Proof.
  intros l. unfold default_selected_state, default_state_index, py_index.
  destruct (decide (lit "NEW_YORK" ∈ l)) as [Hin|Hin].
  - destruct (list_find_elem_of (λ y, y = lit "NEW_YORK") l _ Hin eq_refl)
      as [[i x] Hfind].
    rewrite Hfind. cbn. apply list_find_Some in Hfind as (Hi & -> & _).
    rewrite Hi. split_and!; [by eexists|done|done| |].
    + intros _. by exists (lit "NEW_YORK").
    + intros ->. by apply elem_of_nil in Hin.
  - cbn. rewrite <- head_lookup. split_and!; [by eexists|done|done| |].
    + intros Hne. destruct l as [|s l]; [done|]. exists s. split; [done|left].
    + by intros ->.
Qed.

Lemma default_selected_state_in_list_witness :
  default_selected_state [lit "ALABAMA"; lit "NEW_YORK"; lit "TEXAS"]
  = Some (lit "NEW_YORK")
  ∧ (default_state_index [lit "ALABAMA"; lit "TEXAS"] = Some 0%nat
     ∧ default_selected_state [lit "ALABAMA"; lit "TEXAS"]
       = head [lit "ALABAMA"; lit "TEXAS"])
  ∧ (default_state_index [] = Some 0%nat ∧ default_selected_state [] = None).
Proof.
  split; [|split].
  - apply (proj1 (proj2 (default_selected_state_in_list _))).
    apply (bool_decide_unpack _). vm_compute. reflexivity.
  - apply (proj1 (proj2 (proj2 (default_selected_state_in_list _)))).
    apply (bool_decide_unpack _). vm_compute. reflexivity.
  - apply (proj2 (proj2 (proj2 (proj2 (default_selected_state_in_list _))))).
    reflexivity.
Defined.

(** ** The series of the selected state and the delta *)

Section SeriesFacts.

Implicit Types (pts : list point) (rows : list sqlrow) (q : query).

(** A text without quote is its own literal. *)
Lemma sql_literal_plain text : 39 ∉ text → sql_literal text = Some text.
Proof.
  induction text as [|c r IH]; [done|].
  rewrite not_elem_of_cons. intros [Hc Hr]. cbn [sql_literal].
  destruct (N.eqb_spec c 39) as [->|_]; [done|]. by rewrite IH.
Qed.

(** A single quote in the text ends the literal too early. *)
Lemma sql_literal_single_quote a b :
  39 ∉ a → head b ≠ Some 39 → sql_literal (a ++ 39 :: b) = None.
Proof.
  intros Ha Hb. induction a as [|c r IH].
  - cbn. destruct b as [|d b]; [done|].
    destruct (N.eqb_spec d 39) as [->|_]; [by destruct Hb|done].
  - apply not_elem_of_cons in Ha as [Hc Hr]. rewrite <- app_comm_cons.
    cbn [sql_literal]. destruct (N.eqb_spec c 39) as [->|_]; [done|].
    by rewrite IH.
Qed.

Lemma state_trend_q_shape SOURCE mexpr selected_state :
  39 ∉ selected_state →
  ∃ q, state_trend_q SOURCE mexpr selected_state = Some q
       ∧ q_expr q = mexpr ∧ q_from q = SOURCE
       ∧ q_where_state q = Some selected_state ∧ q_avg_by_year q = false.
Proof.
  intros Hplain. unfold state_trend_q. rewrite sql_literal_plain by done.
  eexists. split; [done|]. by case_decide.
Qed.

(** [run_query] on a query with [WHERE] and without [GROUP BY], spelled
    out. *)
Lemma run_query_filtered (db : database) q rows e s :
  db !! q_from q = Some rows → parse (q_expr q) = Some e →
  q_where_state q = Some s → q_avg_by_year q = false →
  run_query db q
  = order_by_year <$> mapM (row_point q e) (filter (λ r, r_state r = Some s) rows).
Proof.
  intros Hrows He Hw Ha. unfold run_query. rewrite Hrows. simpl. rewrite He.
  simpl. rewrite Hw, Ha. by destruct (mapM _ _).
Qed.

Lemma row_points_elem q e rows pts p :
  mapM (row_point q e) rows = Some pts → p ∈ pts →
  ∃ r, r ∈ rows ∧ p_year p = r_year r ∧ eval (r_cols r) e = Some (p_metric p).
Proof.
  intros H%mapM_Some. induction H as [|r p' rows pts Hrp _ IH].
  - by intros ?%elem_of_nil.
  - intros [->|Hin]%elem_of_cons.
    + exists r. split; [left|]. unfold row_point in Hrp.
      destruct (eval (r_cols r) e) as [v|]; simplify_eq/=.
      split; [apply year_of_row|done].
    + destruct (IH Hin) as (r' & Hr' & Hp). exists r'. split; [by right|done].
Qed.

Lemma filter_state_nil rows s :
  Some s ∉ r_state <$> rows → filter (λ r, r_state r = Some s) rows = [].
Proof.
  induction rows as [|r rows IH]; [done|].
  rewrite fmap_cons, not_elem_of_cons. intros [Hr Hno].
  rewrite filter_cons, decide_False by done. by apply IH.
Qed.

Lemma year_value_Some df year a :
  year_value df year = Some a
  ↔ Forall (λ p, is_Some (o_year p)) df
    ∧ ∃ p, head (filter (λ p, o_year p = Some year) df) = Some p
           ∧ o_metric p = Some a.
Proof.
  split.
  - intros H. destruct (mapM o_year df) as [years|] eqn:Hy.
    + split; [apply mapM_is_Some; by rewrite Hy|].
      rewrite (year_value_first _ _ _ Hy) in H.
      destruct (head _) as [p|]; [|done]. by exists p.
    + unfold year_value in H. by rewrite Hy in H.
  - intros [Hall (p & Hp & Ha)].
    assert (is_Some (mapM o_year df)) as [years Hy] by by apply mapM_is_Some.
    by rewrite (year_value_first _ _ _ Hy), Hp.
Qed.

End SeriesFacts.

(** X20.  The series of the selected state.  The state is pasted between
    quotes into the text of the query.  When it holds no quote, and the
    source rows have the columns of the metric, the query succeeds and
    answers one point per stored row of that state, nothing being
    aggregated, in ascending order of the year; each point carries the
    year of its row and the value of the metric on it, and a state
    without row gives an empty series.  A state with a single quote in it
    does not leave a query of this shape. *)
Theorem state_series_one_point_per_row :
  (∀ (db : database) SOURCE label mexpr selected_state rows,
     db !! SOURCE = Some rows →
     metric_expr SOURCE label = Some mexpr →
     Forall (λ r, Forall (λ c, is_Some (r_cols r !! c)) (text_columns mexpr)) rows →
     39 ∉ selected_state →
     ∃ e q frame,
       parse mexpr = Some e
       ∧ state_trend_q SOURCE mexpr selected_state = Some q
       ∧ run_query db q = Some frame
       ∧ StronglySorted year_le (p_year <$> frame)
       ∧ p_year <$> frame
         ≡ₚ r_year <$> filter (λ r, r_state r = Some selected_state) rows
       ∧ (∀ p, p ∈ frame →
            ∃ r, r ∈ rows ∧ r_state r = Some selected_state
                 ∧ p_year p = r_year r ∧ eval (r_cols r) e = Some (p_metric p))
       ∧ (Some selected_state ∉ r_state <$> rows → frame = []))
  ∧ (∀ SOURCE mexpr a b,
       39 ∉ a → head b ≠ Some 39 →
       state_trend_q SOURCE mexpr (a ++ 39 :: b) = None).
Proof.
  split.
  2:{ intros SOURCE mexpr a b Ha Hb. unfold state_trend_q.
      by rewrite sql_literal_single_quote. }
  intros db SOURCE label mexpr s rows Hrows Hexpr Hcols Hplain.
  destruct (state_trend_q_shape SOURCE mexpr s Hplain)
    as (q & Hq & Hqe & Hqf & Hqw & Hqa).
  assert (∃ e, parse mexpr = Some e
               ∧ Forall (λ r, is_Some (eval (r_cols r) e)) rows) as (e & He & Hev).
  { pose proof (metric_options_guarded SOURCE) as Hg. rewrite Forall_forall in Hg.
    specialize (Hg _ (metric_expr_elem _ _ _ Hexpr)). cbn [snd] in Hg.
    destruct (parse mexpr) as [e|] eqn:He; [|done]. exists e. split; [done|].
    eapply Forall_impl; [done|]. intros r Hr.
    destruct (metric_expr_evaluates _ _ _ (r_cols r) Hexpr Hr) as (e' & He' & Hv).
    by simplify_eq. }
  destruct (row_points_total q e (filter (λ r, r_state r = Some s) rows))
    as [pts Hpts].
  { apply Forall_forall. intros r [_ Hr]%list_elem_of_filter.
    rewrite Forall_forall in Hev. by apply Hev. }
  exists e, q, (order_by_year pts). split_and!.
  - done.
  - done.
  - rewrite (run_query_filtered db q rows e s); [by rewrite Hpts|by rewrite ?Hqf, ?Hqe..].
  - apply order_by_year_sorted.
  - rewrite order_by_year_perm. by rewrite (row_points_years _ _ _ _ Hpts).
  - intros p Hp. rewrite order_by_year_perm in Hp.
    destruct (row_points_elem _ _ _ _ _ Hpts Hp) as (r & Hr & Hy & Hv).
    apply list_elem_of_filter in Hr as [Hs Hr]. by exists r.
  - intros Hno. assert (filter (λ r, r_state r = Some s) rows = []) as Hnil.
    { by apply filter_state_nil. }
    rewrite Hnil in Hpts. cbn in Hpts. injection Hpts as <-. reflexivity.
Qed.

(** The state [NEW_YORK] on the sample relation, and the state [O'AHU],
    whose quote ends the literal after its first letter. *)
Lemma state_series_one_point_per_row_witness :
  (∃ e q frame,
     parse (lit "total_revenue / NULLIF(enroll, 0)") = Some e
     ∧ state_trend_q FALLBACK_SOURCE (lit "total_revenue / NULLIF(enroll, 0)")
                     (lit "NEW_YORK") = Some q
     ∧ run_query raw_db q = Some frame
     ∧ StronglySorted year_le (p_year <$> frame)
     ∧ p_year <$> frame
       ≡ₚ r_year <$> filter (λ r, r_state r = Some (lit "NEW_YORK")) raw_rows
     ∧ (∀ p, p ∈ frame →
          ∃ r, r ∈ raw_rows ∧ r_state r = Some (lit "NEW_YORK")
               ∧ p_year p = r_year r ∧ eval (r_cols r) e = Some (p_metric p))
     ∧ (Some (lit "NEW_YORK") ∉ r_state <$> raw_rows → frame = []))
  ∧ state_trend_q FALLBACK_SOURCE (lit "total_revenue") (lit "O" ++ 39 :: lit "AHU")
    = None.
Proof.
  destruct state_series_one_point_per_row as [Hseries Hquote].
  split.
  - apply (Hseries raw_db FALLBACK_SOURCE (lit "Revenue per student")).
    + vm_compute. reflexivity.
    + vm_compute. reflexivity.
    + apply (bool_decide_unpack _). vm_compute. reflexivity.
    + apply (bool_decide_unpack _). vm_compute. reflexivity.
  - apply Hquote.
    + apply (bool_decide_unpack _). vm_compute. reflexivity.
    + vm_compute. discriminate.
Defined.

(** X21.  The delta under the chart is written exactly when every row of
    both frames has a year, both frames have a row of the selected year
    and the first such row of each holds a metric; it is then the metric
    of the state's first row of the year minus that of the nation's
    first row, whatever later rows of the year hold. *)
Theorem delta_uses_first_rows :
  ∀ (state_trend national_trend : list obs) (year : Z) (d : pyfloat),
    delta state_trend national_trend year = Some d
    ↔ Forall (λ p, is_Some (o_year p)) state_trend
      ∧ Forall (λ p, is_Some (o_year p)) national_trend
      ∧ ∃ ps pn a b,
          head (filter (λ p, o_year p = Some year) state_trend) = Some ps
          ∧ head (filter (λ p, o_year p = Some year) national_trend) = Some pn
          ∧ o_metric ps = Some a ∧ o_metric pn = Some b ∧ d = fsub a b.
Proof.
  intros st nat year d. unfold delta. split.
  - intros H.
    destruct (year_value st year) as [a|] eqn:Ha; [|done].
    destruct (year_value nat year) as [b|] eqn:Hb; [|done].
    apply year_value_Some in Ha as [Hst (ps & Hps & Hma)].
    apply year_value_Some in Hb as [Hnat (pn & Hpn & Hmb)].
    simplify_eq/=. split_and!; [done..|]. by exists ps, pn, a, b.
  - intros (Hst & Hnat & ps & pn & a & b & Hps & Hpn & Hma & Hmb & ->).
    rewrite (proj2 (year_value_Some st year a)) by (split; [done|by exists ps]).
    by rewrite (proj2 (year_value_Some nat year b)) by (split; [done|by exists pn]).
Qed.

Lemma delta_uses_first_rows_witness :
  delta state_three_years national_two_years 2017 = Some (Fin (Qc_of_Z 9 - Qc_of_Z 6)).
Proof.
  apply (proj2 (delta_uses_first_rows state_three_years national_two_years 2017
                  (Fin (Qc_of_Z 9 - Qc_of_Z 6)))).
  split_and!.
  - apply (bool_decide_unpack _). vm_compute. reflexivity.
  - apply (bool_decide_unpack _). vm_compute. reflexivity.
  - exists (obs_of 2017 9), (obs_of 2017 6), (Fin (Qc_of_Z 9)), (Fin (Qc_of_Z 6)).
    split_and!; reflexivity.
Defined.
